(** * CFDI extraction engine: a shallow embedding of the two extractors

    The repository ships two copies of one class, [CFDIExtractor]:
    [cfdi_tool/extractor.py] (module [Tool] below, the one the entry points
    import) and [scripts/cfdi_extractor.py] (module [Scripts]).  Both read an
    [xml.etree.ElementTree] tree and build nested dictionaries.

    The embedding keeps the shapes of the source:
    - an [Element] has a tag in Clark notation, an attribute dictionary and
      an ordered list of children;
    - [find]/[findall] with the three path forms the code uses;
    - [float(...)] either returns a binary64 value or raises [ValueError];
    - dictionaries whose key set matters are [gmap]s, the others are records;
    - [print] appends to a list of output lines. *)

From Stdlib Require Import Ascii String Floats.SpecFloat.
From stdpp Require Import gmap strings list fin_maps pretty sorting.

Local Open Scope string_scope.
Local Open Scope list_scope.

(* ===================================================================== *)
(** * The model *)
(* ===================================================================== *)

(* ===================================================================== *)
(** ** Exceptions *)
(* ===================================================================== *)

(** The exceptions the modelled code can raise after loading.  [ValueError]
    carries the text [float] refused. *)
Inductive exn :=
  | ValueError (text : string)
  | OverflowError
  | KeyError (key : string).

Inductive result (A : Type) :=
  | Ok (a : A)
  | Raise (e : exn).
Arguments Ok {A} a.
Arguments Raise {A} e.

Definition bind {A B} (r : result A) (k : A -> result B) : result B :=
  match r with
  | Ok a => k a
  | Raise e => Raise e
  end.

Arguments bind {A B} !r k /.

Notation "'let*' x ':=' r 'in' k" := (bind r (fun x => k))
  (at level 10, x name, r at level 100, k at level 200).

(** A [for] loop that appends one computed entry per element: the first
    exception stops the loop. *)
Fixpoint for_each {A B} (f : A -> result B) (l : list A) : result (list B) :=
  match l with
  | [] => Ok []
  | x :: l' => let* y := f x in let* ys := for_each f l' in Ok (y :: ys)
  end.

(* ===================================================================== *)
(** ** The element tree of [xml.etree.ElementTree] *)
(* ===================================================================== *)

#[warnings="-register-all"]
Inductive Element :=
  | mkElement (tag : string) (attrib : gmap string string)
              (children : list Element).

Definition tag (e : Element) : string :=
  match e with mkElement t _ _ => t end.
Definition attrib (e : Element) : gmap string string :=
  match e with mkElement _ a _ => a end.
Definition children (e : Element) : list Element :=
  match e with mkElement _ _ cs => cs end.

(** A value of Python as [Element.get] can return it to [float]: the
    attribute text, or the integer default. *)
Inductive pyval :=
  | PyStr (s : string)
  | PyInt (n : Z).

(** [e.get(key)]: [None] when the attribute is missing. *)
Definition get (e : Element) (key : string) : option string :=
  attrib e !! key.

(** [e.get(key, default)] with a string default. *)
Definition get_or (e : Element) (key default : string) : string :=
  match attrib e !! key with
  | Some s => s
  | None => default
  end.

(** [e.get(key, 0)]. *)
Definition get_or_0 (e : Element) (key : string) : pyval :=
  match attrib e !! key with
  | Some s => PyStr s
  | None => PyInt 0
  end.

(* ===================================================================== *)
(** ** Texts *)
(* ===================================================================== *)

(** A Python [str] is a sequence of code points.  A [string] holds its
    UTF-8 encoding, so that equality, [in], [startswith] and [endswith] are
    those of the bytes.  The two operations of the code that look at the
    characters themselves, [str.lower] and [float], work on the code points
    and use the properties of the Unicode Character Database 14.0.0, the one
    CPython 3.11 is built with. *)

Section CodePoints.
Local Open Scope N_scope.

Definition continuation (c : ascii) : bool :=
  (0x80 <=? N_of_ascii c) && (N_of_ascii c <=? 0xBF).

Definition low6 (c : ascii) : N := N_of_ascii c - 0x80.

(** The code points of a text.  A byte that starts no well-formed sequence
    is kept as the value [0x110000 + byte], which is no code point and has
    none of the properties below. *)
Fixpoint code_points (s : list ascii) : list N :=
  match s with
  | [] => []
  | a :: s1 =>
      let b0 := N_of_ascii a in
      let raw := (0x110000 + b0) :: code_points s1 in
      if b0 <? 0x80 then b0 :: code_points s1
      else
        match s1 with
        | b :: s2 =>
            if (0xC2 <=? b0) && (b0 <=? 0xDF) then
              if continuation b
              then ((b0 - 0xC0) * 64 + low6 b) :: code_points s2
              else raw
            else
              match s2 with
              | c :: s3 =>
                  if (0xE0 <=? b0) && (b0 <=? 0xEF) then
                    let p := (b0 - 0xE0) * 4096 + low6 b * 64 + low6 c in
                    if continuation b && continuation c && (0x800 <=? p)
                    then p :: code_points s3
                    else raw
                  else
                    match s3 with
                    | d :: s4 =>
                        let p := (b0 - 0xF0) * 262144 + low6 b * 4096
                                 + low6 c * 64 + low6 d in
                        if (0xF0 <=? b0) && (b0 <=? 0xF4)
                           && continuation b && continuation c
                           && continuation d
                           && (0x10000 <=? p) && (p <=? 0x10FFFF)
                        then p :: code_points s4
                        else raw
                    | [] => raw
                    end
              | [] => raw
              end
        | [] => raw
        end
  end.

(** The bytes of a code point. *)
Definition utf8 (p : N) : list ascii :=
  if p <? 0x80 then [ascii_of_N p]
  else if p <? 0x800 then
    [ascii_of_N (0xC0 + p / 64); ascii_of_N (0x80 + p mod 64)]
  else if p <? 0x10000 then
    [ascii_of_N (0xE0 + p / 4096); ascii_of_N (0x80 + (p / 64) mod 64);
     ascii_of_N (0x80 + p mod 64)]
  else if p <? 0x110000 then
    [ascii_of_N (0xF0 + p / 262144); ascii_of_N (0x80 + (p / 4096) mod 64);
     ascii_of_N (0x80 + (p / 64) mod 64); ascii_of_N (0x80 + p mod 64)]
  else [ascii_of_N (p - 0x110000)].

Definition in_ranges (p : N) (ranges : list (N * N)) : bool :=
  existsb (fun r => (r.1 <=? p) && (p <=? r.2)) ranges.

(** White_Space beyond ASCII: what [str.isspace] accepts there. *)
Definition white_space : list N :=
  [
    0x85; 0xA0; 0x1680; 0x2000; 0x2001; 0x2002; 0x2003; 0x2004; 0x2005;
    0x2006; 0x2007; 0x2008; 0x2009; 0x200A; 0x2028; 0x2029; 0x202F; 0x205F;
    0x3000 ].

(** The digits zero of the scripts: each starts a run of the ten decimal
    digits 0 to 9 (General_Category Nd). *)
Definition decimal_zeros : list N :=
  [
    0x660; 0x6F0; 0x7C0; 0x966; 0x9E6; 0xA66; 0xAE6; 0xB66; 0xBE6; 0xC66;
    0xCE6; 0xD66; 0xDE6; 0xE50; 0xED0; 0xF20; 0x1040; 0x1090; 0x17E0; 0x1810;
    0x1946; 0x19D0; 0x1A80; 0x1A90; 0x1B50; 0x1BB0; 0x1C40; 0x1C50; 0xA620;
    0xA8D0; 0xA900; 0xA9D0; 0xA9F0; 0xAA50; 0xABF0; 0xFF10; 0x104A0; 0x10D30;
    0x11066; 0x110F0; 0x11136; 0x111D0; 0x112F0; 0x11450; 0x114D0; 0x11650;
    0x116C0; 0x11730; 0x118E0; 0x11950; 0x11C50; 0x11D50; 0x11DA0; 0x16A60;
    0x16AC0; 0x16B50; 0x1D7CE; 0x1D7D8; 0x1D7E2; 0x1D7EC; 0x1D7F6; 0x1E140;
    0x1E2F0; 0x1E950; 0x1FBF0 ].

Definition decimal_value (p : N) : option N :=
  match List.find (fun z => (z <=? p) && (p <? z + 10)) decimal_zeros with
  | Some z => Some (p - z)
  | None => None
  end.

(** Lowercase_Mapping: [(first, last, step, delta)] maps every [step]-th
    code point from [first] to [last] to itself plus [delta]. *)
Definition lowercase_runs : list (N * N * N * Z) :=
  [
    (0x41, 0x5A, 1, 32%Z); (0xC0, 0xD6, 1, 32%Z); (0xD8, 0xDE, 1, 32%Z);
    (0x100, 0x12E, 2, 1%Z); (0x132, 0x136, 2, 1%Z); (0x139, 0x147, 2, 1%Z);
    (0x14A, 0x176, 2, 1%Z); (0x178, 0x178, 1, (-121)%Z);
    (0x179, 0x17D, 2, 1%Z); (0x181, 0x181, 1, 210%Z); (0x182, 0x184, 2, 1%Z);
    (0x186, 0x186, 1, 206%Z); (0x187, 0x187, 1, 1%Z);
    (0x189, 0x18A, 1, 205%Z); (0x18B, 0x18B, 1, 1%Z); (0x18E, 0x18E, 1, 79%Z);
    (0x18F, 0x18F, 1, 202%Z); (0x190, 0x190, 1, 203%Z);
    (0x191, 0x191, 1, 1%Z); (0x193, 0x193, 1, 205%Z);
    (0x194, 0x194, 1, 207%Z); (0x196, 0x196, 1, 211%Z);
    (0x197, 0x197, 1, 209%Z); (0x198, 0x198, 1, 1%Z);
    (0x19C, 0x19C, 1, 211%Z); (0x19D, 0x19D, 1, 213%Z);
    (0x19F, 0x19F, 1, 214%Z); (0x1A0, 0x1A4, 2, 1%Z);
    (0x1A6, 0x1A6, 1, 218%Z); (0x1A7, 0x1A7, 1, 1%Z);
    (0x1A9, 0x1A9, 1, 218%Z); (0x1AC, 0x1AC, 1, 1%Z);
    (0x1AE, 0x1AE, 1, 218%Z); (0x1AF, 0x1AF, 1, 1%Z);
    (0x1B1, 0x1B2, 1, 217%Z); (0x1B3, 0x1B5, 2, 1%Z);
    (0x1B7, 0x1B7, 1, 219%Z); (0x1B8, 0x1B8, 1, 1%Z); (0x1BC, 0x1BC, 1, 1%Z);
    (0x1C4, 0x1C4, 1, 2%Z); (0x1C5, 0x1C5, 1, 1%Z); (0x1C7, 0x1C7, 1, 2%Z);
    (0x1C8, 0x1C8, 1, 1%Z); (0x1CA, 0x1CA, 1, 2%Z); (0x1CB, 0x1DB, 2, 1%Z);
    (0x1DE, 0x1EE, 2, 1%Z); (0x1F1, 0x1F1, 1, 2%Z); (0x1F2, 0x1F4, 2, 1%Z);
    (0x1F6, 0x1F6, 1, (-97)%Z); (0x1F7, 0x1F7, 1, (-56)%Z);
    (0x1F8, 0x21E, 2, 1%Z); (0x220, 0x220, 1, (-130)%Z);
    (0x222, 0x232, 2, 1%Z); (0x23A, 0x23A, 1, 10795%Z);
    (0x23B, 0x23B, 1, 1%Z); (0x23D, 0x23D, 1, (-163)%Z);
    (0x23E, 0x23E, 1, 10792%Z); (0x241, 0x241, 1, 1%Z);
    (0x243, 0x243, 1, (-195)%Z); (0x244, 0x244, 1, 69%Z);
    (0x245, 0x245, 1, 71%Z); (0x246, 0x24E, 2, 1%Z); (0x370, 0x372, 2, 1%Z);
    (0x376, 0x376, 1, 1%Z); (0x37F, 0x37F, 1, 116%Z); (0x386, 0x386, 1, 38%Z);
    (0x388, 0x38A, 1, 37%Z); (0x38C, 0x38C, 1, 64%Z); (0x38E, 0x38F, 1, 63%Z);
    (0x391, 0x3A1, 1, 32%Z); (0x3A4, 0x3AB, 1, 32%Z); (0x3CF, 0x3CF, 1, 8%Z);
    (0x3D8, 0x3EE, 2, 1%Z); (0x3F4, 0x3F4, 1, (-60)%Z);
    (0x3F7, 0x3F7, 1, 1%Z); (0x3F9, 0x3F9, 1, (-7)%Z); (0x3FA, 0x3FA, 1, 1%Z);
    (0x3FD, 0x3FF, 1, (-130)%Z); (0x400, 0x40F, 1, 80%Z);
    (0x410, 0x42F, 1, 32%Z); (0x460, 0x480, 2, 1%Z); (0x48A, 0x4BE, 2, 1%Z);
    (0x4C0, 0x4C0, 1, 15%Z); (0x4C1, 0x4CD, 2, 1%Z); (0x4D0, 0x52E, 2, 1%Z);
    (0x531, 0x556, 1, 48%Z); (0x10A0, 0x10C5, 1, 7264%Z);
    (0x10C7, 0x10C7, 1, 7264%Z); (0x10CD, 0x10CD, 1, 7264%Z);
    (0x13A0, 0x13EF, 1, 38864%Z); (0x13F0, 0x13F5, 1, 8%Z);
    (0x1C90, 0x1CBA, 1, (-3008)%Z); (0x1CBD, 0x1CBF, 1, (-3008)%Z);
    (0x1E00, 0x1E94, 2, 1%Z); (0x1E9E, 0x1E9E, 1, (-7615)%Z);
    (0x1EA0, 0x1EFE, 2, 1%Z); (0x1F08, 0x1F0F, 1, (-8)%Z);
    (0x1F18, 0x1F1D, 1, (-8)%Z); (0x1F28, 0x1F2F, 1, (-8)%Z);
    (0x1F38, 0x1F3F, 1, (-8)%Z); (0x1F48, 0x1F4D, 1, (-8)%Z);
    (0x1F59, 0x1F5F, 2, (-8)%Z); (0x1F68, 0x1F6F, 1, (-8)%Z);
    (0x1F88, 0x1F8F, 1, (-8)%Z); (0x1F98, 0x1F9F, 1, (-8)%Z);
    (0x1FA8, 0x1FAF, 1, (-8)%Z); (0x1FB8, 0x1FB9, 1, (-8)%Z);
    (0x1FBA, 0x1FBB, 1, (-74)%Z); (0x1FBC, 0x1FBC, 1, (-9)%Z);
    (0x1FC8, 0x1FCB, 1, (-86)%Z); (0x1FCC, 0x1FCC, 1, (-9)%Z);
    (0x1FD8, 0x1FD9, 1, (-8)%Z); (0x1FDA, 0x1FDB, 1, (-100)%Z);
    (0x1FE8, 0x1FE9, 1, (-8)%Z); (0x1FEA, 0x1FEB, 1, (-112)%Z);
    (0x1FEC, 0x1FEC, 1, (-7)%Z); (0x1FF8, 0x1FF9, 1, (-128)%Z);
    (0x1FFA, 0x1FFB, 1, (-126)%Z); (0x1FFC, 0x1FFC, 1, (-9)%Z);
    (0x2126, 0x2126, 1, (-7517)%Z); (0x212A, 0x212A, 1, (-8383)%Z);
    (0x212B, 0x212B, 1, (-8262)%Z); (0x2132, 0x2132, 1, 28%Z);
    (0x2160, 0x216F, 1, 16%Z); (0x2183, 0x2183, 1, 1%Z);
    (0x24B6, 0x24CF, 1, 26%Z); (0x2C00, 0x2C2F, 1, 48%Z);
    (0x2C60, 0x2C60, 1, 1%Z); (0x2C62, 0x2C62, 1, (-10743)%Z);
    (0x2C63, 0x2C63, 1, (-3814)%Z); (0x2C64, 0x2C64, 1, (-10727)%Z);
    (0x2C67, 0x2C6B, 2, 1%Z); (0x2C6D, 0x2C6D, 1, (-10780)%Z);
    (0x2C6E, 0x2C6E, 1, (-10749)%Z); (0x2C6F, 0x2C6F, 1, (-10783)%Z);
    (0x2C70, 0x2C70, 1, (-10782)%Z); (0x2C72, 0x2C72, 1, 1%Z);
    (0x2C75, 0x2C75, 1, 1%Z); (0x2C7E, 0x2C7F, 1, (-10815)%Z);
    (0x2C80, 0x2CE2, 2, 1%Z); (0x2CEB, 0x2CED, 2, 1%Z);
    (0x2CF2, 0x2CF2, 1, 1%Z); (0xA640, 0xA66C, 2, 1%Z);
    (0xA680, 0xA69A, 2, 1%Z); (0xA722, 0xA72E, 2, 1%Z);
    (0xA732, 0xA76E, 2, 1%Z); (0xA779, 0xA77B, 2, 1%Z);
    (0xA77D, 0xA77D, 1, (-35332)%Z); (0xA77E, 0xA786, 2, 1%Z);
    (0xA78B, 0xA78B, 1, 1%Z); (0xA78D, 0xA78D, 1, (-42280)%Z);
    (0xA790, 0xA792, 2, 1%Z); (0xA796, 0xA7A8, 2, 1%Z);
    (0xA7AA, 0xA7AA, 1, (-42308)%Z); (0xA7AB, 0xA7AB, 1, (-42319)%Z);
    (0xA7AC, 0xA7AC, 1, (-42315)%Z); (0xA7AD, 0xA7AD, 1, (-42305)%Z);
    (0xA7AE, 0xA7AE, 1, (-42308)%Z); (0xA7B0, 0xA7B0, 1, (-42258)%Z);
    (0xA7B1, 0xA7B1, 1, (-42282)%Z); (0xA7B2, 0xA7B2, 1, (-42261)%Z);
    (0xA7B3, 0xA7B3, 1, 928%Z); (0xA7B4, 0xA7C2, 2, 1%Z);
    (0xA7C4, 0xA7C4, 1, (-48)%Z); (0xA7C5, 0xA7C5, 1, (-42307)%Z);
    (0xA7C6, 0xA7C6, 1, (-35384)%Z); (0xA7C7, 0xA7C9, 2, 1%Z);
    (0xA7D0, 0xA7D0, 1, 1%Z); (0xA7D6, 0xA7D8, 2, 1%Z);
    (0xA7F5, 0xA7F5, 1, 1%Z); (0xFF21, 0xFF3A, 1, 32%Z);
    (0x10400, 0x10427, 1, 40%Z); (0x104B0, 0x104D3, 1, 40%Z);
    (0x10570, 0x10594, 2, 39%Z); (0x10571, 0x1057A, 1, 39%Z);
    (0x1057C, 0x1058A, 1, 39%Z); (0x1058C, 0x10592, 1, 39%Z);
    (0x10594, 0x10595, 1, 39%Z); (0x10C80, 0x10CB2, 1, 64%Z);
    (0x118A0, 0x118BF, 1, 32%Z); (0x16E40, 0x16E5F, 1, 32%Z);
    (0x1E900, 0x1E921, 1, 34%Z) ].

(** Cased: Lowercase, Uppercase or General_Category Lt. *)
Definition cased_ranges : list (N * N) :=
  [
    (0x41, 0x5A); (0x61, 0x7A); (0xAA, 0xAA); (0xB5, 0xB5); (0xBA, 0xBA);
    (0xC0, 0xD6); (0xD8, 0xF6); (0xF8, 0x1BA); (0x1BC, 0x1BF); (0x1C4, 0x293);
    (0x295, 0x2B8); (0x2C0, 0x2C1); (0x2E0, 0x2E4); (0x345, 0x345);
    (0x370, 0x373); (0x376, 0x377); (0x37A, 0x37D); (0x37F, 0x37F);
    (0x386, 0x386); (0x388, 0x38A); (0x38C, 0x38C); (0x38E, 0x3A1);
    (0x3A3, 0x3F5); (0x3F7, 0x481); (0x48A, 0x52F); (0x531, 0x556);
    (0x560, 0x588); (0x10A0, 0x10C5); (0x10C7, 0x10C7); (0x10CD, 0x10CD);
    (0x10D0, 0x10FA); (0x10FD, 0x10FF); (0x13A0, 0x13F5); (0x13F8, 0x13FD);
    (0x1C80, 0x1C88); (0x1C90, 0x1CBA); (0x1CBD, 0x1CBF); (0x1D00, 0x1DBF);
    (0x1E00, 0x1F15); (0x1F18, 0x1F1D); (0x1F20, 0x1F45); (0x1F48, 0x1F4D);
    (0x1F50, 0x1F57); (0x1F59, 0x1F59); (0x1F5B, 0x1F5B); (0x1F5D, 0x1F5D);
    (0x1F5F, 0x1F7D); (0x1F80, 0x1FB4); (0x1FB6, 0x1FBC); (0x1FBE, 0x1FBE);
    (0x1FC2, 0x1FC4); (0x1FC6, 0x1FCC); (0x1FD0, 0x1FD3); (0x1FD6, 0x1FDB);
    (0x1FE0, 0x1FEC); (0x1FF2, 0x1FF4); (0x1FF6, 0x1FFC); (0x2071, 0x2071);
    (0x207F, 0x207F); (0x2090, 0x209C); (0x2102, 0x2102); (0x2107, 0x2107);
    (0x210A, 0x2113); (0x2115, 0x2115); (0x2119, 0x211D); (0x2124, 0x2124);
    (0x2126, 0x2126); (0x2128, 0x2128); (0x212A, 0x212D); (0x212F, 0x2134);
    (0x2139, 0x2139); (0x213C, 0x213F); (0x2145, 0x2149); (0x214E, 0x214E);
    (0x2160, 0x217F); (0x2183, 0x2184); (0x24B6, 0x24E9); (0x2C00, 0x2CE4);
    (0x2CEB, 0x2CEE); (0x2CF2, 0x2CF3); (0x2D00, 0x2D25); (0x2D27, 0x2D27);
    (0x2D2D, 0x2D2D); (0xA640, 0xA66D); (0xA680, 0xA69D); (0xA722, 0xA787);
    (0xA78B, 0xA78E); (0xA790, 0xA7CA); (0xA7D0, 0xA7D1); (0xA7D3, 0xA7D3);
    (0xA7D5, 0xA7D9); (0xA7F5, 0xA7F6); (0xA7F8, 0xA7FA); (0xAB30, 0xAB5A);
    (0xAB5C, 0xAB68); (0xAB70, 0xABBF); (0xFB00, 0xFB06); (0xFB13, 0xFB17);
    (0xFF21, 0xFF3A); (0xFF41, 0xFF5A); (0x10400, 0x1044F);
    (0x104B0, 0x104D3); (0x104D8, 0x104FB); (0x10570, 0x1057A);
    (0x1057C, 0x1058A); (0x1058C, 0x10592); (0x10594, 0x10595);
    (0x10597, 0x105A1); (0x105A3, 0x105B1); (0x105B3, 0x105B9);
    (0x105BB, 0x105BC); (0x10780, 0x10780); (0x10783, 0x10785);
    (0x10787, 0x107B0); (0x107B2, 0x107BA); (0x10C80, 0x10CB2);
    (0x10CC0, 0x10CF2); (0x118A0, 0x118DF); (0x16E40, 0x16E7F);
    (0x1D400, 0x1D454); (0x1D456, 0x1D49C); (0x1D49E, 0x1D49F);
    (0x1D4A2, 0x1D4A2); (0x1D4A5, 0x1D4A6); (0x1D4A9, 0x1D4AC);
    (0x1D4AE, 0x1D4B9); (0x1D4BB, 0x1D4BB); (0x1D4BD, 0x1D4C3);
    (0x1D4C5, 0x1D505); (0x1D507, 0x1D50A); (0x1D50D, 0x1D514);
    (0x1D516, 0x1D51C); (0x1D51E, 0x1D539); (0x1D53B, 0x1D53E);
    (0x1D540, 0x1D544); (0x1D546, 0x1D546); (0x1D54A, 0x1D550);
    (0x1D552, 0x1D6A5); (0x1D6A8, 0x1D6C0); (0x1D6C2, 0x1D6DA);
    (0x1D6DC, 0x1D6FA); (0x1D6FC, 0x1D714); (0x1D716, 0x1D734);
    (0x1D736, 0x1D74E); (0x1D750, 0x1D76E); (0x1D770, 0x1D788);
    (0x1D78A, 0x1D7A8); (0x1D7AA, 0x1D7C2); (0x1D7C4, 0x1D7CB);
    (0x1DF00, 0x1DF09); (0x1DF0B, 0x1DF1E); (0x1E900, 0x1E943);
    (0x1F130, 0x1F149); (0x1F150, 0x1F169); (0x1F170, 0x1F189) ].

(** Case_Ignorable. *)
Definition case_ignorable_ranges : list (N * N) :=
  [
    (0x27, 0x27); (0x2E, 0x2E); (0x3A, 0x3A); (0x5E, 0x5E); (0x60, 0x60);
    (0xA8, 0xA8); (0xAD, 0xAD); (0xAF, 0xAF); (0xB4, 0xB4); (0xB7, 0xB8);
    (0x2B0, 0x36F); (0x374, 0x375); (0x37A, 0x37A); (0x384, 0x385);
    (0x387, 0x387); (0x483, 0x489); (0x559, 0x559); (0x55F, 0x55F);
    (0x591, 0x5BD); (0x5BF, 0x5BF); (0x5C1, 0x5C2); (0x5C4, 0x5C5);
    (0x5C7, 0x5C7); (0x5F4, 0x5F4); (0x600, 0x605); (0x610, 0x61A);
    (0x61C, 0x61C); (0x640, 0x640); (0x64B, 0x65F); (0x670, 0x670);
    (0x6D6, 0x6DD); (0x6DF, 0x6E8); (0x6EA, 0x6ED); (0x70F, 0x70F);
    (0x711, 0x711); (0x730, 0x74A); (0x7A6, 0x7B0); (0x7EB, 0x7F5);
    (0x7FA, 0x7FA); (0x7FD, 0x7FD); (0x816, 0x82D); (0x859, 0x85B);
    (0x888, 0x888); (0x890, 0x891); (0x898, 0x89F); (0x8C9, 0x902);
    (0x93A, 0x93A); (0x93C, 0x93C); (0x941, 0x948); (0x94D, 0x94D);
    (0x951, 0x957); (0x962, 0x963); (0x971, 0x971); (0x981, 0x981);
    (0x9BC, 0x9BC); (0x9C1, 0x9C4); (0x9CD, 0x9CD); (0x9E2, 0x9E3);
    (0x9FE, 0x9FE); (0xA01, 0xA02); (0xA3C, 0xA3C); (0xA41, 0xA42);
    (0xA47, 0xA48); (0xA4B, 0xA4D); (0xA51, 0xA51); (0xA70, 0xA71);
    (0xA75, 0xA75); (0xA81, 0xA82); (0xABC, 0xABC); (0xAC1, 0xAC5);
    (0xAC7, 0xAC8); (0xACD, 0xACD); (0xAE2, 0xAE3); (0xAFA, 0xAFF);
    (0xB01, 0xB01); (0xB3C, 0xB3C); (0xB3F, 0xB3F); (0xB41, 0xB44);
    (0xB4D, 0xB4D); (0xB55, 0xB56); (0xB62, 0xB63); (0xB82, 0xB82);
    (0xBC0, 0xBC0); (0xBCD, 0xBCD); (0xC00, 0xC00); (0xC04, 0xC04);
    (0xC3C, 0xC3C); (0xC3E, 0xC40); (0xC46, 0xC48); (0xC4A, 0xC4D);
    (0xC55, 0xC56); (0xC62, 0xC63); (0xC81, 0xC81); (0xCBC, 0xCBC);
    (0xCBF, 0xCBF); (0xCC6, 0xCC6); (0xCCC, 0xCCD); (0xCE2, 0xCE3);
    (0xD00, 0xD01); (0xD3B, 0xD3C); (0xD41, 0xD44); (0xD4D, 0xD4D);
    (0xD62, 0xD63); (0xD81, 0xD81); (0xDCA, 0xDCA); (0xDD2, 0xDD4);
    (0xDD6, 0xDD6); (0xE31, 0xE31); (0xE34, 0xE3A); (0xE46, 0xE4E);
    (0xEB1, 0xEB1); (0xEB4, 0xEBC); (0xEC6, 0xEC6); (0xEC8, 0xECD);
    (0xF18, 0xF19); (0xF35, 0xF35); (0xF37, 0xF37); (0xF39, 0xF39);
    (0xF71, 0xF7E); (0xF80, 0xF84); (0xF86, 0xF87); (0xF8D, 0xF97);
    (0xF99, 0xFBC); (0xFC6, 0xFC6); (0x102D, 0x1030); (0x1032, 0x1037);
    (0x1039, 0x103A); (0x103D, 0x103E); (0x1058, 0x1059); (0x105E, 0x1060);
    (0x1071, 0x1074); (0x1082, 0x1082); (0x1085, 0x1086); (0x108D, 0x108D);
    (0x109D, 0x109D); (0x10FC, 0x10FC); (0x135D, 0x135F); (0x1712, 0x1714);
    (0x1732, 0x1733); (0x1752, 0x1753); (0x1772, 0x1773); (0x17B4, 0x17B5);
    (0x17B7, 0x17BD); (0x17C6, 0x17C6); (0x17C9, 0x17D3); (0x17D7, 0x17D7);
    (0x17DD, 0x17DD); (0x180B, 0x180F); (0x1843, 0x1843); (0x1885, 0x1886);
    (0x18A9, 0x18A9); (0x1920, 0x1922); (0x1927, 0x1928); (0x1932, 0x1932);
    (0x1939, 0x193B); (0x1A17, 0x1A18); (0x1A1B, 0x1A1B); (0x1A56, 0x1A56);
    (0x1A58, 0x1A5E); (0x1A60, 0x1A60); (0x1A62, 0x1A62); (0x1A65, 0x1A6C);
    (0x1A73, 0x1A7C); (0x1A7F, 0x1A7F); (0x1AA7, 0x1AA7); (0x1AB0, 0x1ACE);
    (0x1B00, 0x1B03); (0x1B34, 0x1B34); (0x1B36, 0x1B3A); (0x1B3C, 0x1B3C);
    (0x1B42, 0x1B42); (0x1B6B, 0x1B73); (0x1B80, 0x1B81); (0x1BA2, 0x1BA5);
    (0x1BA8, 0x1BA9); (0x1BAB, 0x1BAD); (0x1BE6, 0x1BE6); (0x1BE8, 0x1BE9);
    (0x1BED, 0x1BED); (0x1BEF, 0x1BF1); (0x1C2C, 0x1C33); (0x1C36, 0x1C37);
    (0x1C78, 0x1C7D); (0x1CD0, 0x1CD2); (0x1CD4, 0x1CE0); (0x1CE2, 0x1CE8);
    (0x1CED, 0x1CED); (0x1CF4, 0x1CF4); (0x1CF8, 0x1CF9); (0x1D2C, 0x1D6A);
    (0x1D78, 0x1D78); (0x1D9B, 0x1DFF); (0x1FBD, 0x1FBD); (0x1FBF, 0x1FC1);
    (0x1FCD, 0x1FCF); (0x1FDD, 0x1FDF); (0x1FED, 0x1FEF); (0x1FFD, 0x1FFE);
    (0x200B, 0x200F); (0x2018, 0x2019); (0x2024, 0x2024); (0x2027, 0x2027);
    (0x202A, 0x202E); (0x2060, 0x2064); (0x2066, 0x206F); (0x2071, 0x2071);
    (0x207F, 0x207F); (0x2090, 0x209C); (0x20D0, 0x20F0); (0x2C7C, 0x2C7D);
    (0x2CEF, 0x2CF1); (0x2D6F, 0x2D6F); (0x2D7F, 0x2D7F); (0x2DE0, 0x2DFF);
    (0x2E2F, 0x2E2F); (0x3005, 0x3005); (0x302A, 0x302D); (0x3031, 0x3035);
    (0x303B, 0x303B); (0x3099, 0x309E); (0x30FC, 0x30FE); (0xA015, 0xA015);
    (0xA4F8, 0xA4FD); (0xA60C, 0xA60C); (0xA66F, 0xA672); (0xA674, 0xA67D);
    (0xA67F, 0xA67F); (0xA69C, 0xA69F); (0xA6F0, 0xA6F1); (0xA700, 0xA721);
    (0xA770, 0xA770); (0xA788, 0xA78A); (0xA7F2, 0xA7F4); (0xA7F8, 0xA7F9);
    (0xA802, 0xA802); (0xA806, 0xA806); (0xA80B, 0xA80B); (0xA825, 0xA826);
    (0xA82C, 0xA82C); (0xA8C4, 0xA8C5); (0xA8E0, 0xA8F1); (0xA8FF, 0xA8FF);
    (0xA926, 0xA92D); (0xA947, 0xA951); (0xA980, 0xA982); (0xA9B3, 0xA9B3);
    (0xA9B6, 0xA9B9); (0xA9BC, 0xA9BD); (0xA9CF, 0xA9CF); (0xA9E5, 0xA9E6);
    (0xAA29, 0xAA2E); (0xAA31, 0xAA32); (0xAA35, 0xAA36); (0xAA43, 0xAA43);
    (0xAA4C, 0xAA4C); (0xAA70, 0xAA70); (0xAA7C, 0xAA7C); (0xAAB0, 0xAAB0);
    (0xAAB2, 0xAAB4); (0xAAB7, 0xAAB8); (0xAABE, 0xAABF); (0xAAC1, 0xAAC1);
    (0xAADD, 0xAADD); (0xAAEC, 0xAAED); (0xAAF3, 0xAAF4); (0xAAF6, 0xAAF6);
    (0xAB5B, 0xAB5F); (0xAB69, 0xAB6B); (0xABE5, 0xABE5); (0xABE8, 0xABE8);
    (0xABED, 0xABED); (0xFB1E, 0xFB1E); (0xFBB2, 0xFBC2); (0xFE00, 0xFE0F);
    (0xFE13, 0xFE13); (0xFE20, 0xFE2F); (0xFE52, 0xFE52); (0xFE55, 0xFE55);
    (0xFEFF, 0xFEFF); (0xFF07, 0xFF07); (0xFF0E, 0xFF0E); (0xFF1A, 0xFF1A);
    (0xFF3E, 0xFF3E); (0xFF40, 0xFF40); (0xFF70, 0xFF70); (0xFF9E, 0xFF9F);
    (0xFFE3, 0xFFE3); (0xFFF9, 0xFFFB); (0x101FD, 0x101FD);
    (0x102E0, 0x102E0); (0x10376, 0x1037A); (0x10780, 0x10785);
    (0x10787, 0x107B0); (0x107B2, 0x107BA); (0x10A01, 0x10A03);
    (0x10A05, 0x10A06); (0x10A0C, 0x10A0F); (0x10A38, 0x10A3A);
    (0x10A3F, 0x10A3F); (0x10AE5, 0x10AE6); (0x10D24, 0x10D27);
    (0x10EAB, 0x10EAC); (0x10F46, 0x10F50); (0x10F82, 0x10F85);
    (0x11001, 0x11001); (0x11038, 0x11046); (0x11070, 0x11070);
    (0x11073, 0x11074); (0x1107F, 0x11081); (0x110B3, 0x110B6);
    (0x110B9, 0x110BA); (0x110BD, 0x110BD); (0x110C2, 0x110C2);
    (0x110CD, 0x110CD); (0x11100, 0x11102); (0x11127, 0x1112B);
    (0x1112D, 0x11134); (0x11173, 0x11173); (0x11180, 0x11181);
    (0x111B6, 0x111BE); (0x111C9, 0x111CC); (0x111CF, 0x111CF);
    (0x1122F, 0x11231); (0x11234, 0x11234); (0x11236, 0x11237);
    (0x1123E, 0x1123E); (0x112DF, 0x112DF); (0x112E3, 0x112EA);
    (0x11300, 0x11301); (0x1133B, 0x1133C); (0x11340, 0x11340);
    (0x11366, 0x1136C); (0x11370, 0x11374); (0x11438, 0x1143F);
    (0x11442, 0x11444); (0x11446, 0x11446); (0x1145E, 0x1145E);
    (0x114B3, 0x114B8); (0x114BA, 0x114BA); (0x114BF, 0x114C0);
    (0x114C2, 0x114C3); (0x115B2, 0x115B5); (0x115BC, 0x115BD);
    (0x115BF, 0x115C0); (0x115DC, 0x115DD); (0x11633, 0x1163A);
    (0x1163D, 0x1163D); (0x1163F, 0x11640); (0x116AB, 0x116AB);
    (0x116AD, 0x116AD); (0x116B0, 0x116B5); (0x116B7, 0x116B7);
    (0x1171D, 0x1171F); (0x11722, 0x11725); (0x11727, 0x1172B);
    (0x1182F, 0x11837); (0x11839, 0x1183A); (0x1193B, 0x1193C);
    (0x1193E, 0x1193E); (0x11943, 0x11943); (0x119D4, 0x119D7);
    (0x119DA, 0x119DB); (0x119E0, 0x119E0); (0x11A01, 0x11A0A);
    (0x11A33, 0x11A38); (0x11A3B, 0x11A3E); (0x11A47, 0x11A47);
    (0x11A51, 0x11A56); (0x11A59, 0x11A5B); (0x11A8A, 0x11A96);
    (0x11A98, 0x11A99); (0x11C30, 0x11C36); (0x11C38, 0x11C3D);
    (0x11C3F, 0x11C3F); (0x11C92, 0x11CA7); (0x11CAA, 0x11CB0);
    (0x11CB2, 0x11CB3); (0x11CB5, 0x11CB6); (0x11D31, 0x11D36);
    (0x11D3A, 0x11D3A); (0x11D3C, 0x11D3D); (0x11D3F, 0x11D45);
    (0x11D47, 0x11D47); (0x11D90, 0x11D91); (0x11D95, 0x11D95);
    (0x11D97, 0x11D97); (0x11EF3, 0x11EF4); (0x13430, 0x13438);
    (0x16AF0, 0x16AF4); (0x16B30, 0x16B36); (0x16B40, 0x16B43);
    (0x16F4F, 0x16F4F); (0x16F8F, 0x16F9F); (0x16FE0, 0x16FE1);
    (0x16FE3, 0x16FE4); (0x1AFF0, 0x1AFF3); (0x1AFF5, 0x1AFFB);
    (0x1AFFD, 0x1AFFE); (0x1BC9D, 0x1BC9E); (0x1BCA0, 0x1BCA3);
    (0x1CF00, 0x1CF2D); (0x1CF30, 0x1CF46); (0x1D167, 0x1D169);
    (0x1D173, 0x1D182); (0x1D185, 0x1D18B); (0x1D1AA, 0x1D1AD);
    (0x1D242, 0x1D244); (0x1DA00, 0x1DA36); (0x1DA3B, 0x1DA6C);
    (0x1DA75, 0x1DA75); (0x1DA84, 0x1DA84); (0x1DA9B, 0x1DA9F);
    (0x1DAA1, 0x1DAAF); (0x1E000, 0x1E006); (0x1E008, 0x1E018);
    (0x1E01B, 0x1E021); (0x1E023, 0x1E024); (0x1E026, 0x1E02A);
    (0x1E130, 0x1E13D); (0x1E2AE, 0x1E2AE); (0x1E2EC, 0x1E2EF);
    (0x1E8D0, 0x1E8D6); (0x1E944, 0x1E94B); (0x1F3FB, 0x1F3FF);
    (0xE0001, 0xE0001); (0xE0020, 0xE007F); (0xE0100, 0xE01EF) ].

Definition cased (p : N) : bool := in_ranges p cased_ranges.
Definition case_ignorable (p : N) : bool := in_ranges p case_ignorable_ranges.

(** The full lower case of a code point; only U+0130 gives two. *)
Definition to_lower_full (p : N) : list N :=
  if p =? 0x130 then [0x69; 0x307]
  else
    match List.find (fun r => (r.1.1.1 <=? p) && (p <=? r.1.1.2)
                              && ((p - r.1.1.1) mod r.1.2 =? 0))
            lowercase_runs with
    | Some r => [Z.to_N (Z.of_N p + r.2)]
    | None => [p]
    end.

(** After a capital sigma: is the next code point that is not
    case-ignorable a cased one? *)
Fixpoint cased_follows (ps : list N) : bool :=
  match ps with
  | [] => false
  | p :: ps' => if case_ignorable p then cased_follows ps' else cased p
  end.

(** [str.lower] on code points.  [after_cased] tells whether the last code
    point before this one that is not case-ignorable is cased; a capital
    sigma U+03A3 becomes the final sigma U+03C2 when it ends a word, U+03C3
    otherwise. *)
Fixpoint lower_points (after_cased : bool) (ps : list N) : list N :=
  match ps with
  | [] => []
  | p :: ps' =>
      (if p =? 0x3A3
       then [if after_cased && negb (cased_follows ps') then 0x3C2 else 0x3C3]
       else to_lower_full p)
      ++ lower_points (if case_ignorable p then after_cased else cased p) ps'
  end.

(** What [float] does to a text first: an all-ASCII text is left as it is;
    otherwise a white-space character becomes a space, a decimal digit of
    any script its ASCII digit, and the text is cut at the first other
    character beyond U+007E, which becomes a question mark. *)
Fixpoint decimal_and_space_to_ascii (ps : list N) : list ascii :=
  match ps with
  | [] => []
  | p :: ps' =>
      if p <? 127 then ascii_of_N p :: decimal_and_space_to_ascii ps'
      else if existsb (N.eqb p) white_space
      then ascii_of_N 32 :: decimal_and_space_to_ascii ps'
      else
        match decimal_value p with
        | Some d => ascii_of_N (48 + d) :: decimal_and_space_to_ascii ps'
        | None => [ascii_of_N 63]
        end
  end.

Definition to_ascii (s : list ascii) : list ascii :=
  if forallb (fun c => N_of_ascii c <? 0x80) s then s
  else decimal_and_space_to_ascii (code_points s).
End CodePoints.

(** [s.lower()]. *)
Definition lower (s : string) : string :=
  string_of_list_ascii
    (flat_map utf8 (lower_points false (code_points (list_ascii_of_string s)))).

(* ===================================================================== *)
(** ** [float]: text to binary64 *)
(* ===================================================================== *)

(** Python floats are IEEE 754 binary64 values: [spec_float] with 53 bits
    of precision and exponents below 1024. *)
Definition prec : Z := 53.
Definition emax : Z := 1024.
Definition pos_zero : spec_float := S754_zero false.

(** The correctly rounded quotient of two positive integers (round to
    nearest, ties to even; too large gives an infinity, too small a zero). *)
Definition round_ratio (neg : bool) (num den : positive) : spec_float :=
  SFdiv prec emax (S754_finite neg num 0) (S754_finite false den 0).

(** The binary64 value nearest to [(-1)^neg * m * 10^e]. *)
Definition decimal_to_float (neg : bool) (m : N) (e : Z) : spec_float :=
  match m with
  | N0 => S754_zero neg
  | Npos p =>
      if (0 <=? e)%Z
      then round_ratio neg (Z.to_pos (Zpos p * 10 ^ e)) 1
      else round_ratio neg p (Z.to_pos (10 ^ (- e)))
  end.

Section Characters.
Local Open Scope char_scope.

Definition is_space (c : ascii) : bool :=
  let n := nat_of_ascii c in
  ((9 <=? n)%nat && (n <=? 13)%nat) || (n =? 32)%nat.

Definition is_digit (c : ascii) : bool :=
  let n := nat_of_ascii c in (48 <=? n)%nat && (n <=? 57)%nat.

Definition digit_value (c : ascii) : N := N.of_nat (nat_of_ascii c - 48).

Definition lower_char (c : ascii) : ascii :=
  let n := nat_of_ascii c in
  if (65 <=? n)%nat && (n <=? 90)%nat then ascii_of_nat (n + 32) else c.

Definition is_underscore (c : ascii) : bool := bool_decide (c = "_").

(** Underscores may only sit between two digits; they are removed before
    the number is read. *)
Fixpoint drop_underscores (prev : option ascii) (s : list ascii)
  : option (list ascii) :=
  match s with
  | [] =>
      match prev with
      | Some p => if is_underscore p then None else Some []
      | None => Some []
      end
  | c :: s' =>
      if is_underscore c then
        match prev with
        | Some p => if is_digit p then drop_underscores (Some c) s' else None
        | None => None
        end
      else
        match prev with
        | Some p =>
            if is_underscore p && negb (is_digit c) then None
            else cons c <$> drop_underscores (Some c) s'
        | None => cons c <$> drop_underscores (Some c) s'
        end
  end.

Fixpoint span_digits (s : list ascii) : list ascii * list ascii :=
  match s with
  | c :: s' =>
      if is_digit c
      then let '(ds, rest) := span_digits s' in (c :: ds, rest)
      else ([], s)
  | [] => ([], [])
  end.

Fixpoint drop_spaces (s : list ascii) : list ascii :=
  match s with
  | c :: s' => if is_space c then drop_spaces s' else s
  | [] => []
  end.

(** Leading and trailing white space is ignored. *)
Definition strip (s : list ascii) : list ascii :=
  reverse (drop_spaces (reverse (drop_spaces s))).

Definition digits_value (ds : list ascii) : N :=
  fold_left (fun acc c => (10 * acc + digit_value c)%N) ds 0%N.

Definition read_sign (s : list ascii) : bool * list ascii :=
  match s with
  | "-" :: s' => (true, s')
  | "+" :: s' => (false, s')
  | _ => (false, s)
  end.

(** [digits [. digits] | . digits], then an optional exponent
    [(e|E) [sign] digits]; the whole text must be consumed.  The result
    is the mantissa and the decimal exponent. *)
Definition read_number (s : list ascii) : option (N * Z) :=
  let '(int_part, r1) := span_digits s in
  let '(frac_part, r2) :=
    match r1 with
    | "." :: r => span_digits r
    | _ => ([], r1)
    end in
  match (int_part ++ frac_part)%list with
  | [] => None
  | (_ :: _) as ds =>
      let m := digits_value ds in
      let scale := (- Z.of_nat (length frac_part))%Z in
      match r2 with
      | [] => Some (m, scale)
      | c :: r3 =>
          if bool_decide (lower_char c = "e") then
            let '(eneg, r4) := read_sign r3 in
            match span_digits r4 with
            | ((_ :: _) as es, []) =>
                let x := Z.of_N (digits_value es) in
                Some (m, ((if eneg then - x else x) + scale)%Z)
            | _ => None
            end
          else None
      end
  end.

(** The body of a float literal after the sign: a number, or one of the
    words inf, infinity and nan in any letter case. *)
Definition read_float_body (neg : bool) (s : list ascii) : option spec_float :=
  let word := string_of_list_ascii (lower_char <$> s) in
  if bool_decide (word = "inf"%string) || bool_decide (word = "infinity"%string)
  then Some (S754_infinity neg)
  else if bool_decide (word = "nan"%string) then Some S754_nan
  else
    match read_number s with
    | Some (m, e) => Some (decimal_to_float neg m e)
    | None => None
    end.

(** [float] on the ASCII text: underscores are checked and removed, white
    space is stripped at both ends, an optional sign is read, and the rest
    must be, as a whole, inf, infinity, nan or a decimal number, which is
    rounded to the nearest binary64 value. *)
Definition float_of_ascii (s : list ascii) : option spec_float :=
  match drop_underscores None s with
  | None => None
  | Some s1 =>
      let '(neg, s2) := read_sign (strip s1) in
      read_float_body neg s2
  end.
End Characters.

(** [float(s)] for a string: [None] stands for [ValueError].  The steps are
    those of CPython: the decimal digits and the white space of every script
    are first turned into ASCII, then the ASCII text is read. *)
Definition float_of_string (s : string) : option spec_float :=
  float_of_ascii (to_ascii (list_ascii_of_string s)).

(** [float(n)] for an integer: exact when it fits, [OverflowError] when the
    rounded value is not finite. *)
Definition float_of_int (n : Z) : result spec_float :=
  match binary_normalize prec emax n 0 false with
  | S754_infinity _ => Raise OverflowError
  | f => Ok f
  end.

(** [float(v)]. *)
Definition py_float (v : pyval) : result spec_float :=
  match v with
  | PyStr s =>
      match float_of_string s with
      | Some f => Ok f
      | None => Raise (ValueError s)
      end
  | PyInt n => float_of_int n
  end.

(** [float(e.get(key, 0))], the only way the extractors read a number. *)
Definition float_attr (e : Element) (key : string) : result spec_float :=
  py_float (get_or_0 e key).

(* ===================================================================== *)
(** ** Paths: [find] and [findall] *)
(* ===================================================================== *)

(** The prefix table every lookup passes to [find]/[findall]. *)
Definition namespaces : gmap string string :=
  list_to_map
    [ ("cfdi", "http://www.sat.gob.mx/cfd/4");
      ("cfdi33", "http://www.sat.gob.mx/cfd/3");
      ("tfd", "http://www.sat.gob.mx/TimbreFiscalDigital");
      ("pago20", "http://www.sat.gob.mx/Pagos20");
      ("pago10", "http://www.sat.gob.mx/Pagos");
      ("nomina12", "http://www.sat.gob.mx/nomina12");
      ("cartaporte31", "http://www.sat.gob.mx/CartaPorte31") ].

(** A step [prefix:name] of a path selects the elements whose tag is
    [{uri}name].  (A prefix missing from the table is a [SyntaxError] in
    ElementTree; every prefix the extractors write is in the table, see
    [prefixes_bound].) *)
Definition qname (prefix name : string) : string :=
  "{" +:+ default "" (namespaces !! prefix) +:+ "}" +:+ name.

Definition has_tag (t : string) (e : Element) : Prop := tag e = t.

#[global] Instance has_tag_dec t e : Decision (has_tag t e).
Proof. unfold has_tag. apply _. Defined.

(** [e.findall('p:Name')]: the children with that tag, in document order. *)
Definition findall_children (t : string) (e : Element) : list Element :=
  filter (has_tag t) (children e).

(** [e.find('p:Name')]: the first such child, or [None]. *)
Definition find_child (t : string) (e : Element) : option Element :=
  head (findall_children t e).

(** [e.findall('p:A/p:B')]: for each child [A], its children [B]. *)
Definition findall_path2 (ta tb : string) (e : Element) : list Element :=
  flat_map (findall_children tb) (findall_children ta e).

(** [e.iter(tag)]: the element itself when its tag matches, then what each
    child yields, depth first. *)
Fixpoint iter (t : string) (e : Element) : list Element :=
  (if decide (has_tag t e) then [e] else []) ++ flat_map (iter t) (children e).

(** [e.findall('.//p:Name')]: what [e.iter] yields, [e] itself left out. *)
Definition findall_descendants (t : string) (e : Element) : list Element :=
  flat_map (iter t) (children e).

(** [e.find('.//p:Name')]. *)
Definition find_descendant (t : string) (e : Element) : option Element :=
  head (findall_descendants t e).

(** The truth value of what [find] returned, as [if not x:] tests it: [None]
    is false, and an element is true exactly when it has children
    ([Element.__bool__] is [len(self) != 0]). *)
Definition truth (x : option Element) : bool :=
  match x with
  | Some e => negb (bool_decide (children e = []))
  | None => false
  end.

(** *** The tree, spelled out for the statements *)

(** Every element of the tree in document order, the root first. *)
Fixpoint nodes (e : Element) : list Element :=
  e :: flat_map nodes (children e).

(** All descendants of [e] at any depth, in document order. *)
Definition descendants (e : Element) : list Element :=
  flat_map nodes (children e).

(** The element reached from [e] by a path of child positions. *)
Fixpoint subelement (e : Element) (path : list nat) : option Element :=
  match path with
  | [] => Some e
  | i :: path' =>
      match children e !! i with
      | Some c => subelement c path'
      | None => None
      end
  end.

(* ===================================================================== *)
(** ** The dictionaries the extractors build *)
(* ===================================================================== *)

(** A dictionary from field names to a string or [None]: the shape of the
    issuer, recipient and fiscal-stamp results, whose key sets vary. *)
Abbreviation strdict := (gmap string (option string)).

(** [d[key]]. *)
Definition getitem (d : strdict) (key : string) : result (option string) :=
  match d !! key with
  | Some v => Ok v
  | None => Raise (KeyError key)
  end.

(** [d.get(key, default)] and [d.get(key)]. *)
Definition dict_get_or (d : strdict) (key default : string) : option string :=
  match d !! key with
  | Some v => v
  | None => Some default
  end.

Definition dict_get (d : strdict) (key : string) : option string :=
  match d !! key with
  | Some v => v
  | None => None
  end.

(** How an f-string shows a field: the text, or the word None. *)
Definition py_str (v : option string) : string := default "None" v.

Record DatosGenerales := mkDatosGenerales {
  dg_version : option string;
  dg_serie : string;
  dg_folio : string;
  dg_fecha : option string;
  dg_subtotal : spec_float;
  dg_total : spec_float;
  dg_moneda : string;
  dg_tipo_comprobante : string;
  dg_metodo_pago : string;
  dg_lugar_expedicion : option string
}.

(** One transferred or withheld tax.  The per-document taxes of a payment
    use the same five keys. *)
Record TaxEntry := mkTaxEntry {
  tx_base : spec_float;
  tx_impuesto : option string;
  tx_tipo_factor : option string;
  tx_tasa_cuota : spec_float;
  tx_importe : spec_float
}.

Record Impuestos := mkImpuestos {
  traslados : list TaxEntry;
  retenciones : list TaxEntry
}.

Record Concepto := mkConcepto {
  co_clave_prod_serv : option string;
  co_cantidad : spec_float;
  co_clave_unidad : option string;
  co_descripcion : option string;
  co_valor_unitario : spec_float;
  co_importe : spec_float;
  co_descuento : spec_float;
  co_objeto_imp : option string;
  co_impuestos : Impuestos
}.

(** [traducir_tipo_comprobante]: the same table in both files.  The
    argument is [root.get('TipoDeComprobante')], possibly [None]. *)
Definition tipos : gmap string string :=
  list_to_map
    [ ("I", "Ingreso (Factura)");
      ("E", "Egreso (Nota de Crédito)");
      ("P", "Pago");
      ("N", "Nómina");
      ("T", "Traslado") ].

Definition traducir_tipo_comprobante (tipo : option string) : string :=
  match tipo ≫= (tipos !!.) with
  | Some label => label
  | None => "Desconocido (" +:+ py_str tipo +:+ ")"
  end.

(** One entry of [extraer_impuestos_concepto], for a [Traslado] or a
    [Retencion] element. *)
Definition tax_entry (t : Element) : result TaxEntry :=
  let* base := float_attr t "Base" in
  let impuesto := get t "Impuesto" in
  let tipo_factor := get t "TipoFactor" in
  let* tasa_cuota := float_attr t "TasaOCuota" in
  let* importe := float_attr t "Importe" in
  Ok (mkTaxEntry base impuesto tipo_factor tasa_cuota importe).

(** [extraer_impuestos_concepto]: identical in both files. *)
Definition extraer_impuestos_concepto (concepto : Element) : result Impuestos :=
  let traslados := findall_descendants (qname "cfdi" "Traslado") concepto in
  let* ts := for_each tax_entry traslados in
  let retenciones := findall_descendants (qname "cfdi" "Retencion") concepto in
  let* rs := for_each tax_entry retenciones in
  Ok (mkImpuestos ts rs).

(** The body of the loop of [extraer_conceptos]. *)
Definition concepto_data (concepto : Element) : result Concepto :=
  let clave_prod_serv := get concepto "ClaveProdServ" in
  let* cantidad := float_attr concepto "Cantidad" in
  let clave_unidad := get concepto "ClaveUnidad" in
  let descripcion := get concepto "Descripcion" in
  let* valor_unitario := float_attr concepto "ValorUnitario" in
  let* importe := float_attr concepto "Importe" in
  let* descuento := float_attr concepto "Descuento" in
  let objeto_imp := get concepto "ObjetoImp" in
  let* impuestos := extraer_impuestos_concepto concepto in
  Ok (mkConcepto clave_prod_serv cantidad clave_unidad descripcion
        valor_unitario importe descuento objeto_imp impuestos).

(** [extraer_conceptos]: identical in both files.  [if not conceptos] tests
    a list: true when it is empty. *)
Definition extraer_conceptos (root : Element) : result (list Concepto) :=
  let conceptos :=
    findall_path2 (qname "cfdi" "Conceptos") (qname "cfdi" "Concepto") root in
  let conceptos :=
    match conceptos with
    | [] => findall_path2 (qname "cfdi33" "Conceptos")
                          (qname "cfdi33" "Concepto") root
    | _ => conceptos
    end in
  for_each concepto_data conceptos.

(** [extraer_timbre]: identical in both files up to the order of the two
    branches. *)
Definition extraer_timbre (root : Element) : strdict :=
  match find_descendant (qname "tfd" "TimbreFiscalDigital") root with
  | Some timbre =>
      list_to_map
        [ ("uuid", get timbre "UUID");
          ("fecha_timbrado", get timbre "FechaTimbrado");
          ("rfc_prov_certif", get timbre "RfcProvCertif");
          ("no_certificado_sat", get timbre "NoCertificadoSAT") ]
  | None => ∅
  end.

(* ===================================================================== *)
(** ** Output and the outside world *)
(* ===================================================================== *)

(** A computation that prints: the lines written to the console, and what
    it returned or raised.  Lines printed before an exception stay. *)
Record run (A : Type) := mkRun {
  stdout : list string;
  returned : result A
}.
Arguments mkRun {A} stdout returned.
Arguments stdout {A} r.
Arguments returned {A} r.

Definition run_bind {A B} (m : run A) (k : A -> run B) : run B :=
  match returned m with
  | Ok a => let r := k a in mkRun (stdout m ++ stdout r) (returned r)
  | Raise e => mkRun (stdout m) (Raise e)
  end.

Definition print (line : string) : run unit := mkRun [line] (Ok tt).
Definition lift {A} (r : result A) : run A := mkRun [] r.
Definition ret {A} (a : A) : run A := mkRun [] (Ok a).

Notation "'let!' x ':=' m 'in' k" := (run_bind m (fun x => k))
  (at level 10, x name, m at level 100, k at level 200).

(** What [ET.parse(path)] does. *)
Inductive parse_outcome :=
  | Parsed (root : Element)
  | ParseError (msg : string)
  | OtherError (msg : string).

(** What an invocation finds outside the program: the file system as
    [os.path.exists] and [ET.parse] see it, and the clock as
    [datetime.now().isoformat()] reads it. *)
Record World := mkWorld {
  path_exists : string -> bool;
  et_parse : string -> parse_outcome;
  now_isoformat : string
}.

(** [needle in hay] on strings. *)
Fixpoint contains (needle hay : string) : bool :=
  String.prefix needle hay ||
  match hay with
  | EmptyString => false
  | String _ hay' => contains needle hay'
  end.

(** The truth value of [e.get(key)]: a non-empty text. *)
Definition nonempty (v : option string) : option string :=
  match v with
  | Some "" => None
  | _ => v
  end.

(** [format(x, ',.2f')]: the exact value rounded to two decimals, ties to
    even, with a comma between groups of three integer digits. *)
Definition round_half_even (num den : Z) : Z :=
  let q := (num / den)%Z in
  let r := (num mod den)%Z in
  match (2 * r ?= den)%Z with
  | Lt => q
  | Gt => (q + 1)%Z
  | Eq => if Z.even q then q else (q + 1)%Z
  end.

(** A hundred times [m * 2^e], rounded to an integer. *)
Definition cents (m : positive) (e : Z) : Z :=
  if (0 <=? e)%Z then (Zpos m * 2 ^ e * 100)%Z
  else round_half_even (Zpos m * 100) (2 ^ (- e)).

(** The digits come least significant first. *)
Fixpoint group_thousands (digits : list ascii) : list ascii :=
  match digits with
  | a :: b :: c :: ((_ :: _) as rest) =>
      a :: b :: c :: ","%char :: group_thousands rest
  | _ => digits
  end.

Definition format_cents (c : Z) : string :=
  let int_part := pretty (c / 100)%Z in
  let frac := (c mod 100)%Z in
  string_of_list_ascii
    (reverse (group_thousands (reverse (list_ascii_of_string int_part))))
  +:+ "." +:+ (if (frac <? 10)%Z then "0" else "") +:+ pretty frac.

Definition format_money (x : spec_float) : string :=
  match x with
  | S754_nan => "nan"
  | S754_infinity neg => (if neg then "-" else "") +:+ "inf"
  | S754_zero neg => (if neg then "-" else "") +:+ "0.00"
  | S754_finite neg m e => (if neg then "-" else "") +:+ format_cents (cents m e)
  end.

(* ===================================================================== *)
(** ** [cfdi_tool/extractor.py] *)
(* ===================================================================== *)

Module Tool.

Definition detectar_version (root : Element) : string :=
  let version :=
    match nonempty (get root "Version") with
    | Some v => Some v
    | None => get root "version"
    end in
  match nonempty version with
  | Some v => v
  | None =>
      let tag_lower := lower (tag root) in
      if contains "cfd/4" tag_lower
         || (contains "cfdi" tag_lower && contains "4" tag_lower)
      then "4.0"
      else if contains "cfd/3" tag_lower
              || (contains "cfdi" tag_lower && contains "3" tag_lower)
      then "3.3"
      else "Desconocida"
  end.

(** [cargar_cfdi] returns the root or [None]; each failure prints one
    line.  [FileNotFoundError] is raised inside the [try] and caught by
    [except Exception]. *)
Definition cargar_cfdi (w : World) (archivo_path : string)
  : list string * option Element :=
  if negb (path_exists w archivo_path) then
    (["❌ Error inesperado: No se encontró el archivo: " +:+ archivo_path],
     None)
  else
    match et_parse w archivo_path with
    | Parsed root =>
        let version := detectar_version root in
        (["📄 CFDI Versión " +:+ version +:+ " cargado correctamente"],
         Some root)
    | ParseError e => (["❌ Error al parsear XML: " +:+ e], None)
    | OtherError e => (["❌ Error inesperado: " +:+ e], None)
    end.

Definition extraer_datos_generales (root : Element) : result DatosGenerales :=
  let version := get root "Version" in
  let serie := get_or root "Serie" "Sin Serie" in
  let folio := get_or root "Folio" "Sin Folio" in
  let fecha := get root "Fecha" in
  let* subtotal := float_attr root "SubTotal" in
  let* total := float_attr root "Total" in
  let moneda := get_or root "Moneda" "MXN" in
  let tipo_comprobante :=
    traducir_tipo_comprobante (get root "TipoDeComprobante") in
  let metodo_pago := get_or root "MetodoPago" "Pago parcial" in
  let lugar_expedicion := get_or root "LugarExpedicion" "SIN_LUGAR" in
  Ok (mkDatosGenerales version serie folio fecha subtotal total moneda
        tipo_comprobante metodo_pago (Some lugar_expedicion)).

Definition extraer_emisor (root : Element) : strdict :=
  let emisor := find_child (qname "cfdi" "Emisor") root in
  let emisor :=
    match emisor with
    | None => find_child (qname "cfdi33" "Emisor") root
    | Some _ => emisor
    end in
  match emisor with
  | Some emisor =>
      list_to_map
        [ ("rfc", get emisor "Rfc");
          ("nombre", Some (get_or emisor "Nombre" "Sin Nombre"));
          ("regimen_fiscal", get emisor "RegimenFiscal") ]
  | None =>
      list_to_map [ ("rfc", None); ("nombre", None); ("regimen_fiscal", None) ]
  end.

Definition extraer_receptor (root : Element) : strdict :=
  let receptor := find_child (qname "cfdi" "Receptor") root in
  let receptor :=
    match receptor with
    | None => find_child (qname "cfdi33" "Receptor") root
    | Some _ => receptor
    end in
  match receptor with
  | Some receptor =>
      list_to_map
        [ ("rfc", get receptor "Rfc");
          ("nombre", Some (get_or receptor "Nombre" "Sin Nombre"));
          ("uso_cfdi", get receptor "UsoCFDI");
          ("regimen_fiscal", get receptor "RegimenFiscalReceptor");
          ("domicilio_fiscal", get receptor "DomicilioFiscalReceptor");
          ("domicilio_fiscal_receptor", get receptor "DomicilioFiscalReceptor") ]
  | None =>
      list_to_map
        [ ("rfc", None); ("nombre", None); ("uso_cfdi", None);
          ("regimen_fiscal", None); ("domicilio_fiscal", None);
          ("domicilio_fiscal_receptor", None) ]
  end.

Record DoctoRelacionado := mkDoctoRelacionado {
  dr_id_documento : option string;
  dr_serie : option string;
  dr_folio : option string;
  dr_moneda : option string;
  dr_imp_saldo_ant : spec_float;
  dr_imp_pagado : spec_float;
  dr_imp_saldo_insoluto : spec_float;
  dr_traslados_dr : list TaxEntry
}.

Record Pago := mkPago {
  pg_fecha_pago : option string;
  pg_forma_pago : option string;
  pg_moneda : option string;
  pg_monto : spec_float;
  pg_documentos_relacionados : list DoctoRelacionado
}.

(** A list found under the 2.0 prefix, or, when that one is empty, under
    the 1.0 prefix ([if not lista:] on a list). *)
Definition findall_pago (name : string) (e : Element) : list Element :=
  match findall_descendants (qname "pago20" name) e with
  | [] => findall_descendants (qname "pago10" name) e
  | found => found
  end.

Definition traslado_dr (traslado : Element) : result TaxEntry :=
  let* base := float_attr traslado "BaseDR" in
  let impuesto := get traslado "ImpuestoDR" in
  let tipo_factor := get traslado "TipoFactorDR" in
  let* tasa_cuota := float_attr traslado "TasaOCuotaDR" in
  let* importe := float_attr traslado "ImporteDR" in
  Ok (mkTaxEntry base impuesto tipo_factor tasa_cuota importe).

Definition doc_relacionado (doc : Element) : result DoctoRelacionado :=
  let impuestos_dr := find_descendant (qname "pago20" "ImpuestosDR") doc in
  let impuestos_dr :=
    match impuestos_dr with
    | None => find_descendant (qname "pago10" "ImpuestosDR") doc
    | Some _ => impuestos_dr
    end in
  let* traslados_dr :=
    match impuestos_dr with
    | Some impuestos_dr =>
        for_each traslado_dr (findall_pago "TrasladoDR" impuestos_dr)
    | None => Ok []
    end in
  let id_documento := get doc "IdDocumento" in
  let serie := get doc "Serie" in
  let folio := get doc "Folio" in
  let moneda := get doc "MonedaDR" in
  let* imp_saldo_ant := float_attr doc "ImpSaldoAnt" in
  let* imp_pagado := float_attr doc "ImpPagado" in
  let* imp_saldo_insoluto := float_attr doc "ImpSaldoInsoluto" in
  Ok (mkDoctoRelacionado id_documento serie folio moneda imp_saldo_ant
        imp_pagado imp_saldo_insoluto traslados_dr).

Definition pago_data (pago : Element) : result Pago :=
  let fecha_pago := get pago "FechaPago" in
  let forma_pago := get pago "FormaDePagoP" in
  let moneda := get pago "MonedaP" in
  let* monto := float_attr pago "Monto" in
  let docs := findall_pago "DoctoRelacionado" pago in
  let* documentos_relacionados := for_each doc_relacionado docs in
  Ok (mkPago fecha_pago forma_pago moneda monto documentos_relacionados).

Definition extraer_complemento_pagos (pagos : Element) : result (list Pago) :=
  let lista_pagos := findall_pago "Pago" pagos in
  for_each pago_data lista_pagos.

(** [if not pagos:] tests the element found, not [pagos is None]. *)
Definition extraer_complementos (root : Element)
  : result (gmap string (list Pago)) :=
  let complementos : gmap string (list Pago) := ∅ in
  let pagos := find_descendant (qname "pago20" "Pagos") root in
  let pagos :=
    if negb (truth pagos)
    then find_descendant (qname "pago10" "Pagos") root
    else pagos in
  match pagos with
  | Some pagos =>
      let* datos := extraer_complemento_pagos pagos in
      Ok (<["pagos" := datos]> complementos)
  | None => Ok complementos
  end.

Record Resultado := mkResultado {
  archivo : string;
  fecha_procesamiento : string;
  datos_generales : DatosGenerales;
  emisor : strdict;
  receptor : strdict;
  conceptos : list Concepto;
  timbre : strdict;
  complementos : gmap string (list Pago);
  impuestos : Impuestos
}.

(** The extraction part of [procesar_cfdi_completo]: the dictionary
    display, its entries evaluated in order. *)
Definition ensamblar (archivo_path now : string) (root : Element)
  : result Resultado :=
  let* dg := extraer_datos_generales root in
  let em := extraer_emisor root in
  let re := extraer_receptor root in
  let* cs := extraer_conceptos root in
  let ti := extraer_timbre root in
  let* cm := extraer_complementos root in
  let* im := extraer_impuestos_concepto root in
  Ok (mkResultado archivo_path now dg em re cs ti cm im).

Definition mostrar_resumen (datos : Resultado) : run unit :=
  let! _ := print "📊 RESUMEN DEL CFDI" in
  let! _ := print ("UUID: " +:+
              py_str (dict_get_or (timbre datos) "uuid" "No disponible")) in
  let! _ := print ("Tipo: " +:+ dg_tipo_comprobante (datos_generales datos)) in
  let! _ := print ("Serie-Folio: " +:+ dg_serie (datos_generales datos)
              +:+ "-" +:+ dg_folio (datos_generales datos)) in
  let! _ := print ("Total: $" +:+ format_money (dg_total (datos_generales datos))
              +:+ " " +:+ dg_moneda (datos_generales datos)) in
  let! nombre := lift (getitem (emisor datos) "nombre") in
  let! rfc := lift (getitem (emisor datos) "rfc") in
  let! _ := print ("Emisor: " +:+ py_str nombre
              +:+ " (" +:+ py_str rfc +:+ ")") in
  let! _ := print ("Receptor: " +:+
              py_str (dict_get_or (receptor datos) "nombre" "Sin nombre")
              +:+ " (" +:+ py_str (dict_get (receptor datos) "rfc") +:+ ")") in
  let! _ := print ("Conceptos: " +:+ pretty (length (conceptos datos))
              +:+ " artículos/servicios") in
  let! _ :=
    if bool_decide (complementos datos = ∅) then ret tt
    else print ("Complementos: " +:+
           String.concat ", " ((map_to_list (complementos datos)).*1)) in
  print ("✅ Procesamiento completado" +:+ String (ascii_of_nat 10) "").

Definition procesar_cfdi_completo (w : World) (archivo_path : string)
  : run (option Resultado) :=
  let! _ := print ("🔍 Procesando: " +:+ archivo_path) in
  let! _ := print (String.concat "" (replicate 50 "=")) in
  let '(lines, root) := cargar_cfdi w archivo_path in
  let! _ := mkRun lines (Ok tt) in
  match root with
  | None => ret None
  | Some root =>
      let! resultado :=
        lift (ensamblar archivo_path (now_isoformat w) root) in
      let! _ := mostrar_resumen resultado in
      ret (Some resultado)
  end.
End Tool.

(* ===================================================================== *)
(** ** [scripts/cfdi_extractor.py] *)
(* ===================================================================== *)

Module Scripts.

(** Here only the namespace marker of the tag is looked for. *)
Definition detectar_version (root : Element) : string :=
  let version :=
    match nonempty (get root "Version") with
    | Some v => Some v
    | None => get root "version"
    end in
  match nonempty version with
  | Some v => v
  | None =>
      let tag_lower := lower (tag root) in
      if contains "cfd/4" tag_lower then "4.0"
      else if contains "cfd/3" tag_lower then "3.3"
      else "Desconocida"
  end.

Definition extraer_datos_generales (root : Element) : result DatosGenerales :=
  let version := get root "Version" in
  let serie := get_or root "Serie" "Sin Serie" in
  let folio := get_or root "Folio" "Sin Folio" in
  let fecha := get root "Fecha" in
  let* subtotal := float_attr root "SubTotal" in
  let* total := float_attr root "Total" in
  let moneda := get_or root "Moneda" "MXN" in
  let tipo_comprobante :=
    traducir_tipo_comprobante (get root "TipoDeComprobante") in
  let metodo_pago := get_or root "MetodoPago" "No especificado" in
  let lugar_expedicion := get root "LugarExpedicion" in
  Ok (mkDatosGenerales version serie folio fecha subtotal total moneda
        tipo_comprobante metodo_pago lugar_expedicion).

Definition extraer_emisor (root : Element) : strdict :=
  let emisor := find_child (qname "cfdi" "Emisor") root in
  let emisor :=
    match emisor with
    | None => find_child (qname "cfdi33" "Emisor") root
    | Some _ => emisor
    end in
  match emisor with
  | None =>
      list_to_map [ ("rfc", None); ("nombre", None); ("regimen_fiscal", None) ]
  | Some emisor =>
      list_to_map
        [ ("rfc", get emisor "Rfc");
          ("nombre", Some (get_or emisor "Nombre" "Sin Nombre"));
          ("regimen_fiscal", get emisor "RegimenFiscal") ]
  end.

Definition extraer_receptor (root : Element) : strdict :=
  let receptor := find_child (qname "cfdi" "Receptor") root in
  let receptor :=
    match receptor with
    | None => find_child (qname "cfdi33" "Receptor") root
    | Some _ => receptor
    end in
  match receptor with
  | None => ∅
  | Some receptor =>
      list_to_map
        [ ("rfc", get receptor "Rfc");
          ("nombre", Some (get_or receptor "Nombre" "Sin Nombre"));
          ("uso_cfdi", get receptor "UsoCFDI");
          ("regimen_fiscal", get receptor "RegimenFiscalReceptor");
          ("domicilio_fiscal", get receptor "DomicilioFiscalReceptor") ]
  end.

Record DoctoRelacionado := mkDoctoRelacionado {
  dr_id_documento : option string;
  dr_serie : option string;
  dr_folio : option string;
  dr_moneda : option string;
  dr_imp_saldo_ant : spec_float;
  dr_imp_pagado : spec_float;
  dr_imp_saldo_insoluto : spec_float
}.

Record Pago := mkPago {
  pg_fecha_pago : option string;
  pg_forma_pago : option string;
  pg_moneda : option string;
  pg_monto : spec_float;
  pg_documentos_relacionados : list DoctoRelacionado
}.

Definition findall_pago (name : string) (e : Element) : list Element :=
  match findall_descendants (qname "pago20" name) e with
  | [] => findall_descendants (qname "pago10" name) e
  | found => found
  end.

Definition doc_relacionado (doc : Element) : result DoctoRelacionado :=
  let id_documento := get doc "IdDocumento" in
  let serie := get doc "Serie" in
  let folio := get doc "Folio" in
  let moneda := get doc "MonedaDR" in
  let* imp_saldo_ant := float_attr doc "ImpSaldoAnt" in
  let* imp_pagado := float_attr doc "ImpPagado" in
  let* imp_saldo_insoluto := float_attr doc "ImpSaldoInsoluto" in
  Ok (mkDoctoRelacionado id_documento serie folio moneda imp_saldo_ant
        imp_pagado imp_saldo_insoluto).

Definition pago_data (pago : Element) : result Pago :=
  let fecha_pago := get pago "FechaPago" in
  let forma_pago := get pago "FormaDePagoP" in
  let moneda := get pago "MonedaP" in
  let* monto := float_attr pago "Monto" in
  let docs := findall_pago "DoctoRelacionado" pago in
  let* documentos_relacionados := for_each doc_relacionado docs in
  Ok (mkPago fecha_pago forma_pago moneda monto documentos_relacionados).

Definition extraer_complemento_pagos (pagos : Element) : result (list Pago) :=
  let lista_pagos := findall_pago "Pago" pagos in
  for_each pago_data lista_pagos.

(** Here the fallback is taken when [pagos is None]. *)
Definition extraer_complementos (root : Element)
  : result (gmap string (list Pago)) :=
  let complementos : gmap string (list Pago) := ∅ in
  let pagos := find_descendant (qname "pago20" "Pagos") root in
  let pagos :=
    match pagos with
    | None => find_descendant (qname "pago10" "Pagos") root
    | Some _ => pagos
    end in
  match pagos with
  | Some pagos =>
      let* datos := extraer_complemento_pagos pagos in
      Ok (<["pagos" := datos]> complementos)
  | None => Ok complementos
  end.

End Scripts.

(* ===================================================================== *)
(** ** [cfdi_tool/excel_writer.py] *)
(* ===================================================================== *)

Module Excel.

(** A cell of a row: what the dictionaries of the extractor hold. *)
Inductive celda :=
  | Nulo
  | Texto (s : string)
  | Numero (x : spec_float).

Definition de_texto (v : option string) : celda :=
  match v with
  | Some s => Texto s
  | None => Nulo
  end.

(** A row is a dictionary from column names to cells; the order of the
    keys is the order of the columns. *)
Abbreviation fila := (list (string * celda)).

(** [datos.get('timbre', {}).get('uuid', 'SIN_UUID')]. *)
Definition uuid_de (datos : Tool.Resultado) : celda :=
  de_texto (dict_get_or (Tool.timbre datos) "uuid" "SIN_UUID").

Definition fila_gen (datos : Tool.Resultado) : fila :=
  let uuid := uuid_de datos in
  let primer_concepto := head (Tool.conceptos datos) in
  let ts := traslados (Tool.impuestos datos) in
  let dg := Tool.datos_generales datos in
  [ ("UUID", uuid);
    ("Fecha", de_texto (dg_fecha dg));
    ("Tipo Comprobante", Texto (dg_tipo_comprobante dg));
    ("Metodo de Pago", Texto (dg_metodo_pago dg));
    ("Serie", Texto (dg_serie dg));
    ("Folio", Texto (dg_folio dg));
    ("Subtotal", Numero (dg_subtotal dg));
    ("tasa_cuota",
      match head ts with
      | Some t => Numero (tx_tasa_cuota t)
      | None => Texto "SIN_TASA"
      end);
    ("importe",
      match head ts with
      | Some t => Numero (tx_importe t)
      | None => Texto "SIN_IMPORTE"
      end);
    ("Total", Numero (dg_total dg));
    ("Moneda", Texto (dg_moneda dg));
    ("Descripcion",
      match primer_concepto with
      | Some c => de_texto (co_descripcion c)
      | None => Nulo
      end);
    ("Emisor RFC", de_texto (dict_get (Tool.emisor datos) "rfc"));
    ("Emisor Nombre", de_texto (dict_get (Tool.emisor datos) "nombre"));
    ("Receptor RFC", de_texto (dict_get (Tool.receptor datos) "rfc"));
    ("Receptor Nombre", de_texto (dict_get (Tool.receptor datos) "nombre"));
    ("Uso CFDI", de_texto (dict_get (Tool.receptor datos) "uso_cfdi"));
    ("RegimenFiscalReceptor",
      de_texto (dict_get (Tool.receptor datos) "regimen_fiscal"));
    ("lugar_expedicion", de_texto (dg_lugar_expedicion dg));
    ("receptor_domicilio_fiscal_receptor",
      de_texto (dict_get (Tool.receptor datos) "domicilio_fiscal_receptor")) ].

Definition fila_con (uuid : celda) (concepto : Concepto) : fila :=
  [ ("UUID_CFDI", uuid);
    ("ClaveProdServ", de_texto (co_clave_prod_serv concepto));
    ("Descripcion", de_texto (co_descripcion concepto));
    ("Cantidad", Numero (co_cantidad concepto));
    ("ClaveUnidad", de_texto (co_clave_unidad concepto));
    ("ValorUnitario", Numero (co_valor_unitario concepto));
    ("Importe", Numero (co_importe concepto));
    ("Descuento", Numero (co_descuento concepto)) ].

(** [primer_traslado.get(...)]: the first per-document tax, or the empty
    dictionary, whose every [get] is [None]. *)
Definition del_primero (f : TaxEntry -> spec_float) (ts : list TaxEntry) : celda :=
  match head ts with
  | Some t => Numero (f t)
  | None => Nulo
  end.

(** A payment dictionary of the extractor has no key [uuid], so
    [pago.get('uuid', uuid)] is [uuid]. *)
Definition fila_doc_rel (uuid : celda) (pago : Tool.Pago)
  (doc_rel : Tool.DoctoRelacionado) : fila :=
  let uuid_pago := uuid in
  let ts := Tool.dr_traslados_dr doc_rel in
  [ ("UUID_CFDI", uuid);
    ("UUID_Pago", uuid_pago);
    ("IdDocumento", de_texto (Tool.dr_id_documento doc_rel));
    ("Serie", de_texto (Tool.dr_serie doc_rel));
    ("Folio", de_texto (Tool.dr_folio doc_rel));
    ("MonedaDR", de_texto (Tool.dr_moneda doc_rel));
    ("ImpSaldoAnt", Numero (Tool.dr_imp_saldo_ant doc_rel));
    ("ImpPagado", Numero (Tool.dr_imp_pagado doc_rel));
    ("ImpSaldoInsoluto", Numero (Tool.dr_imp_saldo_insoluto doc_rel));
    ("BaseDR", del_primero tx_base ts);
    ("TasaOCuotaDR", del_primero tx_tasa_cuota ts);
    ("ImporteDR", del_primero tx_importe ts) ].

(** The three lists the loop over the documents fills. *)
Record filas := mkFilas {
  filas_general : list fila;
  filas_conceptos : list fila;
  filas_documentos_relacionados : list fila
}.

(** The rows of the related documents of one CFDI: the two inner loops. *)
Definition documentos_de (datos : Tool.Resultado) : list fila :=
  let uuid := uuid_de datos in
  match Tool.complementos datos !! "pagos" with
  | Some pagos =>
      flat_map
        (fun pago =>
           map (fila_doc_rel uuid pago) (Tool.pg_documentos_relacionados pago))
        pagos
  | None => []
  end.

(** One turn of the loop: the rows of one CFDI are appended. *)
Definition agregar (acc : filas) (datos : Tool.Resultado) : filas :=
  let uuid := uuid_de datos in
  mkFilas
    (filas_general acc ++ [fila_gen datos])
    (filas_conceptos acc ++ map (fila_con uuid) (Tool.conceptos datos))
    (filas_documentos_relacionados acc ++ documentos_de datos).

Definition construir_filas (lista_datos_cfdi : list Tool.Resultado) : filas :=
  fold_left agregar lista_datos_cfdi (mkFilas [] [] []).

(** A workbook: the sheets in the order they are written. *)
Abbreviation libro := (list (string * list fila)).

(** What an export leaves: the lines printed and the workbook written, if
    one was. *)
Record exportacion := mkExportacion {
  impreso : list string;
  escrito : option libro
}.

(** [exportar_a_excel].  [escritura] is what writing the file does: [None]
    when it succeeds, the message of the exception when it fails; the
    exception is caught. *)
Definition exportar_a_excel (escritura : option string)
  (lista_datos_cfdi : list Tool.Resultado) (ruta_salida : string)
  : exportacion :=
  let inicio :=
    [ String (ascii_of_nat 10) "--- Iniciando la exportación a Excel ---";
      "Se exportarán datos de " +:+ pretty (length lista_datos_cfdi)
        +:+ " CFDI." ] in
  let fs := construir_filas lista_datos_cfdi in
  match filas_general fs with
  | [] => mkExportacion (inicio ++ ["No hay datos generales para exportar."]) None
  | _ =>
      match escritura with
      | None =>
          let hojas :=
            [ ("CFDI_General", filas_general fs);
              ("Conceptos", filas_conceptos fs) ]
            ++ match filas_documentos_relacionados fs with
               | [] => []
               | docs => [ ("Documentos Relacionados", docs) ]
               end in
          mkExportacion
            (inicio ++ ["✅ ¡Éxito! Archivo guardado en: " +:+ ruta_salida])
            (Some hojas)
      | Some e =>
          mkExportacion
            (inicio ++ ["❌ Error al escribir el archivo Excel: " +:+ e])
            None
      end
  end.

End Excel.

(* ===================================================================== *)
(** ** [main.py] *)
(* ===================================================================== *)

Module Main.

(** [s.endswith(suffix)]. *)
Fixpoint endswith (suffix s : string) : bool :=
  String.eqb s suffix ||
  match s with
  | EmptyString => false
  | String _ s' => endswith suffix s'
  end.

(** [os.path.join(a, b)] on POSIX paths. *)
Definition join (a b : string) : string :=
  if String.prefix "/" b then b
  else if String.eqb a "" || endswith "/" a then a +:+ b
  else a +:+ "/" +:+ b.

(** What [main] finds besides the files themselves: whether the input
    folder is a directory, whether the output folder exists, the listing of
    the input folder, whether the export module can be imported and what
    writing the workbook does. *)
Record Entorno := mkEntorno {
  mundo : World;
  isdir_input : bool;
  exists_output : bool;
  listdir_input : list string;
  importable : bool;
  escritura : option string
}.

(** The loop over the files: the records of the files that gave one, in
    order.  ([if datos_cfdi:] holds for every record: it is a dictionary
    with nine keys.) *)
Fixpoint procesar_archivos (w : World) (input_dir : string)
  (archivos_xml : list string) (todos_los_datos : list Tool.Resultado)
  : run (list Tool.Resultado) :=
  match archivos_xml with
  | [] => ret todos_los_datos
  | nombre_archivo :: resto =>
      let ruta_completa := join input_dir nombre_archivo in
      let! datos_cfdi := Tool.procesar_cfdi_completo w ruta_completa in
      procesar_archivos w input_dir resto
        (match datos_cfdi with
         | Some datos => todos_los_datos ++ [datos]
         | None => todos_los_datos
         end)
  end.

(** What [main] did: whether it created the output folder and what the
    export left, if it came to that. *)
Record Hecho := mkHecho {
  carpeta_creada : bool;
  exportado : option Excel.exportacion
}.

(** [main], with the two folders as the absolute paths it computes. *)
Definition main (env : Entorno) (input_dir output_dir : string) : run Hecho :=
  let! _ := print "--- Iniciando el proceso de extracción de CFDI ---" in
  if negb (isdir_input env) then
    let! _ := print ("Error: La carpeta de entrada '" +:+ input_dir
                +:+ "' no existe o no es un directorio.") in
    ret (mkHecho false None)
  else
    let crear := negb (exists_output env) in
    let! _ :=
      if crear
      then print ("La carpeta de salida '" +:+ output_dir
                  +:+ "' no existe. Creándola...")
      else ret tt in
    let archivos_xml :=
      List.filter (fun f => endswith ".xml" (lower f)) (listdir_input env) in
    match archivos_xml with
    | [] =>
        let! _ := print ("No se encontraron archivos .xml en '" +:+ input_dir
                    +:+ "'.") in
        ret (mkHecho crear None)
    | _ =>
        let! _ := print ("Se encontraron " +:+ pretty (length archivos_xml)
                    +:+ " CFDI para procesar.") in
        let! todos_los_datos :=
          procesar_archivos (mundo env) input_dir archivos_xml [] in
        match todos_los_datos with
        | [] =>
            let! _ :=
              print "No se pudo extraer información de ningún archivo CFDI." in
            ret (mkHecho crear None)
        | _ =>
            let! _ := print (String (ascii_of_nat 10) "✅ Se procesaron "
                        +:+ pretty (length todos_los_datos)
                        +:+ " CFDI con éxito.") in
            let ruta_salida_excel := join output_dir "reporte_cfdi.xlsx" in
            if importable env then
              let e := Excel.exportar_a_excel (escritura env) todos_los_datos
                         ruta_salida_excel in
              mkRun (Excel.impreso e) (Ok (mkHecho crear (Some e)))
            else
              let! _ := print "⚠️  No se pudo importar la función de exportación a Excel. Se omitirá la escritura del archivo." in
              ret (mkHecho crear None)
        end
    end.

End Main.

(* ===================================================================== *)
(** * Vocabulary of the statements *)
(* ===================================================================== *)

(* ===================================================================== *)
(** ** Looking up a child under two namespaces *)
(* ===================================================================== *)

(** [c] is the first child of [root], in document order, with tag [t]. *)
Definition first_child (t : string) (root c : Element) : Prop :=
  exists before after,
    children root = before ++ c :: after
    /\ Forall (fun x => tag x <> t) before
    /\ tag c = t.

(** No child of [root] has tag [t]. *)
Definition no_child (t : string) (root : Element) : Prop :=
  Forall (fun x => tag x <> t) (children root).

(** The element a two-namespace lookup settles on: the first child under
    the current prefix, else the first under the legacy prefix. *)
Definition lookup2 (name : string) (root : Element) : option Element :=
  match find_child (qname "cfdi" name) root with
  | Some e => Some e
  | None => find_child (qname "cfdi33" name) root
  end.

(** What the issuer and recipient dictionaries hold when they are built
    from an element. *)
Definition emisor_from (e : Element) (d : strdict) : Prop :=
  d !! "rfc" = Some (get e "Rfc")
  /\ d !! "nombre" = Some (Some (get_or e "Nombre" "Sin Nombre"))
  /\ d !! "regimen_fiscal" = Some (get e "RegimenFiscal")
  /\ dom d = {[ "rfc"; "nombre"; "regimen_fiscal" ]}.

Definition receptor_from (e : Element) (d : strdict) : Prop :=
  d !! "rfc" = Some (get e "Rfc")
  /\ d !! "nombre" = Some (Some (get_or e "Nombre" "Sin Nombre"))
  /\ d !! "uso_cfdi" = Some (get e "UsoCFDI")
  /\ d !! "regimen_fiscal" = Some (get e "RegimenFiscalReceptor")
  /\ d !! "domicilio_fiscal" = Some (get e "DomicilioFiscalReceptor").

(** The all-null dictionaries returned for a missing element. *)
Definition emisor_nulo : strdict :=
  list_to_map [ ("rfc", None); ("nombre", None); ("regimen_fiscal", None) ].

Definition receptor_nulo : strdict :=
  list_to_map
    [ ("rfc", None); ("nombre", None); ("uso_cfdi", None);
      ("regimen_fiscal", None); ("domicilio_fiscal", None);
      ("domicilio_fiscal_receptor", None) ].

(* ===================================================================== *)
(** ** Descendants *)
(* ===================================================================== *)

(** Some descendant of [root] has tag [t]. *)
Definition has_descendant (t : string) (root : Element) : Prop :=
  exists x, x ∈ descendants root /\ tag x = t.

(* ===================================================================== *)
(** ** Totality of the stages after loading *)
(* ===================================================================== *)

(** The attributes the extractors pass to [float]. *)
Definition numeric_keys : list string :=
  [ "SubTotal"; "Total"; "Cantidad"; "ValorUnitario"; "Importe"; "Descuento";
    "Base"; "TasaOCuota"; "Monto"; "ImpSaldoAnt"; "ImpPagado";
    "ImpSaldoInsoluto"; "BaseDR"; "TasaOCuotaDR"; "ImporteDR" ].

(** The attribute [key] of [e] is absent or holds a float literal. *)
Definition numeric_text_ok (e : Element) (key : string) : bool :=
  match attrib e !! key with
  | Some s => bool_decide (is_Some (float_of_string s))
  | None => true
  end.

Definition numeric_ok_at (e : Element) : bool :=
  forallb (numeric_text_ok e) numeric_keys.

(** No element of the tree carries a numeric attribute that [float]
    refuses. *)
Definition numeric_ok (root : Element) : bool :=
  forallb numeric_ok_at (nodes root).

(** The exception [e] is the [ValueError] of [float] on the text of a
    numeric attribute of some element of the tree. *)
Definition refused_numeric (root : Element) (e : exn) : Prop :=
  exists x key s,
    x ∈ nodes root
    /\ In key numeric_keys
    /\ attrib x !! key = Some s
    /\ float_of_string s = None
    /\ e = ValueError s.

(* ===================================================================== *)
(** ** Loading *)
(* ===================================================================== *)

(** The failure kinds the specification names for the loader. *)
Inductive LoadFailure :=
  | NotFound
  | MalformedXML (msg : string)
  | UnknownReadError.

(* ===================================================================== *)
(** ** Two invocations on the same document *)
(* ===================================================================== *)

Definition result_map {A B} (f : A -> B) (r : result A) : result B :=
  match r with
  | Ok a => Ok (f a)
  | Raise e => Raise e
  end.


(* ===================================================================== *)
(** ** Document order *)
(* ===================================================================== *)

Section FlatMapIndexed.
Context {A B : Type} (f : nat -> A -> list B).

(** [flat_map] with the position of each element, counted from [i]. *)
Fixpoint flat_mapi (i : nat) (l : list A) : list B :=
  match l with
  | [] => []
  | x :: l' => f i x ++ flat_mapi (S i) l'
  end.
End FlatMapIndexed.

(** The position of an element in the tree: the child positions from the
    root down.  Document order is the order of these paths in which an
    element comes before its descendants and before everything under its
    later siblings. *)
Fixpoint path_lt (p q : list nat) : Prop :=
  match p, q with
  | [], [] => False
  | [], _ :: _ => True
  | _ :: _, [] => False
  | i :: p', j :: q' => i < j \/ (i = j /\ path_lt p' q')
  end.

Definition under (i : nat) (px : list nat * Element) : list nat * Element :=
  (i :: px.1, px.2).

(** Every element of the tree with its path, as [nodes] lists them. *)
Fixpoint located (e : Element) : list (list nat * Element) :=
  ([], e) :: flat_mapi (fun i c => map (under i) (located c)) 0 (children e).

Definition located_lt (a b : list nat * Element) : Prop := path_lt a.1 b.1.

(** The descendants of [c] with their paths. *)
Definition located_descendants (c : Element) : list (list nat * Element) :=
  flat_mapi (fun i ch => map (under i) (located ch)) 0 (children c).

(** The elements under the paths [paths] of [c]. *)
Definition elements_at (c : Element) (paths : list (list nat)) : list Element :=
  omap (subelement c) paths.

(** [paths] lists, in document order and once each, the paths of the
    descendants of [c] that have tag [t]. *)
Definition tagged_paths (t : string) (c : Element) (paths : list (list nat)) : Prop :=
  StronglySorted path_lt paths
  /\ forall p, p ∈ paths <->
                p <> [] /\ exists x, subelement c p = Some x /\ tag x = t.

(* ===================================================================== *)
(** ** Texts, payments and rows *)
(* ===================================================================== *)

(** A text made of white space only (the empty text is one). *)
Definition blank (s : string) : Prop :=
  Forall (fun c => is_space c = true) (list_ascii_of_string s).

(** A related document and a payment of [cfdi_tool], without the
    per-document taxes that the scripts file does not read. *)
Definition sin_traslados_dr (d : Tool.DoctoRelacionado) : Scripts.DoctoRelacionado :=
  Scripts.mkDoctoRelacionado (Tool.dr_id_documento d) (Tool.dr_serie d)
    (Tool.dr_folio d) (Tool.dr_moneda d) (Tool.dr_imp_saldo_ant d)
    (Tool.dr_imp_pagado d) (Tool.dr_imp_saldo_insoluto d).

Definition pago_sin_traslados_dr (p : Tool.Pago) : Scripts.Pago :=
  Scripts.mkPago (Tool.pg_fecha_pago p) (Tool.pg_forma_pago p)
    (Tool.pg_moneda p) (Tool.pg_monto p)
    (map sin_traslados_dr (Tool.pg_documentos_relacionados p)).

(* ===================================================================== *)
(** ** Documents and worlds of the examples *)
(* ===================================================================== *)

Definition elem (t : string) (attrs : list (string * string))
  (cs : list Element) : Element :=
  mkElement t (list_to_map attrs) cs.

(** [minimal_cfdi_xml] of [tests/test_extractor.py], parsed. *)
Definition minimal_cfdi : Element :=
  elem (qname "cfdi" "Comprobante")
    [ ("Version", "4.0"); ("Serie", "A"); ("Folio", "1");
      ("Fecha", "2025-12-30T12:00:00"); ("SubTotal", "100");
      ("Total", "1160"); ("Moneda", "MXN"); ("TipoDeComprobante", "I") ]
    [ elem (qname "cfdi" "Emisor")
        [ ("Rfc", "DEMO010101001");
          ("Nombre", "Empresa Demostrativa SA de CV");
          ("RegimenFiscal", "601") ] [];
      elem (qname "cfdi" "Receptor")
        [ ("Rfc", "XAXX010101000"); ("Nombre", "Juan Pérez González");
          ("UsoCFDI", "G03") ] [];
      elem (qname "cfdi" "Conceptos") []
        [ elem (qname "cfdi" "Concepto")
            [ ("ClaveProdServ", "01010101"); ("Cantidad", "1");
              ("ClaveUnidad", "H87"); ("Descripcion", "Servicio");
              ("ValorUnitario", "100"); ("Importe", "100") ] [] ] ].

Definition test_world (now : string) (root : Element) : World :=
  mkWorld (fun _ => true) (fun _ => Parsed root) now.

Definition concepto_sin_numeros : Element :=
  elem (qname "cfdi" "Concepto") [ ("Descripcion", "Servicio") ] [].

(** A CFDI 3.3 document: every element sits in the legacy namespace. *)
Definition legacy_emisor : Element :=
  elem (qname "cfdi33" "Emisor")
    [ ("Rfc", "AAA010101AAA"); ("Nombre", "Emisor Tres Tres");
      ("RegimenFiscal", "601") ] [].

Definition legacy_receptor : Element :=
  elem (qname "cfdi33" "Receptor")
    [ ("Rfc", "XAXX010101000"); ("UsoCFDI", "G03") ] [].

Definition legacy_cfdi : Element :=
  elem (qname "cfdi33" "Comprobante")
    [ ("Version", "3.3"); ("Total", "116.00") ]
    [ legacy_emisor; legacy_receptor ].

(** A payment document whose 2.0 container is there but has no child. *)
Definition pagos_sin_hijos : Element :=
  elem (qname "cfdi" "Comprobante")
    [ ("Version", "4.0"); ("TipoDeComprobante", "P"); ("Total", "0") ]
    [ elem (qname "cfdi" "Complemento") []
        [ elem (qname "pago20" "Pagos") [ ("Version", "2.0") ] [] ] ].

(** The test document without its Receptor element. *)
Definition sin_receptor : Element :=
  elem (qname "cfdi" "Comprobante")
    [ ("Version", "4.0"); ("Serie", "A"); ("Folio", "1"); ("Total", "1160") ]
    [ elem (qname "cfdi" "Emisor") [ ("Rfc", "DEMO010101001") ] [] ].

(** A root element without any attribute. *)
Definition comprobante_vacio : Element := elem (qname "cfdi" "Comprobante") [] [].


(** Three worlds: the path does not exist; the file holds truncated XML;
    the file cannot be read. *)
Definition mundo_sin_archivo : World :=
  mkWorld (fun _ => false) (fun _ => OtherError "") "2026-01-01T00:00:00".

Definition mundo_xml_truncado : World :=
  mkWorld (fun _ => true)
    (fun _ => ParseError "no element found: line 1, column 0")
    "2026-01-01T00:00:00".

Definition mundo_sin_permiso : World :=
  mkWorld (fun _ => true)
    (fun _ => OtherError "[Errno 13] Permission denied: 'factura.xml'")
    "2026-01-01T00:00:00".

(** An item whose taxes sit three levels down, with the same Traslado
    twice, one Traslado in the legacy namespace and one Retencion. *)
Definition concepto_con_impuestos : Element :=
  elem (qname "cfdi" "Concepto")
    [ ("Descripcion", "Servicio"); ("Importe", "100") ]
    [ elem (qname "cfdi" "Impuestos") []
        [ elem (qname "cfdi" "Traslados") []
            [ elem (qname "cfdi" "Traslado")
                [ ("Base", "100"); ("Impuesto", "002"); ("Importe", "16") ] [];
              elem (qname "cfdi33" "Traslado")
                [ ("Base", "100"); ("Impuesto", "003"); ("Importe", "8") ] [];
              elem (qname "cfdi" "Traslado")
                [ ("Base", "100"); ("Impuesto", "002"); ("Importe", "16") ] [] ];
          elem (qname "cfdi" "Retenciones") []
            [ elem (qname "cfdi" "Retencion")
                [ ("Base", "100"); ("Impuesto", "001"); ("Importe", "10") ] [] ] ] ].


(** The cell of a row under a column name, and a column of a sheet. *)
Fixpoint celda_de (name : string) (f : Excel.fila) : option Excel.celda :=
  match f with
  | [] => None
  | (k, v) :: f' => if String.eqb k name then Some v else celda_de name f'
  end.

Definition columna (name : string) (rows : list Excel.fila)
  : list (option Excel.celda) :=
  map (celda_de name) rows.

(** The record has a payment with a related document. *)
Definition con_documentos (d : Tool.Resultado) : Prop :=
  exists ps p,
    Tool.complementos d !! "pagos" = Some ps /\ p ∈ ps
    /\ Tool.pg_documentos_relacionados p <> [].

(** The files [main] processes: the entries of the input folder whose
    name, in lower case, ends in [.xml]. *)
Definition archivos_xml (env : Main.Entorno) : list string :=
  List.filter (fun f => Main.endswith ".xml" (lower f)) (Main.listdir_input env).

(** The record a file gives, when processing it returns one. *)
Definition registro_de (w : World) (ruta : string) : option Tool.Resultado :=
  match returned (Tool.procesar_cfdi_completo w ruta) with
  | Ok (Some r) => Some r
  | _ => None
  end.

(** A comprobante whose only line item carries taxes. *)
Definition comprobante_con_impuestos : Element :=
  elem (qname "cfdi" "Comprobante") []
    [ elem (qname "cfdi" "Conceptos") [] [ concepto_con_impuestos ] ].

(** A payment complement with one payment, one related document and its
    per-document tax, and the comprobante of type P that carries it. *)
Definition complemento_pagos : Element :=
  elem (qname "pago20" "Pagos") [ ("Version", "2.0") ]
    [ elem (qname "pago20" "Pago")
        [ ("FechaPago", "2026-01-15T12:00:00"); ("FormaDePagoP", "03");
          ("MonedaP", "MXN"); ("Monto", "1160.00") ]
        [ elem (qname "pago20" "DoctoRelacionado")
            [ ("IdDocumento", "5E8B7A30-0000-4000-8000-000000000001");
              ("MonedaDR", "MXN"); ("ImpSaldoAnt", "1160.00");
              ("ImpPagado", "1160.00"); ("ImpSaldoInsoluto", "0.00") ]
            [ elem (qname "pago20" "ImpuestosDR") []
                [ elem (qname "pago20" "TrasladosDR") []
                    [ elem (qname "pago20" "TrasladoDR")
                        [ ("BaseDR", "1000.00"); ("ImpuestoDR", "002");
                          ("TipoFactorDR", "Tasa");
                          ("TasaOCuotaDR", "0.160000");
                          ("ImporteDR", "160.00") ] [] ] ] ] ] ].

Definition comprobante_de_pago : Element :=
  elem (qname "cfdi" "Comprobante")
    [ ("Version", "4.0"); ("Serie", "P"); ("Folio", "7");
      ("TipoDeComprobante", "P"); ("Total", "0"); ("Moneda", "XXX") ]
    [ elem (qname "cfdi" "Emisor") [ ("Rfc", "DEMO010101001") ] [];
      elem (qname "cfdi" "Complemento") []
        [ complemento_pagos;
          elem (qname "tfd" "TimbreFiscalDigital")
            [ ("UUID", "0C1D2E3F-0000-4000-8000-000000000002") ] [] ] ].

(** An input folder with two CFDI and a file that is not one, and one
    whose second CFDI has a SubTotal that is not a number. *)
Definition entorno_de_prueba : Main.Entorno :=
  Main.mkEntorno (test_world "2026-01-01T00:00:00" minimal_cfdi)
    true false [ "a.xml"; "notas.txt"; "B.XML" ] true None.



(* ===================================================================== *)
(** * Facts *)
(* ===================================================================== *)

(* ===================================================================== *)
(** ** Paths: [find] and [findall] *)
(* ===================================================================== *)

Lemma Element_ind' (P : Element -> Prop) :
  (forall t a cs, Forall P cs -> P (mkElement t a cs)) -> forall e, P e.
Proof.
  intros step. fix IH 1. intros [t a cs]. apply step.
  revert cs. fix IHcs 1. intros [|c cs].
  - constructor.
  - constructor; [apply IH | apply IHcs].
Qed.

(* ===================================================================== *)
(** ** Basic facts *)
(* ===================================================================== *)

Section Binds.
Context {A B : Type}.

Lemma bind_ok (r : result A) (k : A -> result B) (b : B) :
  bind r k = Ok b <-> exists a, r = Ok a /\ k a = Ok b.
Proof.
  destruct r as [a|e]; simpl; split.
  - intros H. exists a. auto.
  - intros (a' & Ha & Hk). congruence.
  - discriminate.
  - intros (a' & Ha & _). discriminate.
Qed.


End Binds.

Section Loops.
Context {A B : Type}.

Lemma for_each_ok (f : A -> result B) (l : list A) (ys : list B) :
  for_each f l = Ok ys <-> Forall2 (fun x y => f x = Ok y) l ys.
Proof.
  revert ys. induction l as [|x l IH]; intros ys; simpl.
  - split.
    + intros [= <-]. constructor.
    + intros H. inversion H. reflexivity.
  - rewrite bind_ok. split.
    + intros (y & Hy & Hrest). apply bind_ok in Hrest as (ys' & Hys' & [= <-]).
      constructor; [exact Hy | apply IH, Hys'].
    + intros H. inversion H as [|? y ? ys' Hy Hrest]; subst.
      exists y. split; [exact Hy |]. apply IH in Hrest. rewrite Hrest. reflexivity.
Qed.


Lemma for_each_length (f : A -> result B) (l : list A) (ys : list B) :
  for_each f l = Ok ys -> length ys = length l.
Proof. rewrite for_each_ok. intros H. symmetry. exact (Forall2_length _ _ _ H). Qed.
End Loops.

Lemma float_attr_absent (e : Element) (key : string) :
  attrib e !! key = None -> float_attr e key = Ok pos_zero.
Proof. intros H. unfold float_attr, get_or_0. rewrite H. reflexivity. Qed.

Lemma float_attr_present (e : Element) (key s : string) :
  attrib e !! key = Some s ->
  float_attr e key =
    match float_of_string s with
    | Some f => Ok f
    | None => Raise (ValueError s)
    end.
Proof. intros H. unfold float_attr, get_or_0. rewrite H. reflexivity. Qed.


(** Every prefix written in a path of the extractors is in the table. *)
Lemma prefixes_bound :
  Forall (fun p => is_Some (namespaces !! p))
         ["cfdi"; "cfdi33"; "tfd"; "pago20"; "pago10"].
Proof. repeat constructor; vm_compute; eauto. Qed.

(** [float] on some texts. *)
Example float_of_string_examples :
  float_of_string "100" = Some (S754_finite false 7036874417766400 (-46))
  /\ float_of_string "0.1" = Some (S754_finite false 7205759403792794 (-56))
  /\ float_of_string " 1_160.50 " = float_of_string "1160.5"
  /\ float_of_string "-0.0" = Some (S754_zero true)
  /\ float_of_string "1E+2" = float_of_string "100"
  /\ float_of_string "9007199254740993" = float_of_string "9007199254740992"
  /\ float_of_string "1e400" = Some (S754_infinity false)
  /\ float_of_string "-Infinity" = Some (S754_infinity true)
  /\ float_of_string "NaN" = Some S754_nan
  /\ float_of_string "abc" = None
  /\ float_of_string "" = None
  /\ float_of_string "12,5" = None
  /\ float_of_string "1__0" = None
  /\ float_of_string "1e" = None
  /\ float_of_string "." = None
  /\ py_float (PyInt 0) = Ok pos_zero.
Proof. repeat split. Qed.

(** [format(x, ',.2f')] on some values. *)
Example format_money_examples :
  format_money <$> float_of_string "1160" = Some "1,160.00"
  /\ format_money <$> float_of_string "0.125" = Some "0.12"
  /\ format_money <$> float_of_string "0.375" = Some "0.38"
  /\ format_money <$> float_of_string "2.675" = Some "2.67"
  /\ format_money <$> float_of_string "1234567.891" = Some "1,234,567.89"
  /\ format_money <$> float_of_string "-0.001" = Some "-0.00"
  /\ format_money pos_zero = "0.00".
Proof. repeat split. Qed.

(** [detectar_version]: the attribute when there is one, else what the
    tag suggests. *)
Example detectar_version_examples :
  Tool.detectar_version minimal_cfdi = "4.0"
  /\ Tool.detectar_version comprobante_vacio = "4.0"
  /\ Tool.detectar_version (elem (qname "cfdi33" "Comprobante") [] []) = "3.3"
  /\ Tool.detectar_version (elem "Comprobante" [ ("version", "3.2") ] []) = "3.2"
  /\ Tool.detectar_version (elem "Comprobante" [ ("Version", "") ] [])
     = "Desconocida".
Proof. repeat split. Qed.

(** The assertions of [test_procesar_cfdi_completo]. *)
Example test_procesar_cfdi_completo :
  exists resultado,
    returned (Tool.procesar_cfdi_completo
                (test_world "2026-01-01T00:00:00" minimal_cfdi) "minimal_cfdi.xml")
    = Ok (Some resultado)
    /\ Tool.archivo resultado = "minimal_cfdi.xml"
    /\ dg_serie (Tool.datos_generales resultado) = "A"
    /\ dg_folio (Tool.datos_generales resultado) = "1"
    /\ Tool.emisor resultado !! "rfc" = Some (Some "DEMO010101001")
    /\ Tool.receptor resultado !! "rfc" = Some (Some "XAXX010101000")
    /\ length (Tool.conceptos resultado) = 1.
Proof. eexists. split; [vm_compute; reflexivity |]. repeat split. Qed.

(** Peel the [let*] steps of a builder that returned. *)
Ltac ok_steps H :=
  repeat (apply bind_ok in H as (? & ? & H)); simplify_eq; simpl.

(** A field fed by an absent attribute, in a builder that returned. *)
Ltac zero_field Habs :=
  let Hok := fresh "Hok" in
  intros ? Hok; repeat split; intros ->;
  unfold Tool.extraer_datos_generales, concepto_data, tax_entry,
    Tool.pago_data, Tool.doc_relacionado, Tool.traslado_dr in Hok;
  rewrite (float_attr_absent _ _ Habs) in Hok;
  ok_steps Hok; reflexivity.

(* ===================================================================== *)
(** ** Missing numeric attributes *)
(* ===================================================================== *)

(** C5.  An element that lacks the attribute [key] reads it as 0.0: the read
    [float(e.get(key, 0))] itself returns 0.0 and never raises, and whatever
    record an extractor builds from that element carries 0.0 in the field
    fed by [key].  This covers the root (SubTotal, Total), a Concepto
    (Cantidad, ValorUnitario, Importe, Descuento), a Traslado or Retencion
    (Base, TasaOCuota, Importe), a Pago (Monto), a DoctoRelacionado
    (ImpSaldoAnt, ImpPagado, ImpSaldoInsoluto) and a TrasladoDR (BaseDR,
    TasaOCuotaDR, ImporteDR). *)
Theorem C5_absent_numeric_attribute_reads_zero (e : Element) (key : string) :
  attrib e !! key = None ->
  float_attr e key = Ok pos_zero
  /\ (forall d, Tool.extraer_datos_generales e = Ok d ->
        (key = "SubTotal" -> dg_subtotal d = pos_zero)
        /\ (key = "Total" -> dg_total d = pos_zero))
  /\ (forall c, concepto_data e = Ok c ->
        (key = "Cantidad" -> co_cantidad c = pos_zero)
        /\ (key = "ValorUnitario" -> co_valor_unitario c = pos_zero)
        /\ (key = "Importe" -> co_importe c = pos_zero)
        /\ (key = "Descuento" -> co_descuento c = pos_zero))
  /\ (forall t, tax_entry e = Ok t ->
        (key = "Base" -> tx_base t = pos_zero)
        /\ (key = "TasaOCuota" -> tx_tasa_cuota t = pos_zero)
        /\ (key = "Importe" -> tx_importe t = pos_zero))
  /\ (forall p, Tool.pago_data e = Ok p ->
        key = "Monto" -> Tool.pg_monto p = pos_zero)
  /\ (forall d, Tool.doc_relacionado e = Ok d ->
        (key = "ImpSaldoAnt" -> Tool.dr_imp_saldo_ant d = pos_zero)
        /\ (key = "ImpPagado" -> Tool.dr_imp_pagado d = pos_zero)
        /\ (key = "ImpSaldoInsoluto" -> Tool.dr_imp_saldo_insoluto d = pos_zero))
  /\ (forall t, Tool.traslado_dr e = Ok t ->
        (key = "BaseDR" -> tx_base t = pos_zero)
        /\ (key = "TasaOCuotaDR" -> tx_tasa_cuota t = pos_zero)
        /\ (key = "ImporteDR" -> tx_importe t = pos_zero)).
Proof.
  intros Habs. split; [exact (float_attr_absent e key Habs) |].
  repeat apply conj; zero_field Habs.
Qed.

Lemma C5_absent_numeric_attribute_witness :
  attrib concepto_sin_numeros !! "Cantidad" = None
  /\ exists c, concepto_data concepto_sin_numeros = Ok c
              /\ co_cantidad c = pos_zero.
Proof.
  split; [reflexivity |].
  destruct (C5_absent_numeric_attribute_reads_zero
              concepto_sin_numeros "Cantidad" eq_refl) as (_ & _ & Hc & _).
  eexists. split; [vm_compute; reflexivity |].
  apply Hc; reflexivity.
Defined.

(* ===================================================================== *)
(** ** Looking up a child under two namespaces *)
(* ===================================================================== *)

Lemma head_filter_first (t : string) (l before after : list Element) (c : Element) :
  l = before ++ c :: after ->
  Forall (fun x => tag x <> t) before ->
  tag c = t ->
  head (filter (has_tag t) l) = Some c.
Proof.
  intros -> Hbefore Hc. induction Hbefore as [|x before Hx _ IH]; simpl.
  - rewrite filter_cons_True by exact Hc. reflexivity.
  - rewrite filter_cons_False by exact Hx. exact IH.
Qed.

Lemma head_filter_some (t : string) (l : list Element) (c : Element) :
  head (filter (has_tag t) l) = Some c ->
  exists before after,
    l = before ++ c :: after /\ Forall (fun x => tag x <> t) before /\ tag c = t.
Proof.
  induction l as [|x l IH]; [discriminate |].
  destruct (decide (has_tag t x)) as [Hx | Hx].
  - rewrite filter_cons_True by exact Hx. intros [= ->].
    exists [], l. repeat split; [constructor | exact Hx].
  - rewrite filter_cons_False by exact Hx. intros H.
    destruct (IH H) as (before & after & -> & Hb & Hc).
    exists (x :: before), after. repeat split; [constructor; assumption | exact Hc].
Qed.

Lemma head_filter_none (t : string) (l : list Element) :
  head (filter (has_tag t) l) = None <-> Forall (fun x => tag x <> t) l.
Proof.
  induction l as [|x l IH].
  - split; [constructor | reflexivity].
  - destruct (decide (has_tag t x)) as [Hx | Hx].
    + rewrite filter_cons_True by exact Hx. split; [discriminate |].
      intros H. inversion H; subst. contradiction.
    + rewrite filter_cons_False by exact Hx. rewrite IH. split.
      * intros H. constructor; assumption.
      * intros H. inversion H; assumption.
Qed.

Lemma find_child_first (t : string) (root c : Element) :
  find_child t root = Some c <-> first_child t root c.
Proof.
  unfold find_child, findall_children, first_child. split.
  - apply head_filter_some.
  - intros (before & after & Hl & Hb & Hc). exact (head_filter_first _ _ _ _ _ Hl Hb Hc).
Qed.

Lemma find_child_none (t : string) (root : Element) :
  find_child t root = None <-> no_child t root.
Proof. apply head_filter_none. Qed.

Lemma lookup2_current (name : string) (root e : Element) :
  first_child (qname "cfdi" name) root e -> lookup2 name root = Some e.
Proof. intros H. apply find_child_first in H. unfold lookup2. rewrite H. reflexivity. Qed.

Lemma lookup2_legacy (name : string) (root e : Element) :
  no_child (qname "cfdi" name) root ->
  first_child (qname "cfdi33" name) root e ->
  lookup2 name root = Some e.
Proof.
  intros Hno H. apply find_child_none in Hno. apply find_child_first in H.
  unfold lookup2. rewrite Hno. exact H.
Qed.

Lemma lookup2_none (name : string) (root : Element) :
  lookup2 name root = None <->
  no_child (qname "cfdi" name) root /\ no_child (qname "cfdi33" name) root.
Proof.
  unfold lookup2. rewrite <- !find_child_none.
  destruct (find_child (qname "cfdi" name) root); split.
  - discriminate.
  - intros [H _]. discriminate.
  - intros H. split; [reflexivity | exact H].
  - intros [_ H]. exact H.
Qed.

Lemma Tool_extraer_emisor_lookup2 (root : Element) :
  match lookup2 "Emisor" root with
  | Some e => emisor_from e (Tool.extraer_emisor root)
  | None => Tool.extraer_emisor root = emisor_nulo
  end.
Proof.
  unfold lookup2, Tool.extraer_emisor.
  destruct (find_child (qname "cfdi" "Emisor") root) as [e|];
    [| destruct (find_child (qname "cfdi33" "Emisor") root) as [e|]].
  all: try (repeat split; try reflexivity).
Qed.

Lemma Scripts_extraer_emisor_lookup2 (root : Element) :
  match lookup2 "Emisor" root with
  | Some e => emisor_from e (Scripts.extraer_emisor root)
  | None => Scripts.extraer_emisor root = emisor_nulo
  end.
Proof.
  unfold lookup2, Scripts.extraer_emisor.
  destruct (find_child (qname "cfdi" "Emisor") root) as [e|];
    [| destruct (find_child (qname "cfdi33" "Emisor") root) as [e|]].
  all: try (repeat split; try reflexivity).
Qed.

Lemma Tool_extraer_receptor_lookup2 (root : Element) :
  match lookup2 "Receptor" root with
  | Some e =>
      receptor_from e (Tool.extraer_receptor root)
      /\ Tool.extraer_receptor root !! "domicilio_fiscal_receptor"
         = Some (get e "DomicilioFiscalReceptor")
      /\ dom (Tool.extraer_receptor root) = dom receptor_nulo
  | None => Tool.extraer_receptor root = receptor_nulo
  end.
Proof.
  unfold lookup2, Tool.extraer_receptor.
  destruct (find_child (qname "cfdi" "Receptor") root) as [e|];
    [| destruct (find_child (qname "cfdi33" "Receptor") root) as [e|]].
  all: try (repeat split; try reflexivity).
Qed.

Lemma Scripts_extraer_receptor_lookup2 (root : Element) :
  match lookup2 "Receptor" root with
  | Some e =>
      receptor_from e (Scripts.extraer_receptor root)
      /\ dom (Scripts.extraer_receptor root)
         = {[ "rfc"; "nombre"; "uso_cfdi"; "regimen_fiscal"; "domicilio_fiscal" ]}
  | None => Scripts.extraer_receptor root = ∅
  end.
Proof.
  unfold lookup2, Scripts.extraer_receptor.
  destruct (find_child (qname "cfdi" "Receptor") root) as [e|];
    [| destruct (find_child (qname "cfdi33" "Receptor") root) as [e|]].
  all: try (repeat split; try reflexivity).
Qed.

(** A dictionary built from an element is never the all-null one: its name
    is a text. *)
Lemma emisor_from_not_nulo (e : Element) (d : strdict) :
  emisor_from e d -> d <> emisor_nulo.
Proof. intros (_ & Hn & _) ->. vm_compute in Hn. discriminate. Qed.

Lemma receptor_from_not_nulo (e : Element) (d : strdict) :
  receptor_from e d -> d <> receptor_nulo.
Proof. intros (_ & Hn & _) ->. vm_compute in Hn. discriminate. Qed.

Lemma receptor_from_not_empty (e : Element) (d : strdict) :
  receptor_from e d -> d <> ∅.
Proof. intros (Hr & _) ->. rewrite lookup_empty in Hr. discriminate. Qed.

(** C6.  Issuer and recipient are looked up under the current (4.0) prefix
    first and under the legacy (3.3) prefix when the first finds nothing:
    a current-generation element wins whatever legacy elements exist; a
    document whose Emisor and Receptor are legacy ones still gets
    dictionaries populated from them; and the not-found result (all fields
    null; the empty dictionary for the recipient of the scripts file) comes
    out exactly when both lookups find nothing. *)
Theorem C6_lookup_current_then_legacy (root : Element) :
  (forall e, first_child (qname "cfdi" "Emisor") root e ->
     emisor_from e (Tool.extraer_emisor root)
     /\ emisor_from e (Scripts.extraer_emisor root))
  /\ (forall e, first_child (qname "cfdi" "Receptor") root e ->
       receptor_from e (Tool.extraer_receptor root)
       /\ receptor_from e (Scripts.extraer_receptor root))
  /\ (forall e, no_child (qname "cfdi" "Emisor") root ->
       first_child (qname "cfdi33" "Emisor") root e ->
       emisor_from e (Tool.extraer_emisor root)
       /\ emisor_from e (Scripts.extraer_emisor root))
  /\ (forall e, no_child (qname "cfdi" "Receptor") root ->
       first_child (qname "cfdi33" "Receptor") root e ->
       receptor_from e (Tool.extraer_receptor root)
       /\ receptor_from e (Scripts.extraer_receptor root))
  /\ (no_child (qname "cfdi" "Emisor") root
       /\ no_child (qname "cfdi33" "Emisor") root
       <-> Tool.extraer_emisor root = emisor_nulo)
  /\ (no_child (qname "cfdi" "Emisor") root
       /\ no_child (qname "cfdi33" "Emisor") root
       <-> Scripts.extraer_emisor root = emisor_nulo)
  /\ (no_child (qname "cfdi" "Receptor") root
       /\ no_child (qname "cfdi33" "Receptor") root
       <-> Tool.extraer_receptor root = receptor_nulo)
  /\ (no_child (qname "cfdi" "Receptor") root
       /\ no_child (qname "cfdi33" "Receptor") root
       <-> Scripts.extraer_receptor root = ∅).
Proof.
  pose proof (Tool_extraer_emisor_lookup2 root) as Hte.
  pose proof (Scripts_extraer_emisor_lookup2 root) as Hse.
  pose proof (Tool_extraer_receptor_lookup2 root) as Htr.
  pose proof (Scripts_extraer_receptor_lookup2 root) as Hsr.
  repeat match goal with |- _ /\ _ => split end.
  - intros e H. rewrite (lookup2_current _ _ _ H) in Hte, Hse. auto.
  - intros e H. rewrite (lookup2_current _ _ _ H) in Htr, Hsr.
    split; [apply Htr | apply Hsr].
  - intros e Hno H. rewrite (lookup2_legacy _ _ _ Hno H) in Hte, Hse. auto.
  - intros e Hno H. rewrite (lookup2_legacy _ _ _ Hno H) in Htr, Hsr.
    split; [apply Htr | apply Hsr].
  - rewrite <- lookup2_none. destruct (lookup2 "Emisor" root) as [e|]; split.
    + discriminate.
    + intros H. exfalso. exact (emisor_from_not_nulo _ _ Hte H).
    + intros _. assumption.
    + reflexivity.
  - rewrite <- lookup2_none. destruct (lookup2 "Emisor" root) as [e|]; split.
    + discriminate.
    + intros H. exfalso. exact (emisor_from_not_nulo _ _ Hse H).
    + intros _. assumption.
    + reflexivity.
  - rewrite <- lookup2_none. destruct (lookup2 "Receptor" root) as [e|]; split.
    + discriminate.
    + intros H. exfalso. exact (receptor_from_not_nulo _ _ (proj1 Htr) H).
    + intros _. assumption.
    + reflexivity.
  - rewrite <- lookup2_none. destruct (lookup2 "Receptor" root) as [e|]; split.
    + discriminate.
    + intros H. exfalso. exact (receptor_from_not_empty _ _ (proj1 Hsr) H).
    + intros _. assumption.
    + reflexivity.
Qed.

Lemma C6_lookup_legacy_witness :
  (no_child (qname "cfdi" "Emisor") legacy_cfdi
   /\ first_child (qname "cfdi33" "Emisor") legacy_cfdi legacy_emisor
   /\ emisor_from legacy_emisor (Tool.extraer_emisor legacy_cfdi))
  /\ (no_child (qname "cfdi" "Receptor") legacy_cfdi
      /\ first_child (qname "cfdi33" "Receptor") legacy_cfdi legacy_receptor
      /\ receptor_from legacy_receptor (Scripts.extraer_receptor legacy_cfdi)).
Proof.
  assert (He0 : no_child (qname "cfdi" "Emisor") legacy_cfdi)
    by (repeat constructor; vm_compute; discriminate).
  assert (He1 : first_child (qname "cfdi33" "Emisor") legacy_cfdi legacy_emisor)
    by (exists [], [legacy_receptor]; repeat split; constructor).
  assert (Hr0 : no_child (qname "cfdi" "Receptor") legacy_cfdi)
    by (repeat constructor; vm_compute; discriminate).
  assert (Hr1 : first_child (qname "cfdi33" "Receptor") legacy_cfdi legacy_receptor).
  { exists [legacy_emisor], []. repeat split.
    repeat constructor. vm_compute. discriminate. }
  destruct (C6_lookup_current_then_legacy legacy_cfdi)
    as (_ & _ & Hem & Hre & _).
  split; (split; [assumption | split; [assumption |]]).
  - exact (proj1 (Hem legacy_emisor He0 He1)).
  - exact (proj2 (Hre legacy_receptor Hr0 Hr1)).
Defined.

(* ===================================================================== *)
(** ** The recipient's fiscal domicile *)
(* ===================================================================== *)

(** C10.  The recipient dictionary of [cfdi_tool] always has the keys
    [domicilio_fiscal] and [domicilio_fiscal_receptor], with the same value:
    the DomicilioFiscalReceptor attribute of the Receptor element found, and
    null when there is no Receptor element (or no such attribute). *)
Theorem C10_domicilio_fiscal_duplicated (root : Element) :
  let domicilio :=
    lookup2 "Receptor" root ≫= (fun e => get e "DomicilioFiscalReceptor") in
  Tool.extraer_receptor root !! "domicilio_fiscal" = Some domicilio
  /\ Tool.extraer_receptor root !! "domicilio_fiscal_receptor" = Some domicilio.
Proof.
  pose proof (Tool_extraer_receptor_lookup2 root) as H.
  destruct (lookup2 "Receptor" root) as [e|]; simpl.
  - destruct H as ((_ & _ & _ & _ & Hd) & Hdr & _).
    split; [exact Hd | exact Hdr].
  - rewrite H. split; reflexivity.
Qed.

(* ===================================================================== *)
(** ** Descendants *)
(* ===================================================================== *)

Lemma filter_flat_map {A B} (P : B -> Prop) `{!forall x, Decision (P x)}
  (f : A -> list B) (l : list A) :
  filter P (flat_map f l) = flat_map (fun x => filter P (f x)) l.
Proof.
  induction l as [|x l IH]; simpl; [reflexivity |].
  rewrite filter_app, IH. reflexivity.
Qed.

Lemma flat_map_Forall_ext {A B} (f g : A -> list B) (l : list A) :
  Forall (fun x => f x = g x) l -> flat_map f l = flat_map g l.
Proof.
  induction 1 as [|x l Hx _ IH]; simpl; [reflexivity |].
  rewrite Hx, IH. reflexivity.
Qed.

Lemma elem_of_flat_map {A B} (f : A -> list B) (l : list A) (y : B) :
  y ∈ flat_map f l <-> exists x, x ∈ l /\ y ∈ f x.
Proof.
  rewrite list_elem_of_In, in_flat_map. split.
  - intros (x & Hx & Hy). exists x. rewrite !list_elem_of_In. auto.
  - intros (x & Hx & Hy). exists x. rewrite <- !list_elem_of_In. auto.
Qed.

(** [iter] yields the elements with the tag among [e] and its descendants,
    in document order. *)
Lemma iter_nodes (t : string) (e : Element) :
  iter t e = filter (has_tag t) (nodes e).
Proof.
  induction e as [t0 a cs IH] using Element_ind'. cbn [iter nodes children].
  rewrite filter_cons, filter_flat_map.
  rewrite (flat_map_Forall_ext _ _ _ IH).
  destruct (decide (has_tag t (mkElement t0 a cs))); reflexivity.
Qed.

Lemma findall_descendants_filter (t : string) (e : Element) :
  findall_descendants t e = filter (has_tag t) (descendants e).
Proof.
  unfold findall_descendants, descendants. rewrite filter_flat_map.
  apply flat_map_Forall_ext, Forall_forall. intros c _. apply iter_nodes.
Qed.

Lemma subelement_nodes (path : list nat) (e x : Element) :
  subelement e path = Some x -> x ∈ nodes e.
Proof.
  revert e. induction path as [|i path IH]; intros e; simpl.
  - intros [= ->]. destruct x; left.
  - destruct (children e !! i) as [c|] eqn:Hc; [| discriminate].
    intros H. destruct e as [t a cs]. simpl in *. right.
    apply elem_of_flat_map. exists c. split; [| exact (IH _ H)].
    apply list_elem_of_lookup. exists i. exact Hc.
Qed.

Lemma nodes_subelement (e x : Element) :
  x ∈ nodes e -> exists path, subelement e path = Some x.
Proof.
  induction e as [t a cs IH] using Element_ind'. simpl.
  intros [-> | H]%elem_of_cons.
  - exists []. reflexivity.
  - apply elem_of_flat_map in H as (c & Hc & Hx).
    rewrite Forall_forall in IH. destruct (IH c Hc Hx) as (path & Hpath).
    apply list_elem_of_lookup in Hc as (i & Hi).
    exists (i :: path). simpl. rewrite Hi. exact Hpath.
Qed.

(** The descendants of [e] are the elements reached by a non-empty path:
    children, grandchildren and so on, at any depth. *)
Lemma elem_of_descendants (e x : Element) :
  x ∈ descendants e <->
  exists i path c, children e !! i = Some c /\ subelement c path = Some x.
Proof.
  unfold descendants. rewrite elem_of_flat_map. split.
  - intros (c & Hc & Hx). apply list_elem_of_lookup in Hc as (i & Hi).
    destruct (nodes_subelement _ _ Hx) as (path & Hpath).
    exists i, path, c. auto.
  - intros (i & path & c & Hi & Hpath). exists c. split.
    + apply list_elem_of_lookup. exists i. exact Hi.
    + exact (subelement_nodes _ _ _ Hpath).
Qed.

Lemma find_descendant_is_Some (t : string) (root : Element) :
  is_Some (find_descendant t root) <-> has_descendant t root.
Proof.
  unfold find_descendant, has_descendant. rewrite findall_descendants_filter.
  split.
  - intros [x Hx]. exists x. apply head_Some_elem_of, list_elem_of_filter in Hx.
    destruct Hx as [Ht Hx]. split; [exact Hx | exact Ht].
  - intros (x & Hx & Ht).
    destruct (filter (has_tag t) (descendants root)) as [|y l] eqn:Hf.
    + assert (Hin : x ∈ filter (has_tag t) (descendants root))
        by (apply list_elem_of_filter; split; assumption).
      rewrite Hf in Hin. inversion Hin.
    + eexists. reflexivity.
Qed.

Lemma find_descendant_None (t : string) (root : Element) :
  find_descendant t root = None <-> ~ has_descendant t root.
Proof.
  rewrite <- find_descendant_is_Some, <- eq_None_not_Some. reflexivity.
Qed.

(* ===================================================================== *)
(** ** The payments key of the complements *)
(* ===================================================================== *)

(** In the scripts file the key is there exactly when a payments container
    is, under either prefix. *)
Lemma Scripts_pagos_key_iff (root : Element) (m : gmap string (list Scripts.Pago)) :
  Scripts.extraer_complementos root = Ok m ->
  (is_Some (m !! "pagos") <->
   has_descendant (qname "pago20" "Pagos") root
   \/ has_descendant (qname "pago10" "Pagos") root).
Proof.
  unfold Scripts.extraer_complementos. rewrite <- !find_descendant_is_Some.
  destruct (find_descendant (qname "pago20" "Pagos") root) as [p|];
    [| destruct (find_descendant (qname "pago10" "Pagos") root) as [p|]].
  - intros H. ok_steps H. rewrite lookup_insert_eq. split; eauto.
  - intros H. ok_steps H. rewrite lookup_insert_eq. split; eauto.
  - intros [= <-]. rewrite lookup_empty. split.
    + intros []%is_Some_None.
    + intros [[]%is_Some_None | []%is_Some_None].
Qed.

(** A container without any payment element gives the key with an empty
    list, in the scripts file. *)
Lemma Scripts_pagos_key_empty (root pagos : Element) :
  find_descendant (qname "pago20" "Pagos") root = Some pagos ->
  Scripts.findall_pago "Pago" pagos = [] ->
  Scripts.extraer_complementos root = Ok {[ "pagos" := [] ]}.
Proof.
  intros Hp He. unfold Scripts.extraer_complementos, Scripts.extraer_complemento_pagos.
  rewrite Hp, He. reflexivity.
Qed.

(** In [cfdi_tool] the 2.0 container counts only when it has children. *)
Lemma Tool_pagos_key_iff (root : Element) (m : gmap string (list Tool.Pago)) :
  Tool.extraer_complementos root = Ok m ->
  (is_Some (m !! "pagos") <->
   (exists p, find_descendant (qname "pago20" "Pagos") root = Some p
              /\ children p <> [])
   \/ has_descendant (qname "pago10" "Pagos") root).
Proof.
  unfold Tool.extraer_complementos. rewrite <- !find_descendant_is_Some.
  destruct (find_descendant (qname "pago20" "Pagos") root) as [p|]; simpl.
  - destruct (bool_decide (children p = [])) eqn:Hc; simpl.
    + apply bool_decide_eq_true in Hc.
      destruct (find_descendant (qname "pago10" "Pagos") root) as [q|].
      * intros H. ok_steps H. rewrite lookup_insert_eq. split; eauto.
      * intros [= <-]. rewrite lookup_empty. split.
        -- intros []%is_Some_None.
        -- intros [(p' & [= <-] & Hne) | []%is_Some_None]. contradiction.
    + apply bool_decide_eq_false in Hc.
      intros H. ok_steps H. rewrite lookup_insert_eq. split; eauto.
  - destruct (find_descendant (qname "pago10" "Pagos") root) as [q|].
    + intros H. ok_steps H. rewrite lookup_insert_eq. split; eauto.
    + intros [= <-]. rewrite lookup_empty. split.
      * intros []%is_Some_None.
      * intros [(p' & Hp & _) | []%is_Some_None]. discriminate.
Qed.

(** C2.  On the document [pagos_sin_hijos] the payments container is
    present and holds zero payment elements.  The scripts file answers with
    the key and an empty list; [cfdi_tool] tests [if not pagos:] on the
    element found, takes the childless container for a missing one, and
    returns a mapping without the key. *)
Theorem C2_tool_omits_key_for_childless_container :
  find_descendant (qname "pago20" "Pagos") pagos_sin_hijos
    = Some (elem (qname "pago20" "Pagos") [ ("Version", "2.0") ] [])
  /\ Tool.extraer_complementos pagos_sin_hijos = Ok ∅
  /\ Scripts.extraer_complementos pagos_sin_hijos = Ok {[ "pagos" := [] ]}.
Proof. repeat split. Qed.

(* ===================================================================== *)
(** ** A missing issuer or recipient *)
(* ===================================================================== *)

(** In [cfdi_tool] the field set of the issuer and of the recipient is the
    same for every tree, and every field is null when the element is
    missing. *)
Lemma Tool_emisor_absent (root : Element) :
  lookup2 "Emisor" root = None ->
  Tool.extraer_emisor root = emisor_nulo
  /\ forall k v, emisor_nulo !! k = Some v -> v = None.
Proof.
  intros H. pose proof (Tool_extraer_emisor_lookup2 root) as Hl.
  rewrite H in Hl. split; [exact Hl |].
  intros k v. unfold emisor_nulo. simpl.
  rewrite !lookup_insert, lookup_empty.
  repeat case_decide; congruence.
Qed.

Lemma Tool_emisor_fields (root : Element) :
  dom (Tool.extraer_emisor root) = {[ "rfc"; "nombre"; "regimen_fiscal" ]}.
Proof.
  pose proof (Tool_extraer_emisor_lookup2 root) as Hl.
  destruct (lookup2 "Emisor" root).
  - apply Hl.
  - rewrite Hl. reflexivity.
Qed.

Lemma Tool_receptor_absent (root : Element) :
  lookup2 "Receptor" root = None ->
  Tool.extraer_receptor root = receptor_nulo
  /\ forall k v, receptor_nulo !! k = Some v -> v = None.
Proof.
  intros H. pose proof (Tool_extraer_receptor_lookup2 root) as Hl.
  rewrite H in Hl. split; [exact Hl |].
  intros k v. unfold receptor_nulo. simpl.
  rewrite !lookup_insert, lookup_empty.
  repeat case_decide; congruence.
Qed.

Lemma Tool_receptor_fields (root : Element) :
  dom (Tool.extraer_receptor root) = dom receptor_nulo.
Proof.
  pose proof (Tool_extraer_receptor_lookup2 root) as Hl.
  destruct (lookup2 "Receptor" root).
  - apply Hl.
  - rewrite Hl. reflexivity.
Qed.

Lemma Scripts_emisor_fields (root : Element) :
  dom (Scripts.extraer_emisor root) = {[ "rfc"; "nombre"; "regimen_fiscal" ]}.
Proof.
  pose proof (Scripts_extraer_emisor_lookup2 root) as Hl.
  destruct (lookup2 "Emisor" root).
  - apply Hl.
  - rewrite Hl. reflexivity.
Qed.

(** C3.  On [sin_receptor], a document with no Receptor element, the
    recipient extractor of the scripts file returns the empty dictionary,
    while on a document with a Receptor it returns five fields;
    [cfdi_tool] returns the all-null dictionary on the same input. *)
Theorem C3_scripts_receptor_absent_is_empty :
  lookup2 "Receptor" sin_receptor = None
  /\ Scripts.extraer_receptor sin_receptor = ∅
  /\ dom (Scripts.extraer_receptor minimal_cfdi)
     = {[ "rfc"; "nombre"; "uso_cfdi"; "regimen_fiscal"; "domicilio_fiscal" ]}
  /\ Tool.extraer_receptor sin_receptor = receptor_nulo.
Proof. repeat split. Qed.

(* ===================================================================== *)
(** ** The general data of the two files *)
(* ===================================================================== *)

(** C8, as stated, fails: besides [metodo_pago] the two files also disagree
    on the default of [lugar_expedicion].  On a root that lacks
    LugarExpedicion, [cfdi_tool] answers the text SIN_LUGAR and the scripts
    file answers null. *)
Lemma C8_lugar_expedicion_default_differs :
  attrib comprobante_vacio !! "LugarExpedicion" = None
  /\ exists d1 d2,
       Tool.extraer_datos_generales comprobante_vacio = Ok d1
       /\ Scripts.extraer_datos_generales comprobante_vacio = Ok d2
       /\ dg_lugar_expedicion d1 = Some "SIN_LUGAR"
       /\ dg_lugar_expedicion d2 = None
       /\ dg_lugar_expedicion d1 <> dg_lugar_expedicion d2.
Proof.
  split; [reflexivity |]. do 2 eexists.
  split; [vm_compute; reflexivity |]. split; [vm_compute; reflexivity |].
  repeat split. discriminate.
Qed.

(** C8, amended.  For a root without MetodoPago the two files fail on the
    same roots with the same exception, and when they return, [metodo_pago]
    is "Pago parcial" in [cfdi_tool] and "No especificado" in the scripts
    file; [lugar_expedicion] is the attribute in both when it is present and
    otherwise SIN_LUGAR in [cfdi_tool] and null in the scripts file; the
    eight other fields are equal. *)
Theorem C8_general_data_of_both_files (root : Element) :
  attrib root !! "MetodoPago" = None ->
  (forall e, Tool.extraer_datos_generales root = Raise e
             <-> Scripts.extraer_datos_generales root = Raise e)
  /\ ((exists d1, Tool.extraer_datos_generales root = Ok d1)
      <-> (exists d2, Scripts.extraer_datos_generales root = Ok d2))
  /\ (forall d1 d2,
        Tool.extraer_datos_generales root = Ok d1 ->
        Scripts.extraer_datos_generales root = Ok d2 ->
        dg_metodo_pago d1 = "Pago parcial"
        /\ dg_metodo_pago d2 = "No especificado"
        /\ dg_lugar_expedicion d2 = get root "LugarExpedicion"
        /\ dg_lugar_expedicion d1
           = Some (default "SIN_LUGAR" (get root "LugarExpedicion"))
        /\ dg_version d1 = dg_version d2
        /\ dg_serie d1 = dg_serie d2
        /\ dg_folio d1 = dg_folio d2
        /\ dg_fecha d1 = dg_fecha d2
        /\ dg_subtotal d1 = dg_subtotal d2
        /\ dg_total d1 = dg_total d2
        /\ dg_moneda d1 = dg_moneda d2
        /\ dg_tipo_comprobante d1 = dg_tipo_comprobante d2).
Proof.
  intros Hmp.
  unfold Tool.extraer_datos_generales, Scripts.extraer_datos_generales.
  destruct (float_attr root "SubTotal") as [st|e1]; simpl;
    [destruct (float_attr root "Total") as [to|e2]; simpl |].
  - split; [| split].
    + intros e. split; discriminate.
    + split; eauto.
    + intros d1 d2 [= <-] [= <-]. simpl. unfold get_or, get. rewrite Hmp.
      destruct (attrib root !! "LugarExpedicion"); repeat split.
  - split; [| split].
    + intros e. split; intros [= <-]; reflexivity.
    + split; intros [d Hd]; discriminate.
    + intros d1 d2 Hd. discriminate.
  - split; [| split].
    + intros e. split; intros [= <-]; reflexivity.
    + split; intros [d Hd]; discriminate.
    + intros d1 d2 Hd. discriminate.
Qed.

Lemma C8_general_data_witness :
  attrib minimal_cfdi !! "MetodoPago" = None
  /\ exists d1 d2,
       Tool.extraer_datos_generales minimal_cfdi = Ok d1
       /\ Scripts.extraer_datos_generales minimal_cfdi = Ok d2
       /\ dg_metodo_pago d1 = "Pago parcial"
       /\ dg_metodo_pago d2 = "No especificado"
       /\ dg_total d1 = dg_total d2.
Proof.
  split; [reflexivity |].
  destruct (C8_general_data_of_both_files minimal_cfdi eq_refl) as (_ & _ & H).
  do 2 eexists.
  split; [vm_compute; reflexivity |]. split; [vm_compute; reflexivity |].
  edestruct H as (H1 & H2 & _ & _ & _ & _ & _ & _ & _ & H3 & _);
    [vm_compute; reflexivity | vm_compute; reflexivity |].
  auto.
Defined.

(* ===================================================================== *)
(** ** Totality of the stages after loading *)
(* ===================================================================== *)

Lemma float_attr_total (e : Element) (key : string) :
  numeric_ok_at e = true -> In key numeric_keys ->
  exists f, float_attr e key = Ok f.
Proof.
  intros Hat Hin. unfold numeric_ok_at in Hat.
  rewrite forallb_forall in Hat. specialize (Hat key Hin).
  unfold numeric_text_ok in Hat. unfold float_attr, get_or_0.
  destruct (attrib e !! key) as [s|]; simpl.
  - apply bool_decide_eq_true in Hat as [f Hf]. rewrite Hf. eauto.
  - eexists. reflexivity.
Qed.

Lemma subelement_app (e : Element) (p q : list nat) :
  subelement e (p ++ q) = subelement e p ≫= (fun x => subelement x q).
Proof.
  revert e. induction p as [|i p IH]; intros e; simpl; [reflexivity |].
  destruct (children e !! i); simpl; [apply IH | reflexivity].
Qed.

Lemma nodes_trans (e x y : Element) :
  x ∈ nodes e -> y ∈ nodes x -> y ∈ nodes e.
Proof.
  intros (p & Hp)%nodes_subelement (q & Hq)%nodes_subelement.
  apply (subelement_nodes (p ++ q)). rewrite subelement_app, Hp. exact Hq.
Qed.

Lemma nodes_self (e : Element) : e ∈ nodes e.
Proof. destruct e. left. Qed.

Lemma descendants_nodes (e x : Element) : x ∈ descendants e -> x ∈ nodes e.
Proof. destruct e. intros H. right. exact H. Qed.

Lemma children_nodes (e c : Element) : c ∈ children e -> c ∈ nodes e.
Proof.
  intros H. apply descendants_nodes. unfold descendants.
  apply elem_of_flat_map. exists c. split; [exact H | apply nodes_self].
Qed.



Lemma findall_path2_nodes (ta tb : string) (e x : Element) :
  x ∈ findall_path2 ta tb e -> x ∈ nodes e.
Proof.
  unfold findall_path2, findall_children.
  intros (c & [_ Hc]%list_elem_of_filter & [_ Hx]%list_elem_of_filter)%elem_of_flat_map.
  exact (nodes_trans _ _ _ (children_nodes _ _ Hc) (children_nodes _ _ Hx)).
Qed.


Lemma numeric_ok_node (root x : Element) :
  numeric_ok root = true -> x ∈ nodes root -> numeric_ok x = true.
Proof.
  unfold numeric_ok. rewrite !forallb_forall. intros Hroot Hx y Hy.
  apply Hroot, list_elem_of_In. apply list_elem_of_In in Hy.
  exact (nodes_trans _ _ _ Hx Hy).
Qed.

Lemma numeric_ok_self (e : Element) :
  numeric_ok e = true -> numeric_ok_at e = true.
Proof.
  unfold numeric_ok. rewrite forallb_forall. intros H.
  apply H, list_elem_of_In, nodes_self.
Qed.
















(** *** What a stage can raise *)
















(** A tree that passes [numeric_ok] has no refused numeric attribute. *)
Lemma numeric_ok_not_refused (root : Element) (e : exn) :
  numeric_ok root = true -> ~ refused_numeric root e.
Proof.
  intros Hok (x & key & s & Hx & Hkey & Hs & Hf & _).
  pose proof (numeric_ok_self _ (numeric_ok_node _ _ Hok Hx)) as Hat.
  destruct (float_attr_total x key Hat Hkey) as [f Hfa].
  rewrite (float_attr_present _ _ _ Hs), Hf in Hfa. discriminate.
Qed.

(** A present text that is not a float literal makes the read raise. *)
Lemma Tool_extraer_datos_generales_raises (root : Element) (s : string) :
  attrib root !! "SubTotal" = Some s ->
  float_of_string s = None ->
  Tool.extraer_datos_generales root = Raise (ValueError s).
Proof.
  intros Hs Hf. unfold Tool.extraer_datos_generales.
  rewrite (float_attr_present _ _ _ Hs), Hf. reflexivity.
Qed.





(* ===================================================================== *)
(** ** Loading *)
(* ===================================================================== *)

(** C4, as stated, fails: [cargar_cfdi] returns the one value [None] for a
    missing file, for malformed XML and for an unreadable file, so no
    reading of its result can tell the three failure kinds apart. *)
Lemma C4_loader_failures_are_one_value :
  (Tool.cargar_cfdi mundo_sin_archivo "factura.xml").2 = None
  /\ (Tool.cargar_cfdi mundo_xml_truncado "factura.xml").2 = None
  /\ (Tool.cargar_cfdi mundo_sin_permiso "factura.xml").2 = None
  /\ ~ exists kind : option Element -> LoadFailure,
         kind (Tool.cargar_cfdi mundo_sin_archivo "factura.xml").2 = NotFound
         /\ (exists msg,
               kind (Tool.cargar_cfdi mundo_xml_truncado "factura.xml").2
               = MalformedXML msg)
         /\ kind (Tool.cargar_cfdi mundo_sin_permiso "factura.xml").2
            = UnknownReadError.
Proof.
  repeat split. intros (kind & H1 & (msg & H2) & _).
  cbn in H1, H2. congruence.
Qed.

(** C4, amended.  Every failure of the loader is the return value [None]
    and one printed line: for a path that does not exist and for any other
    error the line starts with "Error inesperado" and carries the message,
    for malformed XML it starts with "Error al parsear XML" and carries the
    parser's message.  The root is returned exactly when the file exists
    and parses.  After a failed load [procesar_cfdi_completo] returns
    [None]: no exception, no partial record. *)
Theorem C4_loader_failures (w : World) (archivo_path : string) :
  (path_exists w archivo_path = false ->
     Tool.cargar_cfdi w archivo_path
     = (["❌ Error inesperado: No se encontró el archivo: " +:+ archivo_path],
        None))
  /\ (forall msg,
        path_exists w archivo_path = true ->
        et_parse w archivo_path = ParseError msg ->
        Tool.cargar_cfdi w archivo_path
        = (["❌ Error al parsear XML: " +:+ msg], None))
  /\ (forall msg,
        path_exists w archivo_path = true ->
        et_parse w archivo_path = OtherError msg ->
        Tool.cargar_cfdi w archivo_path
        = (["❌ Error inesperado: " +:+ msg], None))
  /\ (forall root,
        (Tool.cargar_cfdi w archivo_path).2 = Some root
        <-> path_exists w archivo_path = true
            /\ et_parse w archivo_path = Parsed root)
  /\ ((Tool.cargar_cfdi w archivo_path).2 = None ->
      returned (Tool.procesar_cfdi_completo w archivo_path) = Ok None).
Proof.
  unfold Tool.procesar_cfdi_completo, Tool.cargar_cfdi.
  destruct (path_exists w archivo_path); simpl;
    [destruct (et_parse w archivo_path) as [root|msg|msg]; simpl |].
  all: repeat match goal with |- _ /\ _ => split end.
  all: try discriminate.
  all: try (intros msg' _ [= <-]; reflexivity).
  all: try (intros _; reflexivity).
  all: try (intros root'; split; [intros [= <-]; auto | intros [_ [= <-]]; reflexivity]).
  all: try (intros root'; split; [discriminate | intros [_ H]; discriminate]).
  all: try (intros root'; split; [discriminate | intros [H _]; discriminate]).
Qed.

Lemma C4_loader_failures_witness :
  path_exists mundo_xml_truncado "factura.xml" = true
  /\ et_parse mundo_xml_truncado "factura.xml"
     = ParseError "no element found: line 1, column 0"
  /\ Tool.cargar_cfdi mundo_xml_truncado "factura.xml"
     = (["❌ Error al parsear XML: no element found: line 1, column 0"], None)
  /\ returned (Tool.procesar_cfdi_completo mundo_xml_truncado "factura.xml")
     = Ok None.
Proof.
  destruct (C4_loader_failures mundo_xml_truncado "factura.xml")
    as (_ & Hparse & _ & _ & Hnone).
  split; [reflexivity |]. split; [reflexivity |]. split.
  - exact (Hparse _ eq_refl eq_refl).
  - apply Hnone. reflexivity.
Defined.

(* ===================================================================== *)
(** ** Two invocations on the same document *)
(* ===================================================================== *)









(* ===================================================================== *)
(** ** Document order *)
(* ===================================================================== *)

Section FlatMapIndexedFacts.
Context {A B : Type} (f : nat -> A -> list B).

Lemma elem_of_flat_mapi (i : nat) (l : list A) (y : B) :
  y ∈ flat_mapi f i l <-> exists j x, l !! j = Some x /\ y ∈ f (i + j) x.
Proof.
  revert i. induction l as [|x l IH]; intros i; simpl.
  - split; [intros H; inversion H | intros (j & x & H & _); discriminate].
  - rewrite elem_of_app, IH. split.
    + intros [H | (j & x' & Hj & H)].
      * exists 0, x. rewrite Nat.add_0_r. auto.
      * exists (S j), x'. rewrite Nat.add_succ_r. auto.
    + intros ([|j] & x' & Hj & H); simpl in Hj.
      * injection Hj as <-. rewrite Nat.add_0_r in H. auto.
      * right. exists j, x'. rewrite Nat.add_succ_r in H. auto.
Qed.

Lemma flat_mapi_sorted (R : relation B) (i : nat) (l : list A) :
  (forall j x, l !! j = Some x -> StronglySorted R (f (i + j) x)) ->
  (forall j k x y a b, j < k -> l !! j = Some x -> l !! k = Some y ->
     a ∈ f (i + j) x -> b ∈ f (i + k) y -> R a b) ->
  StronglySorted R (flat_mapi f i l).
Proof.
  revert i. induction l as [|x l IH]; intros i Hin Hcross; simpl.
  - constructor.
  - apply StronglySorted_app_2.
    + intros a b Ha (k & y & Hk & Hb)%elem_of_flat_mapi.
      apply (Hcross 0 (S k) x y); simpl; auto; try lia.
      * rewrite Nat.add_0_r. exact Ha.
      * rewrite Nat.add_succ_r. exact Hb.
    + specialize (Hin 0 x eq_refl). rewrite Nat.add_0_r in Hin. exact Hin.
    + apply IH.
      * intros j y Hj. specialize (Hin (S j) y Hj).
        rewrite Nat.add_succ_r in Hin. exact Hin.
      * intros j k y z a b Hjk Hj Hk Ha Hb.
        apply (Hcross (S j) (S k) y z); simpl; auto; try lia.
        -- rewrite Nat.add_succ_r. exact Ha.
        -- rewrite Nat.add_succ_r. exact Hb.
Qed.
End FlatMapIndexedFacts.

Lemma map_flat_mapi {A B C} (g : B -> C) (f : nat -> A -> list B)
  (h : A -> list C) (i : nat) (l : list A) :
  Forall (fun x => forall j, map g (f j x) = h x) l ->
  map g (flat_mapi f i l) = flat_map h l.
Proof.
  intros H. revert i. induction H as [|x l Hx _ IH]; intros i; simpl.
  - reflexivity.
  - rewrite map_app, Hx, IH. reflexivity.
Qed.

Lemma located_nodes (e : Element) : map snd (located e) = nodes e.
Proof.
  induction e as [t a cs IH] using Element_ind'. cbn [located nodes children map].
  f_equal. apply map_flat_mapi.
  eapply Forall_impl; [exact IH |]. intros c Hc j. cbn beta.
  rewrite map_map. exact Hc.
Qed.

Lemma elem_of_located (e : Element) (p : list nat) (x : Element) :
  (p, x) ∈ located e <-> subelement e p = Some x.
Proof.
  revert p. induction e as [t a cs IH] using Element_ind'. intros p.
  cbn [located children]. rewrite elem_of_cons, elem_of_flat_mapi.
  rewrite Forall_forall in IH. split.
  - intros [[= -> ->] | (j & c & Hj & H)]; [reflexivity |].
    apply list_elem_of_fmap in H as ([q y] & [= -> ->] & Hq).
    simpl. rewrite Hj. apply IH; [| exact Hq].
    apply list_elem_of_lookup. eauto.
  - destruct p as [|j q]; simpl.
    + intros [= <-]. left. reflexivity.
    + destruct (cs !! j) as [c|] eqn:Hj; [| discriminate].
      intros H. right. exists j, c. split; [exact Hj |].
      apply list_elem_of_fmap. exists (q, x). split; [reflexivity |].
      apply IH; [| exact H]. apply list_elem_of_lookup. eauto.
Qed.

Lemma located_sorted (e : Element) : StronglySorted located_lt (located e).
Proof.
  induction e as [t a cs IH] using Element_ind'. cbn [located children].
  rewrite Forall_forall in IH. constructor.
  - apply flat_mapi_sorted.
    + intros j c Hj. apply StronglySorted_fmap with (R1 := located_lt).
      * intros [p x] [q y] H. right. split; [reflexivity | exact H].
      * apply IH, list_elem_of_lookup. eauto.
    + intros j k c d pa pb Hjk _ _ Ha Hb.
      apply list_elem_of_fmap in Ha as ([p x] & -> & _).
      apply list_elem_of_fmap in Hb as ([q y] & -> & _).
      left. simpl. lia.
  - apply Forall_forall. intros [p x] H.
    apply elem_of_flat_mapi in H as (j & c & _ & H).
    apply list_elem_of_fmap in H as ([q y] & [= -> ->] & _).
    exact I.
Qed.

Lemma located_unfold (c : Element) :
  located c = ([], c) :: located_descendants c.
Proof. destruct c. reflexivity. Qed.

Lemma located_descendants_snd (c : Element) :
  map snd (located_descendants c) = descendants c.
Proof.
  pose proof (located_nodes c) as H. rewrite located_unfold in H.
  destruct c as [t a cs]. simpl in H. injection H as H. exact H.
Qed.

Lemma elem_of_located_descendants (c : Element) (p : list nat) (x : Element) :
  (p, x) ∈ located_descendants c <-> p <> [] /\ subelement c p = Some x.
Proof.
  rewrite <- elem_of_located, located_unfold, elem_of_cons. split.
  - intros H. split; [| right; exact H].
    apply elem_of_flat_mapi in H as (j & ch & _ & H).
    apply list_elem_of_fmap in H as ([q y] & [= -> ->] & _). discriminate.
  - intros [Hp [[= -> ->] | H]]; [contradiction | exact H].
Qed.

Lemma located_descendants_sorted (c : Element) :
  StronglySorted located_lt (located_descendants c).
Proof.
  pose proof (located_sorted c) as H. rewrite located_unfold in H.
  apply StronglySorted_cons in H. apply H.
Qed.

Lemma StronglySorted_filter {A} (R : relation A) (P : A -> Prop)
  `{!forall x, Decision (P x)} (l : list A) :
  StronglySorted R l -> StronglySorted R (filter P l).
Proof.
  induction 1 as [|x l Hl IH Hx]; [constructor |].
  rewrite filter_cons. destruct (decide (P x)); [| exact IH].
  constructor; [exact IH |].
  apply Forall_forall. intros y [_ Hy]%list_elem_of_filter.
  rewrite Forall_forall in Hx. exact (Hx y Hy).
Qed.

Lemma filter_map_snd {A B} (P : B -> Prop) `{!forall x, Decision (P x)}
  (l : list (A * B)) :
  filter P (map snd l) = map snd (filter (fun ab => P ab.2) l).
Proof.
  induction l as [|[a b] l IH]; [reflexivity |].
  cbn [map]. rewrite !filter_cons. cbn [snd].
  destruct (decide (P b)); cbn [map]; rewrite IH; reflexivity.
Qed.

Lemma elements_at_located (c : Element) (l : list (list nat * Element)) :
  Forall (fun px => subelement c px.1 = Some px.2) l ->
  elements_at c (map fst l) = map snd l.
Proof.
  unfold elements_at. induction 1 as [|[p x] l Hpx _ IH]; [reflexivity |].
  simpl in *. rewrite Hpx. simpl. f_equal. exact IH.
Qed.

Lemma elements_at_length_le (c : Element) (paths : list (list nat)) :
  length (elements_at c paths) <= length paths.
Proof.
  unfold elements_at. induction paths as [|p paths IH]; csimpl; [lia |].
  destruct (subelement c p); csimpl; lia.
Qed.

Lemma elements_at_Forall2 (c : Element) (paths : list (list nat)) :
  length (elements_at c paths) = length paths ->
  Forall2 (fun p x => subelement c p = Some x) paths (elements_at c paths).
Proof.
  induction paths as [|p paths IH]; [constructor |].
  pose proof (elements_at_length_le c paths) as Hle.
  unfold elements_at in *. csimpl.
  destruct (subelement c p) as [x|] eqn:Hp; csimpl; intros Hlen.
  - constructor; [exact Hp | apply IH; lia].
  - lia.
Qed.

Lemma Forall2_chain {A B C} (R1 : A -> B -> Prop) (R2 : B -> C -> Prop)
  (la : list A) (lb : list B) (lc : list C) :
  Forall2 R1 la lb -> Forall2 R2 lb lc ->
  Forall2 (fun a c => exists b, R1 a b /\ R2 b c) la lc.
Proof.
  intros H. revert lc. induction H as [|a b la lb Hab _ IH]; intros lc Hbc.
  - inversion Hbc. constructor.
  - inversion Hbc as [|? c ? lc' Hc Hrest]; subst.
    constructor; [eauto | apply IH; exact Hrest].
Qed.

(** What [findall('.//p:Name')] returns: the elements under the tagged
    paths. *)
Lemma findall_descendants_paths (t : string) (c : Element) :
  exists paths,
    tagged_paths t c paths
    /\ findall_descendants t c = elements_at c paths
    /\ length (findall_descendants t c) = length paths.
Proof.
  set (found := filter (fun px : list nat * Element => has_tag t px.2)
                  (located_descendants c)).
  assert (Hfound : forall p x, (p, x) ∈ found <->
            (p <> [] /\ subelement c p = Some x) /\ tag x = t).
  { intros p x. unfold found. rewrite list_elem_of_filter.
    rewrite elem_of_located_descendants. unfold has_tag. simpl. tauto. }
  assert (Hsnd : findall_descendants t c = map snd found).
  { rewrite findall_descendants_filter, <- located_descendants_snd.
    apply filter_map_snd. }
  exists (map fst found). split; [split |].
  - apply StronglySorted_fmap with (R1 := located_lt).
    + intros a b H. exact H.
    + apply StronglySorted_filter, located_descendants_sorted.
  - intros p. rewrite list_elem_of_fmap. split.
    + intros ([q x] & -> & H). apply Hfound in H as [[Hq Hx] Ht].
      split; [exact Hq |]. eauto.
    + intros (Hp & x & Hx & Ht). exists (p, x). split; [reflexivity |].
      apply Hfound. auto.
  - rewrite Hsnd. split.
    + symmetry. apply elements_at_located, Forall_forall.
      intros [p x] H. apply Hfound in H. apply H.
    + rewrite !length_map. reflexivity.
Qed.

(** C7.  The taxes of an item come from all its descendants, at any depth:
    the Traslado entries are read, in document order and one per element,
    from the descendants whose tag is Traslado in the CFDI 4.0 namespace,
    the Retencion entries likewise; no other namespace is consulted.  The
    elements are named by their paths below the item, so that the depth and
    the order are explicit. *)
Theorem C7_item_taxes_from_all_descendants (concepto : Element) :
  exists tpaths rpaths,
    tagged_paths "{http://www.sat.gob.mx/cfd/4}Traslado" concepto tpaths
    /\ tagged_paths "{http://www.sat.gob.mx/cfd/4}Retencion" concepto rpaths
    /\ length (elements_at concepto tpaths) = length tpaths
    /\ length (elements_at concepto rpaths) = length rpaths
    /\ extraer_impuestos_concepto concepto
       = (let* ts := for_each tax_entry (elements_at concepto tpaths) in
          let* rs := for_each tax_entry (elements_at concepto rpaths) in
          Ok (mkImpuestos ts rs))
    /\ forall r, extraer_impuestos_concepto concepto = Ok r ->
         Forall2 (fun p entry => exists x, subelement concepto p = Some x
                                           /\ tax_entry x = Ok entry)
                 tpaths (traslados r)
         /\ Forall2 (fun p entry => exists x, subelement concepto p = Some x
                                              /\ tax_entry x = Ok entry)
                    rpaths (retenciones r).
Proof.
  destruct (findall_descendants_paths (qname "cfdi" "Traslado") concepto)
    as (tpaths & Ht & Hte & Htl).
  destruct (findall_descendants_paths (qname "cfdi" "Retencion") concepto)
    as (rpaths & Hr & Hre & Hrl).
  exists tpaths, rpaths.
  split; [exact Ht |]. split; [exact Hr |].
  split; [rewrite <- Hte; exact Htl |]. split; [rewrite <- Hre; exact Hrl |].
  split.
  - unfold extraer_impuestos_concepto. rewrite Hte, Hre. reflexivity.
  - intros r H. unfold extraer_impuestos_concepto in H.
    rewrite Hte, Hre in H. rewrite Hte in Htl. rewrite Hre in Hrl.
    apply bind_ok in H as (ts & Hts & H). apply bind_ok in H as (rs & Hrs & H).
    injection H as <-. simpl. apply for_each_ok in Hts, Hrs. split.
    + exact (Forall2_chain _ _ _ _ _ (elements_at_Forall2 _ _ Htl) Hts).
    + exact (Forall2_chain _ _ _ _ _ (elements_at_Forall2 _ _ Hrl) Hrs).
Qed.

Lemma C7_item_taxes_witness :
  exists r,
    extraer_impuestos_concepto concepto_con_impuestos = Ok r
    /\ exists tpaths,
         tagged_paths "{http://www.sat.gob.mx/cfd/4}Traslado"
           concepto_con_impuestos tpaths
         /\ Forall2 (fun p entry =>
                       exists x, subelement concepto_con_impuestos p = Some x
                                 /\ tax_entry x = Ok entry)
                    tpaths (traslados r).
Proof.
  destruct (C7_item_taxes_from_all_descendants concepto_con_impuestos)
    as (tpaths & rpaths & Ht & _ & _ & _ & _ & H).
  eexists. split; [vm_compute; reflexivity |].
  exists tpaths. split; [exact Ht |].
  refine (proj1 (H _ _)). vm_compute. reflexivity.
Defined.

(** On that item: the two equal Traslado entries are both kept, in order;
    the legacy Traslado is not read; the Retencion is found at depth
    three. *)
Example impuestos_de_concepto_con_impuestos :
  result_map (fun r => map tx_impuesto (traslados r))
    (extraer_impuestos_concepto concepto_con_impuestos)
  = Ok [Some "002"; Some "002"]
  /\ result_map (fun r => map tx_impuesto (retenciones r))
       (extraer_impuestos_concepto concepto_con_impuestos)
     = Ok [Some "001"]
  /\ tag <$> subelement concepto_con_impuestos [0; 0; 2]
     = Some "{http://www.sat.gob.mx/cfd/4}Traslado".
Proof. repeat split. Qed.

(* ===================================================================== *)
(** ** The label of the comprobante type *)
(* ===================================================================== *)

Lemma list_ascii_of_string_app (a b : string) :
  list_ascii_of_string (a +:+ b)
  = list_ascii_of_string a ++ list_ascii_of_string b.
Proof. induction a as [|c a IH]; simpl; [reflexivity |]. rewrite IH. reflexivity. Qed.

Lemma append_inj_l (a b c : string) : a +:+ c = b +:+ c -> a = b.
Proof.
  intros H. apply (f_equal list_ascii_of_string) in H.
  rewrite !list_ascii_of_string_app in H. apply app_inv_tail in H.
  apply (f_equal string_of_list_ascii) in H.
  rewrite !string_of_list_ascii_of_string in H. exact H.
Qed.

Lemma tipos_lookup_Some (a l : string) :
  tipos !! a = Some l <->
  (a = "I" /\ l = "Ingreso (Factura)")
  \/ (a = "E" /\ l = "Egreso (Nota de Crédito)")
  \/ (a = "P" /\ l = "Pago")
  \/ (a = "N" /\ l = "Nómina")
  \/ (a = "T" /\ l = "Traslado").
Proof.
  unfold tipos. cbn [list_to_map foldr fst snd].
  rewrite !lookup_insert_Some, lookup_empty. intuition (subst; auto; congruence).
Qed.

(** X1.  The label tells the code: two attribute texts with the same label are
    the same text.  The five labels of the table are never taken by the
    fallback Desconocido (...), and the fallback keeps the text. *)
Theorem traducir_tipo_comprobante_tells_code (a b : string) :
  traducir_tipo_comprobante (Some a) = traducir_tipo_comprobante (Some b) ->
  a = b.
Proof.
  unfold traducir_tipo_comprobante. simpl.
  destruct (tipos !! a) as [la|] eqn:Ha; destruct (tipos !! b) as [lb|] eqn:Hb.
  - apply tipos_lookup_Some in Ha, Hb. intros ->.
    destruct Ha as [[-> Ha] | [[-> Ha] | [[-> Ha] | [[-> Ha] | [-> Ha]]]]];
    destruct Hb as [[-> Hb] | [[-> Hb] | [[-> Hb] | [[-> Hb] | [-> Hb]]]]];
    try reflexivity; rewrite Ha in Hb; discriminate.
  - apply tipos_lookup_Some in Ha. intros ->.
    destruct Ha as [[_ Ha] | [[_ Ha] | [[_ Ha] | [[_ Ha] | [_ Ha]]]]];
      discriminate.
  - apply tipos_lookup_Some in Hb. intros <-.
    destruct Hb as [[_ Hb] | [[_ Hb] | [[_ Hb] | [[_ Hb] | [_ Hb]]]]];
      discriminate.
  - intros H. injection H as H. apply (inj (String.append "")) in H.
    exact (append_inj_l _ _ _ H).
Qed.

Lemma traducir_tipo_comprobante_tells_code_witness :
  traducir_tipo_comprobante (Some "P") = traducir_tipo_comprobante (Some "P")
  /\ "P" = "P".
Proof.
  split; [reflexivity |].
  apply (traducir_tipo_comprobante_tells_code "P" "P"). reflexivity.
Defined.

(** A root without TipoDeComprobante and a root whose TipoDeComprobante is
    the text None get the same label. *)
Example traducir_tipo_comprobante_None :
  traducir_tipo_comprobante None = "Desconocido (None)"
  /\ traducir_tipo_comprobante (Some "None") = "Desconocido (None)"
  /\ traducir_tipo_comprobante (Some "I") = "Ingreso (Factura)"
  /\ traducir_tipo_comprobante (Some "i") = "Desconocido (i)".
Proof. repeat split. Qed.

(* ===================================================================== *)
(** ** The fiscal stamp *)
(* ===================================================================== *)

(** X2.  The stamp dictionary is empty exactly when no descendant of the root is
    a TimbreFiscalDigital; otherwise it has four keys, read from the first
    such descendant in document order, and is not empty even when that
    element has none of the four attributes. *)
Theorem extraer_timbre_first_stamp (root : Element) :
  (extraer_timbre root = ∅
   <-> ~ has_descendant
         "{http://www.sat.gob.mx/TimbreFiscalDigital}TimbreFiscalDigital" root)
  /\ match filter
            (has_tag "{http://www.sat.gob.mx/TimbreFiscalDigital}TimbreFiscalDigital")
            (descendants root) with
     | [] => extraer_timbre root = ∅
     | timbre :: _ =>
         extraer_timbre root !! "uuid" = Some (get timbre "UUID")
         /\ extraer_timbre root !! "fecha_timbrado"
            = Some (get timbre "FechaTimbrado")
         /\ extraer_timbre root !! "rfc_prov_certif"
            = Some (get timbre "RfcProvCertif")
         /\ extraer_timbre root !! "no_certificado_sat"
            = Some (get timbre "NoCertificadoSAT")
         /\ dom (extraer_timbre root)
            = {[ "uuid"; "fecha_timbrado"; "rfc_prov_certif";
                 "no_certificado_sat" ]}
     end.
Proof.
  change "{http://www.sat.gob.mx/TimbreFiscalDigital}TimbreFiscalDigital"
    with (qname "tfd" "TimbreFiscalDigital").
  rewrite <- find_descendant_None. unfold extraer_timbre, find_descendant.
  rewrite findall_descendants_filter.
  destruct (filter (has_tag (qname "tfd" "TimbreFiscalDigital")) (descendants root))
    as [|timbre rest]; simpl.
  - split; [split; reflexivity | reflexivity].
  - split; [| repeat split].
    split; [| discriminate].
    intros H. apply (f_equal (fun m : strdict => m !! "uuid")) in H.
    rewrite lookup_empty in H. vm_compute in H. discriminate.
Qed.

(* ===================================================================== *)
(** ** The generations of the payment complement *)
(* ===================================================================== *)

(** X3.  The elements a payment lookup returns all belong to one generation:
    they are the 2.0 descendants when there is one, and the 1.0 descendants
    only when there is no 2.0 one.  Elements of the two generations are
    never returned together. *)
Theorem findall_pago_one_generation (name : string) (e : Element) :
  Scripts.findall_pago name e = Tool.findall_pago name e
  /\ (Tool.findall_pago name e = [] <->
      ~ has_descendant (qname "pago20" name) e
      /\ ~ has_descendant (qname "pago10" name) e)
  /\ ((Tool.findall_pago name e
       = filter (has_tag (qname "pago20" name)) (descendants e)
       /\ has_descendant (qname "pago20" name) e)
      \/ (Tool.findall_pago name e
          = filter (has_tag (qname "pago10" name)) (descendants e)
          /\ ~ has_descendant (qname "pago20" name) e)).
Proof.
  split; [reflexivity |].
  assert (Hnil : forall t, findall_descendants t e = [] <-> ~ has_descendant t e).
  { intros t. rewrite <- find_descendant_None. unfold find_descendant.
    destruct (findall_descendants t e); split; try discriminate; reflexivity. }
  unfold Tool.findall_pago. rewrite <- !Hnil, <- !findall_descendants_filter.
  destruct (findall_descendants (qname "pago20" name) e) as [|x l] eqn:H20.
  - split; [| right; split; reflexivity]. intuition.
  - split; [split; [discriminate | intros [H _]; discriminate H] |].
    left. split; [reflexivity |].
    apply find_descendant_is_Some. unfold find_descendant. rewrite H20.
    eexists. reflexivity.
Qed.

(* ===================================================================== *)
(** ** The version shown when loading *)
(* ===================================================================== *)

(** X4.  The two files detect the same version on every root whose tag, in lower
    case, does not contain cfdi (a tag in Clark notation of a real document
    does not); a version is never the empty text. *)
Theorem detectar_version_of_both_files (root : Element) :
  contains "cfdi" (lower (tag root)) = false ->
  Tool.detectar_version root = Scripts.detectar_version root
  /\ Tool.detectar_version root <> "".
Proof.
  intros Hcfdi. unfold Tool.detectar_version, Scripts.detectar_version.
  rewrite Hcfdi. simpl. rewrite !orb_false_r.
  split; [reflexivity |].
  destruct (nonempty (get root "Version")) as [v|] eqn:Hv.
  - destruct v; [destruct (get root "Version") as [[|]|]; discriminate |].
    simpl. discriminate.
  - destruct (get root "version") as [[|c v]|]; simpl;
      repeat destruct (contains _ _); discriminate.
Qed.

Lemma detectar_version_of_both_files_witness :
  contains "cfdi" (lower (tag legacy_cfdi)) = false
  /\ Tool.detectar_version (elem (qname "cfdi33" "Comprobante") [] []) = "3.3"
  /\ Tool.detectar_version legacy_cfdi = Scripts.detectar_version legacy_cfdi.
Proof.
  split; [reflexivity |]. split; [reflexivity |].
  apply (detectar_version_of_both_files legacy_cfdi). reflexivity.
Defined.

(** A tag on which the two files part: it carries the legacy namespace and
    the words cfdi and 4. *)
Example detectar_version_differs :
  Tool.detectar_version
    (elem "{http://www.sat.gob.mx/cfd/3}cfdi4" [] []) = "4.0"
  /\ Scripts.detectar_version
       (elem "{http://www.sat.gob.mx/cfd/3}cfdi4" [] []) = "3.3".
Proof. split; reflexivity. Qed.

(* ===================================================================== *)
(** ** A numeric attribute that is present but blank *)
(* ===================================================================== *)

Lemma is_space_not_underscore_digit (c : ascii) :
  is_space c = true -> is_underscore c = false /\ is_digit c = false.
Proof.
  destruct c as [[] [] [] [] [] [] [] []]; vm_compute; intros H;
    try discriminate H; split; reflexivity.
Qed.

Lemma drop_underscores_blank (l : list ascii) (prev : option ascii) :
  Forall (fun c => is_space c = true) l ->
  match prev with Some p => is_space p = true | None => True end ->
  drop_underscores prev l = Some l.
Proof.
  intros Hl. revert prev. induction Hl as [|c l Hc _ IH]; intros prev Hprev.
  - destruct prev as [p|]; simpl; [| reflexivity].
    destruct (is_space_not_underscore_digit p Hprev) as [-> _]. reflexivity.
  - destruct (is_space_not_underscore_digit c Hc) as [Hu Hd]. simpl. rewrite Hu.
    destruct prev as [p|].
    + destruct (is_space_not_underscore_digit p Hprev) as [-> _]. simpl.
      rewrite (IH (Some c) Hc). reflexivity.
    + rewrite (IH (Some c) Hc). reflexivity.
Qed.

Lemma drop_spaces_blank (l : list ascii) :
  Forall (fun c => is_space c = true) l -> drop_spaces l = [].
Proof. induction 1 as [|c l Hc _ IH]; simpl; [| rewrite Hc]; auto. Qed.

Lemma is_space_ascii (c : ascii) :
  is_space c = true -> (N_of_ascii c <? 0x80)%N = true.
Proof.
  destruct c as [[] [] [] [] [] [] [] []]; vm_compute; intros H;
    try discriminate H; reflexivity.
Qed.

Lemma float_of_string_blank (s : string) : blank s -> float_of_string s = None.
Proof.
  intros Hs. unfold float_of_string, to_ascii.
  replace (forallb (fun c => (N_of_ascii c <? 0x80)%N) (list_ascii_of_string s))
    with true.
  - unfold float_of_ascii. rewrite (drop_underscores_blank _ None Hs I).
    unfold strip. rewrite (drop_spaces_blank _ Hs). reflexivity.
  - symmetry. apply forallb_forall. intros c Hc.
    apply is_space_ascii. unfold blank in Hs. rewrite Forall_forall in Hs.
    apply Hs, list_elem_of_In, Hc.
Qed.

(** X5.  An absent numeric attribute reads as 0.0, but one that is present with
    an empty or blank text makes [float] raise: the read raises
    [ValueError], and so do the item and the general-data extractors when
    the attribute is the first number they read. *)
Theorem blank_numeric_attribute_raises (e : Element) (key s : string) :
  attrib e !! key = Some s ->
  blank s ->
  float_attr e key = Raise (ValueError s)
  /\ (key = "Cantidad" -> concepto_data e = Raise (ValueError s))
  /\ (key = "SubTotal" ->
      Tool.extraer_datos_generales e = Raise (ValueError s)
      /\ Scripts.extraer_datos_generales e = Raise (ValueError s)).
Proof.
  intros Hkey Hs.
  assert (H : float_attr e key = Raise (ValueError s)).
  { rewrite (float_attr_present _ _ _ Hkey), (float_of_string_blank _ Hs).
    reflexivity. }
  split; [exact H |]. split.
  - intros ->. unfold concepto_data. rewrite H. reflexivity.
  - intros ->. unfold Tool.extraer_datos_generales, Scripts.extraer_datos_generales.
    rewrite H. split; reflexivity.
Qed.

Lemma blank_numeric_attribute_witness :
  attrib (elem (qname "cfdi" "Concepto") [ ("Cantidad", " ") ] []) !! "Cantidad"
  = Some " "
  /\ blank " "
  /\ concepto_data (elem (qname "cfdi" "Concepto") [ ("Cantidad", " ") ] [])
     = Raise (ValueError " ").
Proof.
  assert (Hb : blank " ") by (repeat constructor).
  split; [reflexivity |]. split; [exact Hb |].
  apply (blank_numeric_attribute_raises
           (elem (qname "cfdi" "Concepto") [ ("Cantidad", " ") ] [])
           "Cantidad" " " eq_refl Hb).
  reflexivity.
Defined.

(* ===================================================================== *)
(** ** The taxes of the document and the taxes of its items *)
(* ===================================================================== *)

Lemma sublist_flat_map_elem {A B} (f : A -> list B) (l : list A) (x : A) :
  x ∈ l -> f x `sublist_of` flat_map f l.
Proof.
  induction 1 as [x l | x y l _ IH]; simpl.
  - apply sublist_inserts_r. reflexivity.
  - apply sublist_inserts_l. exact IH.
Qed.

Lemma nodes_sublist (e c : Element) :
  c ∈ nodes e -> nodes c `sublist_of` nodes e.
Proof.
  induction e as [t a cs IH] using Element_ind'. cbn [nodes children].
  intros [-> | H]%elem_of_cons; [reflexivity |].
  apply elem_of_flat_map in H as (ch & Hch & Hc).
  rewrite Forall_forall in IH. apply sublist_cons.
  etransitivity; [exact (IH ch Hch Hc) |].
  exact (sublist_flat_map_elem nodes cs ch Hch).
Qed.

Lemma descendants_sublist (e c : Element) :
  c ∈ nodes e -> descendants c `sublist_of` descendants e.
Proof.
  destruct e as [t a cs]. cbn [nodes children].
  intros [-> | H]%elem_of_cons; [reflexivity |].
  apply elem_of_flat_map in H as (ch & Hch & Hc).
  unfold descendants at 2. cbn [children].
  etransitivity; [| exact (sublist_flat_map_elem nodes cs ch Hch)].
  etransitivity; [| exact (nodes_sublist ch c Hc)].
  destruct c as [t' a' cs']. apply sublist_cons. reflexivity.
Qed.

Lemma sublist_filter_mono {A} (P : A -> Prop) `{!forall x, Decision (P x)}
  (l1 l2 : list A) :
  l1 `sublist_of` l2 -> filter P l1 `sublist_of` filter P l2.
Proof.
  induction 1 as [|x l1 l2 _ IH|x l1 l2 _ IH].
  - constructor.
  - rewrite !filter_cons. destruct (decide (P x)); [constructor |]; exact IH.
  - rewrite filter_cons. destruct (decide (P x)); [apply sublist_cons |]; exact IH.
Qed.

Lemma for_each_sublist {A B} (f : A -> result B) (l1 l2 : list A) (ys2 : list B) :
  l1 `sublist_of` l2 ->
  for_each f l2 = Ok ys2 ->
  exists ys1, for_each f l1 = Ok ys1 /\ ys1 `sublist_of` ys2.
Proof.
  intros Hsub. revert ys2. induction Hsub as [|x l1 l2 _ IH|x l1 l2 _ IH];
    intros ys2 H.
  - exists []. split; [reflexivity | apply sublist_nil_l].
  - simpl in H. apply bind_ok in H as (y & Hy & H).
    apply bind_ok in H as (ys & Hys & [= <-]).
    destruct (IH ys Hys) as (ys1 & H1 & Hs). exists (y :: ys1). split.
    + simpl. rewrite Hy. simpl. rewrite H1. reflexivity.
    + constructor. exact Hs.
  - simpl in H. apply bind_ok in H as (y & Hy & H).
    apply bind_ok in H as (ys & Hys & [= <-]).
    destruct (IH ys Hys) as (ys1 & H1 & Hs). exists ys1. split; [exact H1 |].
    apply sublist_cons. exact Hs.
Qed.

Lemma extraer_impuestos_concepto_sublist (root c : Element) (im imc : Impuestos) :
  c ∈ nodes root ->
  extraer_impuestos_concepto root = Ok im ->
  extraer_impuestos_concepto c = Ok imc ->
  traslados imc `sublist_of` traslados im
  /\ retenciones imc `sublist_of` retenciones im.
Proof.
  intros Hc Hroot Hitem. unfold extraer_impuestos_concepto in Hroot, Hitem.
  apply bind_ok in Hroot as (ts & Hts & Hroot).
  apply bind_ok in Hroot as (rs & Hrs & [= <-]).
  apply bind_ok in Hitem as (tsc & Htsc & Hitem).
  apply bind_ok in Hitem as (rsc & Hrsc & [= <-]).
  rewrite findall_descendants_filter in Hts, Hrs, Htsc, Hrsc. simpl.
  pose proof (descendants_sublist root c Hc) as Hsub. split.
  - destruct (for_each_sublist tax_entry _ _ ts
                (sublist_filter_mono _ _ _ Hsub) Hts) as (ys & Hys & Hs).
    rewrite Hys in Htsc. injection Htsc as <-. exact Hs.
  - destruct (for_each_sublist tax_entry _ _ rs
                (sublist_filter_mono _ _ _ Hsub) Hrs) as (ys & Hys & Hs).
    rewrite Hys in Hrsc. injection Hrsc as <-. exact Hs.
Qed.

(** X6.  In an assembled record the document-level [impuestos] hold the taxes of
    every line item: the transfers of each item appear among the transfers
    of the document, in the same order, and so do its withholdings. *)
Theorem document_taxes_contain_item_taxes
  (archivo_path now : string) (root : Element) (r : Tool.Resultado) :
  Tool.ensamblar archivo_path now root = Ok r ->
  Forall (fun c =>
            traslados (co_impuestos c) `sublist_of` traslados (Tool.impuestos r)
            /\ retenciones (co_impuestos c)
               `sublist_of` retenciones (Tool.impuestos r))
         (Tool.conceptos r).
Proof.
  intros H. unfold Tool.ensamblar in H.
  apply bind_ok in H as (dg & _ & H). apply bind_ok in H as (cs & Hcs & H).
  apply bind_ok in H as (cm & _ & H). apply bind_ok in H as (im & Him & [= <-]).
  simpl. unfold extraer_conceptos in Hcs. apply for_each_ok in Hcs.
  assert (Hin : forall e,
            e ∈ match findall_path2 (qname "cfdi" "Conceptos")
                        (qname "cfdi" "Concepto") root with
                | [] => findall_path2 (qname "cfdi33" "Conceptos")
                          (qname "cfdi33" "Concepto") root
                | _ :: _ => findall_path2 (qname "cfdi" "Conceptos")
                              (qname "cfdi" "Concepto") root
                end -> e ∈ nodes root).
  { intros e. destruct (findall_path2 (qname "cfdi" "Conceptos")
                          (qname "cfdi" "Concepto") root) eqn:H4.
    - apply findall_path2_nodes.
    - rewrite <- H4. apply findall_path2_nodes. }
  revert Hin. induction Hcs as [|e c es cs' He _ IH]; intros Hin; constructor.
  - unfold concepto_data in He. ok_steps He.
    apply (extraer_impuestos_concepto_sublist root e); auto. apply Hin. left.
  - apply IH. intros e' He'. apply Hin. right. exact He'.
Qed.

Lemma document_taxes_witness :
  exists r,
    Tool.ensamblar "f.xml" "2026-01-01T00:00:00" comprobante_con_impuestos = Ok r
    /\ Forall (fun c =>
                 traslados (co_impuestos c)
                 `sublist_of` traslados (Tool.impuestos r)
                 /\ retenciones (co_impuestos c)
                    `sublist_of` retenciones (Tool.impuestos r))
              (Tool.conceptos r).
Proof.
  destruct (Tool.ensamblar "f.xml" "2026-01-01T00:00:00"
              comprobante_con_impuestos) as [r|x] eqn:H;
    [| vm_compute in H; discriminate H].
  exists r. split; [reflexivity |].
  exact (document_taxes_contain_item_taxes _ _ _ r H).
Defined.

(* ===================================================================== *)
(** ** The payments of the two files *)
(* ===================================================================== *)

Lemma for_each_map_ok {A B C} (f : A -> result B) (g : A -> result C)
  (h : B -> C) (l : list A) (ys : list B) :
  (forall x y, f x = Ok y -> g x = Ok (h y)) ->
  for_each f l = Ok ys -> for_each g l = Ok (map h ys).
Proof.
  intros Hfg. revert ys. induction l as [|x l IH]; intros ys H; simpl in *.
  - injection H as <-. reflexivity.
  - apply bind_ok in H as (y & Hy & H).
    apply bind_ok in H as (ys' & Hys & [= <-]).
    rewrite (Hfg _ _ Hy). simpl. rewrite (IH _ Hys). reflexivity.
Qed.

Lemma Tool_doc_relacionado_sin_traslados (doc : Element)
  (d : Tool.DoctoRelacionado) :
  Tool.doc_relacionado doc = Ok d ->
  Scripts.doc_relacionado doc = Ok (sin_traslados_dr d).
Proof.
  unfold Tool.doc_relacionado, Scripts.doc_relacionado. cbv zeta. intros H.
  apply bind_ok in H as (ts & _ & H). apply bind_ok in H as (a & Ha & H).
  apply bind_ok in H as (b & Hb & H). apply bind_ok in H as (c & Hc & [= <-]).
  rewrite Ha. simpl. rewrite Hb. simpl. rewrite Hc. reflexivity.
Qed.

Lemma Tool_pago_data_sin_traslados (pago : Element) (p : Tool.Pago) :
  Tool.pago_data pago = Ok p ->
  Scripts.pago_data pago = Ok (pago_sin_traslados_dr p).
Proof.
  unfold Tool.pago_data, Scripts.pago_data. cbv zeta. intros H.
  apply bind_ok in H as (m & Hm & H). apply bind_ok in H as (ds & Hds & [= <-]).
  rewrite Hm. simpl.
  change (Scripts.findall_pago "DoctoRelacionado" pago)
    with (Tool.findall_pago "DoctoRelacionado" pago).
  rewrite (for_each_map_ok _ _ _ _ _ Tool_doc_relacionado_sin_traslados Hds).
  reflexivity.
Qed.

(** X7.  Whenever the payment extractor of [cfdi_tool] returns, the one of the
    scripts file returns too, with the same payments and the same related
    documents in the same order, each without its [traslados_dr]: the
    per-document taxes are the only thing [cfdi_tool] adds. *)
Theorem payments_of_both_files (pagos : Element) (ps : list Tool.Pago) :
  Tool.extraer_complemento_pagos pagos = Ok ps ->
  Scripts.extraer_complemento_pagos pagos = Ok (map pago_sin_traslados_dr ps).
Proof.
  unfold Tool.extraer_complemento_pagos, Scripts.extraer_complemento_pagos.
  cbv zeta. intros H.
  change (Scripts.findall_pago "Pago" pagos) with (Tool.findall_pago "Pago" pagos).
  exact (for_each_map_ok _ _ _ _ _ Tool_pago_data_sin_traslados H).
Qed.

Lemma payments_of_both_files_witness :
  exists ps,
    Tool.extraer_complemento_pagos complemento_pagos = Ok ps
    /\ Scripts.extraer_complemento_pagos complemento_pagos
       = Ok (map pago_sin_traslados_dr ps).
Proof.
  destruct (Tool.extraer_complemento_pagos complemento_pagos) as [ps|x] eqn:H;
    [| vm_compute in H; discriminate H].
  exists ps. split; [reflexivity |].
  exact (payments_of_both_files complemento_pagos ps H).
Defined.

(** The converse fails: a per-document tax that is not a number stops
    [cfdi_tool] and goes unseen by the scripts file. *)
Example payments_scripts_only :
  let pagos :=
    elem (qname "pago20" "Pagos") []
      [ elem (qname "pago20" "Pago") []
          [ elem (qname "pago20" "DoctoRelacionado") []
              [ elem (qname "pago20" "ImpuestosDR") []
                  [ elem (qname "pago20" "TrasladoDR")
                      [ ("BaseDR", "mil") ] [] ] ] ] ] in
  Tool.extraer_complemento_pagos pagos = Raise (ValueError "mil")
  /\ exists ps, Scripts.extraer_complemento_pagos pagos = Ok ps.
Proof. split; [vm_compute; reflexivity |]. eexists. vm_compute. reflexivity. Qed.

(* ===================================================================== *)
(** ** The line items read *)
(* ===================================================================== *)




(* ===================================================================== *)
(** ** The summary of an assembled record *)
(* ===================================================================== *)




(* ===================================================================== *)
(** ** The rows of the workbook *)
(* ===================================================================== *)

Lemma fold_agregar (lista : list Tool.Resultado) (acc : Excel.filas) :
  fold_left Excel.agregar lista acc
  = Excel.mkFilas
      (Excel.filas_general acc ++ map Excel.fila_gen lista)
      (Excel.filas_conceptos acc
       ++ flat_map (fun d => map (Excel.fila_con (Excel.uuid_de d))
                               (Tool.conceptos d)) lista)
      (Excel.filas_documentos_relacionados acc
       ++ flat_map Excel.documentos_de lista).
Proof.
  revert acc. induction lista as [|d lista IH]; intros acc; simpl.
  - rewrite !app_nil_r. destruct acc. reflexivity.
  - rewrite IH. unfold Excel.agregar. simpl. rewrite <- !app_assoc. reflexivity.
Qed.

Lemma construir_filas_unfold (lista : list Tool.Resultado) :
  Excel.construir_filas lista
  = Excel.mkFilas
      (map Excel.fila_gen lista)
      (flat_map (fun d => map (Excel.fila_con (Excel.uuid_de d))
                            (Tool.conceptos d)) lista)
      (flat_map Excel.documentos_de lista).
Proof. unfold Excel.construir_filas. rewrite fold_agregar. reflexivity. Qed.

Lemma columna_UUID_general (lista : list Tool.Resultado) :
  columna "UUID" (map Excel.fila_gen lista)
  = map (fun d => Some (Excel.uuid_de d)) lista.
Proof. unfold columna. rewrite map_map. reflexivity. Qed.

Lemma length_flat_map_sum {A B} (f : A -> list B) (l : list A) :
  length (flat_map f l) = sum_list (map (fun x => length (f x)) l).
Proof.
  induction l as [|x l IH]; simpl; [reflexivity |].
  rewrite length_app, IH. reflexivity.
Qed.

Lemma documentos_de_row (d : Tool.Resultado) (f : Excel.fila) :
  f ∈ Excel.documentos_de d ->
  celda_de "UUID_CFDI" f = Some (Excel.uuid_de d)
  /\ celda_de "UUID_Pago" f = Some (Excel.uuid_de d).
Proof.
  unfold Excel.documentos_de. cbv zeta.
  destruct (Tool.complementos d !! "pagos") as [ps|]; [| intros H; inversion H].
  intros (p & _ & Hf)%elem_of_flat_map.
  apply list_elem_of_In, in_map_iff in Hf as (doc & <- & _).
  split; reflexivity.
Qed.

(** X10.  The rows built from a list of records.  The general sheet has one row
    per record, in order, and its UUID column holds the UUID of each; the
    items sheet has one row per line item of every record.  Every row of
    the items sheet and of the related-documents sheet carries in UUID_CFDI
    a value of the UUID column of the general sheet, and in a
    related-documents row UUID_Pago repeats UUID_CFDI. *)
Theorem rows_refer_to_the_general_sheet (lista : list Tool.Resultado) :
  columna "UUID" (Excel.filas_general (Excel.construir_filas lista))
  = map (fun d => Some (Excel.uuid_de d)) lista
  /\ length (Excel.filas_conceptos (Excel.construir_filas lista))
     = sum_list (map (fun d => length (Tool.conceptos d)) lista)
  /\ (forall f,
        f ∈ Excel.filas_conceptos (Excel.construir_filas lista)
        \/ f ∈ Excel.filas_documentos_relacionados (Excel.construir_filas lista) ->
        celda_de "UUID_CFDI" f
        ∈ columna "UUID" (Excel.filas_general (Excel.construir_filas lista)))
  /\ (forall f,
        f ∈ Excel.filas_documentos_relacionados (Excel.construir_filas lista) ->
        celda_de "UUID_Pago" f = celda_de "UUID_CFDI" f).
Proof.
  rewrite construir_filas_unfold. simpl. rewrite columna_UUID_general.
  split; [reflexivity |]. split.
  { rewrite length_flat_map_sum. f_equal. apply map_ext. intros d.
    apply length_map. }
  split.
  - intros f [Hf | Hf]; apply elem_of_flat_map in Hf as (d & Hd & Hf).
    + apply list_elem_of_In, in_map_iff in Hf as (c & <- & _). simpl.
      apply list_elem_of_In, in_map_iff. exists d.
      split; [reflexivity | apply list_elem_of_In, Hd].
    + destruct (documentos_de_row d f Hf) as [-> _].
      apply list_elem_of_In, in_map_iff. exists d.
      split; [reflexivity | apply list_elem_of_In, Hd].
  - intros f (d & _ & Hf)%elem_of_flat_map.
    destruct (documentos_de_row d f Hf) as [-> ->]. reflexivity.
Qed.

(** Two records without a stamp share the UUID [SIN_UUID], so their item
    rows cannot be told apart by UUID_CFDI. *)
Example rows_without_stamp :
  exists r,
    Tool.ensamblar "a.xml" "2026-01-01T00:00:00" minimal_cfdi = Ok r
    /\ columna "UUID_CFDI" (Excel.filas_conceptos (Excel.construir_filas [r; r]))
       = [ Some (Excel.Texto "SIN_UUID"); Some (Excel.Texto "SIN_UUID") ].
Proof. eexists. split; vm_compute; reflexivity. Qed.

(* ===================================================================== *)
(** ** The sheets of the workbook *)
(* ===================================================================== *)

Lemma flat_map_nil_iff {A B} (f : A -> list B) (l : list A) :
  flat_map f l = [] <-> forall x, x ∈ l -> f x = [].
Proof.
  induction l as [|x l IH]; simpl.
  - split; [intros _ y Hy; inversion Hy | reflexivity].
  - split.
    + intros [Hx Hl]%app_eq_nil y [-> | Hy]%elem_of_cons; [exact Hx |].
      apply IH; assumption.
    + intros H. rewrite (H x) by left. simpl. apply IH. intros y Hy.
      apply H. right. exact Hy.
Qed.

Lemma documentos_de_nil (d : Tool.Resultado) :
  Excel.documentos_de d = [] <-> ~ con_documentos d.
Proof.
  unfold Excel.documentos_de, con_documentos. cbv zeta.
  destruct (Tool.complementos d !! "pagos") as [ps|].
  - rewrite flat_map_nil_iff. split.
    + intros H (ps' & p & [= <-] & Hp & Hne). apply Hne.
      specialize (H p Hp). destruct (Tool.pg_documentos_relacionados p);
        [reflexivity | discriminate H].
    + intros H p Hp.
      destruct (Tool.pg_documentos_relacionados p) as [|doc docs] eqn:Hd;
        [reflexivity |].
      exfalso. apply H. exists ps, p. rewrite Hd. split; [reflexivity |].
      split; [exact Hp | discriminate].
  - split; [intros _ (ps & p & H & _); discriminate H | reflexivity].
Qed.

Lemma flat_map_not_nil {A B} (f : A -> list B) (l : list A) :
  flat_map f l <> [] -> exists x, x ∈ l /\ f x <> [].
Proof.
  induction l as [|x l IH]; simpl; [contradiction |].
  destruct (f x) as [|y ys] eqn:Hx; simpl.
  - intros (x' & Hin & Hx')%IH. exists x'. split; [right; exact Hin | exact Hx'].
  - intros _. exists x. rewrite Hx. split; [left | discriminate].
Qed.

Lemma documentos (lista : list Tool.Resultado) :
  (flat_map Excel.documentos_de lista = []
   -> forall d, d ∈ lista -> ~ con_documentos d)
  /\ (flat_map Excel.documentos_de lista <> []
      -> exists d, d ∈ lista /\ con_documentos d).
Proof.
  split.
  - rewrite flat_map_nil_iff. intros H d Hd. apply documentos_de_nil, H, Hd.
  - intros (d & Hd & Hne)%flat_map_not_nil. exists d. split; [exact Hd |].
    unfold Excel.documentos_de in Hne. unfold con_documentos. cbv zeta in Hne.
    destruct (Tool.complementos d !! "pagos") as [ps|]; [| contradiction].
    apply flat_map_not_nil in Hne as (p & Hp & Hne). exists ps, p.
    split; [reflexivity |]. split; [exact Hp |]. intros Hnil. apply Hne.
    rewrite Hnil. reflexivity.
Qed.

(** X11.  [exportar_a_excel] prints three lines.  It writes no workbook exactly
    when the list of records is empty or the writing fails.  The workbook
    it writes has the sheets CFDI_General and Conceptos, with the rows
    built from the records, and a third sheet Documentos Relacionados
    exactly when some record has a payment with a related document; that
    sheet is never empty. *)
Theorem exportar_a_excel_sheets (escritura : option string)
  (lista : list Tool.Resultado) (ruta_salida : string) :
  length (Excel.impreso (Excel.exportar_a_excel escritura lista ruta_salida)) = 3
  /\ (Excel.escrito (Excel.exportar_a_excel escritura lista ruta_salida) = None
      <-> lista = [] \/ is_Some escritura)
  /\ forall hojas,
       Excel.escrito (Excel.exportar_a_excel escritura lista ruta_salida)
       = Some hojas ->
       (hojas = [ ("CFDI_General",
                    Excel.filas_general (Excel.construir_filas lista));
                  ("Conceptos",
                    Excel.filas_conceptos (Excel.construir_filas lista)) ]
        /\ forall d, d ∈ lista -> ~ con_documentos d)
       \/ (hojas = [ ("CFDI_General",
                       Excel.filas_general (Excel.construir_filas lista));
                     ("Conceptos",
                       Excel.filas_conceptos (Excel.construir_filas lista));
                     ("Documentos Relacionados",
                       Excel.filas_documentos_relacionados
                         (Excel.construir_filas lista)) ]
           /\ Excel.filas_documentos_relacionados (Excel.construir_filas lista)
              <> []
           /\ exists d, d ∈ lista /\ con_documentos d).
Proof.
  unfold Excel.exportar_a_excel. cbv zeta.
  destruct (documentos lista) as [Hnil Hcons].
  rewrite construir_filas_unfold.
  cbn [Excel.filas_general Excel.filas_conceptos
       Excel.filas_documentos_relacionados].
  assert (Hgen : map Excel.fila_gen lista = [] <-> lista = [])
    by (destruct lista; split; (reflexivity || discriminate)).
  destruct (map Excel.fila_gen lista) as [|g gen].
  { cbn [Excel.impreso Excel.escrito]. split; [reflexivity |].
    split; [| discriminate]. split; [| reflexivity].
    intros _. left. apply Hgen. reflexivity. }
  assert (Hlista : lista <> [])
    by (intros H; apply Hgen in H; discriminate H).
  destruct escritura as [e|]; cbn [Excel.impreso Excel.escrito].
  { split; [reflexivity |]. split; [| discriminate]. split; eauto. }
  split; [reflexivity |]. split.
  { split; [discriminate |]. intros [H | [x H]]; [contradiction | discriminate H]. }
  intros hojas [= <-].
  destruct (flat_map Excel.documentos_de lista) as [|doc docs].
  - left. split; [reflexivity |]. apply Hnil. reflexivity.
  - right. split; [reflexivity |]. split; [discriminate |].
    apply Hcons. discriminate.
Qed.

(* ===================================================================== *)
(** ** From the document to the general sheet *)
(* ===================================================================== *)

(** X12.  The general row of an assembled record.  Its UUID is the UUID attribute
    of the first stamp of the document, empty when the stamp lacks the
    attribute, and [SIN_UUID] only when the document has no stamp.  Its
    columns [tasa_cuota] and [importe] are those of the first
    [cfdi:Traslado] of the whole document in document order, and the texts
    [SIN_TASA] and [SIN_IMPORTE] when the document has none. *)
Theorem general_row_of_assembled_record (archivo_path now : string)
  (root : Element) (r : Tool.Resultado) :
  Tool.ensamblar archivo_path now root = Ok r ->
  celda_de "UUID" (Excel.fila_gen r)
  = Some match find_descendant (qname "tfd" "TimbreFiscalDigital") root with
         | Some timbre => Excel.de_texto (get timbre "UUID")
         | None => Excel.Texto "SIN_UUID"
         end
  /\ match find_descendant (qname "cfdi" "Traslado") root with
     | Some traslado =>
         exists entry,
           tax_entry traslado = Ok entry
           /\ celda_de "tasa_cuota" (Excel.fila_gen r)
              = Some (Excel.Numero (tx_tasa_cuota entry))
           /\ celda_de "importe" (Excel.fila_gen r)
              = Some (Excel.Numero (tx_importe entry))
     | None =>
         celda_de "tasa_cuota" (Excel.fila_gen r)
         = Some (Excel.Texto "SIN_TASA")
         /\ celda_de "importe" (Excel.fila_gen r)
            = Some (Excel.Texto "SIN_IMPORTE")
     end.
Proof.
  intros H. unfold Tool.ensamblar in H.
  apply bind_ok in H as (dg & _ & H). apply bind_ok in H as (cs & _ & H).
  apply bind_ok in H as (cm & _ & H). apply bind_ok in H as (im & Him & [= <-]).
  split.
  - unfold Excel.fila_gen, Excel.uuid_de, extraer_timbre. cbn [celda_de String.eqb Ascii.eqb Bool.eqb Tool.timbre].
    destruct (find_descendant (qname "tfd" "TimbreFiscalDigital") root);
      reflexivity.
  - unfold extraer_impuestos_concepto in Him.
    apply bind_ok in Him as (ts & Hts & Him).
    apply bind_ok in Him as (rs & _ & [= <-]).
    unfold find_descendant.
    destruct (findall_descendants (qname "cfdi" "Traslado") root) as [|t l].
    + injection Hts as <-. split; reflexivity.
    + simpl in Hts. apply bind_ok in Hts as (entry & Hentry & Hts).
      apply bind_ok in Hts as (ys & _ & [= <-]).
      exists entry. split; [exact Hentry |]. split; reflexivity.
Qed.

Lemma general_row_witness :
  exists r,
    Tool.ensamblar "pago.xml" "2026-01-01T00:00:00" comprobante_de_pago = Ok r
    /\ celda_de "UUID" (Excel.fila_gen r)
       = Some (Excel.Texto "0C1D2E3F-0000-4000-8000-000000000002")
    /\ celda_de "importe" (Excel.fila_gen r) = Some (Excel.Texto "SIN_IMPORTE").
Proof.
  destruct (Tool.ensamblar "pago.xml" "2026-01-01T00:00:00" comprobante_de_pago)
    as [r|x] eqn:H; [| vm_compute in H; discriminate H].
  exists r.
  destruct (general_row_of_assembled_record _ _ _ r H) as [Hu Ht].
  split; [reflexivity |]. split.
  - rewrite Hu. vm_compute. reflexivity.
  - vm_compute in Ht. apply Ht.
Defined.

(* ===================================================================== *)
(** ** The batch *)
(* ===================================================================== *)

Lemma returned_run_bind {A B} (m : run A) (k : A -> run B) :
  returned (run_bind m k) = bind (returned m) (fun a => returned (k a)).
Proof. unfold run_bind. destruct (returned m); reflexivity. Qed.

Lemma procesar_archivos_ok (w : World) (input_dir : string)
  (archivos : list string) (acc : list Tool.Resultado) :
  (forall f, f ∈ archivos ->
     exists o, returned (Tool.procesar_cfdi_completo w (Main.join input_dir f))
               = Ok o) ->
  returned (Main.procesar_archivos w input_dir archivos acc)
  = Ok (acc ++ omap (fun f => registro_de w (Main.join input_dir f)) archivos).
Proof.
  revert acc. induction archivos as [|f l IH]; intros acc Hall.
  - simpl. rewrite app_nil_r. reflexivity.
  - cbn [Main.procesar_archivos]. cbv zeta. rewrite returned_run_bind.
    destruct (Hall f) as [o Ho]; [left |]. rewrite Ho. cbn [bind].
    rewrite IH by (intros g Hg; apply Hall; right; exact Hg).
    csimpl. unfold registro_de at 2. rewrite Ho.
    destruct o as [r|]; [rewrite <- app_assoc |]; reflexivity.
Qed.


(** X13.  When processing returns on every CFDI of the input folder, [main]
    returns, and what it exports is the list of the records of the files
    that gave one, in the order of the listing: a file that fails to load
    is skipped.  Nothing is exported when no file gave a record or the
    export module cannot be imported. *)
Theorem main_exports_the_records (env : Main.Entorno)
  (input_dir output_dir : string) :
  Main.isdir_input env = true ->
  (forall f, f ∈ archivos_xml env ->
     exists o, returned (Tool.procesar_cfdi_completo (Main.mundo env)
                           (Main.join input_dir f)) = Ok o) ->
  returned (Main.main env input_dir output_dir)
  = Ok (Main.mkHecho (negb (Main.exists_output env))
          match omap (fun f => registro_de (Main.mundo env)
                                 (Main.join input_dir f))
                  (archivos_xml env) with
          | [] => None
          | todos =>
              if Main.importable env
              then Some (Excel.exportar_a_excel (Main.escritura env) todos
                           (Main.join output_dir "reporte_cfdi.xlsx"))
              else None
          end).
Proof.
  intros Hdir Hall. unfold Main.main. rewrite returned_run_bind.
  cbn [returned print bind]. rewrite Hdir. cbn [negb]. cbv zeta.
  rewrite returned_run_bind.
  replace (returned (if negb (Main.exists_output env)
                     then print ("La carpeta de salida '" +:+ output_dir
                                 +:+ "' no existe. Creándola...")
                     else ret tt)) with (Ok tt : result unit)
    by (destruct (Main.exists_output env); reflexivity).
  cbn [bind]. unfold archivos_xml in *.
  destruct (List.filter (fun f => Main.endswith ".xml" (lower f))
              (Main.listdir_input env)) as [|f l] eqn:Hf.
  { rewrite returned_run_bind. reflexivity. }
  rewrite returned_run_bind. cbn [returned print bind].
  rewrite returned_run_bind. rewrite (procesar_archivos_ok _ _ _ [] Hall).
  cbn [bind app].
  destruct (omap (fun f0 => registro_de (Main.mundo env)
                              (Main.join input_dir f0)) (f :: l)) as [|r rs].
  { rewrite returned_run_bind. reflexivity. }
  rewrite returned_run_bind. cbn [returned print bind].
  destruct (Main.importable env); [reflexivity |].
  rewrite returned_run_bind. reflexivity.
Qed.

Lemma main_exports_the_records_witness :
  exists rs,
    omap (fun f => registro_de (Main.mundo entorno_de_prueba)
                     (Main.join "/in" f))
      (archivos_xml entorno_de_prueba) = rs
    /\ length rs = 2
    /\ returned (Main.main entorno_de_prueba "/in" "/out")
       = Ok (Main.mkHecho true
               (Some (Excel.exportar_a_excel None rs "/out/reporte_cfdi.xlsx"))).
Proof.
  eexists. split; [reflexivity |]. split; [vm_compute; reflexivity |].
  rewrite (main_exports_the_records entorno_de_prueba "/in" "/out").
  - vm_compute. reflexivity.
  - reflexivity.
  - intros f Hf. eexists. vm_compute in Hf.
    apply elem_of_cons in Hf as [-> | Hf]; [vm_compute; reflexivity |].
    apply elem_of_cons in Hf as [-> | Hf]; [vm_compute; reflexivity |].
    inversion Hf.
Defined.


